(** * Interview pipeline of the AI Excel interviewer: model and properties

    A shallow embedding of the decision logic of the repository:

    - [src/lib/types.ts] (the data model),
    - [src/lib/repositories/base.ts] and [src/lib/repositories/interview.ts]
      (the session table and its transitions),
    - [src/services/interview/interview-orchestrator.ts] (the orchestrator),
    - [src/services/evaluation/evaluation-engine.ts] (rule tier, AI fallback,
      score aggregation; its text follows the orchestrator's in the same
      source file),
    - [src/services/questions/question-engine.ts] (coverage, category and
      difficulty selection, question lookup),
    - [src/data/excel-questions.ts] (the role weight table and the static
      question bank of eight questions).

    Conventions of the model.

    - A JavaScript [number] is an exact rational ([Q]); the integer columns of
      the database are [Z].  Rounding of binary floating point is not
      modelled; every constant of the source ([0.4], [0.9], [95], ...) is the
      rational it denotes.  Where a result of the source depends on the
      rounding (the order of a sum of fractions, a product divided again by
      its factor) the definition says so, and the statements keep to what
      holds of the doubles as well.
    - An [await] on the database is a point at which other calls can run:
      an operation that reads and then writes across such points takes the
      database of each step as a separate argument.
    - A JavaScript string is a [string] of 8-bit characters; [toLowerCase]
      and [trim] act on the ASCII letters and the ASCII white space.
    - A thrown [Error] is the [Err] case of [Result], carrying its message.
    - The database behind Prisma is an explicit value [Db] threaded through
      the calls; [Date.now()], the identifier of a created row, the draws of
      [Math.random()] and the values of [uuidv4()] are inputs.
    - The OpenAI client is a parameter; every call made to it is recorded. *)

From Stdlib Require Import String Ascii List ZArith QArith Qround Qminmax Lia Lqa Bool.
From Stdlib Require Import DecimalString.
From stdpp Require Import base option list gmap strings.

Open Scope string_scope.

(** ** Part I.  Definitions *)

(** *** JavaScript string primitives used by the source *)

Module JS.

Definition isUpper (c : ascii) : bool :=
  let n := nat_of_ascii c in (65 <=? n)%nat && (n <=? 90)%nat.

Definition lowerChar (c : ascii) : ascii :=
  if isUpper c then ascii_of_nat (nat_of_ascii c + 32) else c.

(** [String.prototype.toLowerCase] *)
Fixpoint toLowerCase (s : string) : string :=
  match s with
  | EmptyString => EmptyString
  | String c s' => String (lowerChar c) (toLowerCase s')
  end.

(** tab, line feed, vertical tab, form feed, carriage return, space *)
Definition isWhiteSpace (c : ascii) : bool :=
  let n := nat_of_ascii c in
  ((9 <=? n)%nat && (n <=? 13)%nat) || (n =? 32)%nat.

Fixpoint trimStart (s : string) : string :=
  match s with
  | EmptyString => EmptyString
  | String c s' => if isWhiteSpace c then trimStart s' else s
  end.

Fixpoint reverse (s acc : string) : string :=
  match s with
  | EmptyString => acc
  | String c s' => reverse s' (String c acc)
  end.

Definition trimEnd (s : string) : string :=
  reverse (trimStart (reverse s EmptyString)) EmptyString.

(** [String.prototype.trim] *)
Definition trim (s : string) : string := trimEnd (trimStart s).

Fixpoint startsWith (s p : string) : bool :=
  match p, s with
  | EmptyString, _ => true
  | String _ _, EmptyString => false
  | String a p', String b s' => if Ascii.eqb a b then startsWith s' p' else false
  end.

(** [String.prototype.includes]: [p] occurs in [s] at some position *)
Fixpoint includes (s p : string) : bool :=
  startsWith s p ||
  match s with
  | EmptyString => false
  | String _ s' => includes s' p
  end.

(** decimal rendering of an integer inside a template string *)
Definition showZ (z : Z) : string := NilZero.string_of_int (Z.to_int z).

End JS.

(** *** Thrown errors *)

Inductive Result (A : Type) : Type :=
| Ok (a : A)
| Err (message : string).
Arguments Ok {A} a.
Arguments Err {A} message.

Definition bind {A B} (r : Result A) (k : A -> Result B) : Result B :=
  match r with
  | Ok a => k a
  | Err m => Err m
  end.

Notation "x <- r ;; k" := (bind r (fun x => k))
  (at level 100, r at next level, right associativity).
Notation "r ;;; k" := (bind r (fun _ => k))
  (at level 100, right associativity).

Definition isOk {A} (r : Result A) : bool :=
  match r with Ok _ => true | Err _ => false end.

(** *** [src/lib/types.ts] *)

Inductive ExcelSkillCategory :=
| BASIC_FORMULAS
| DATA_MANIPULATION
| PIVOT_TABLES
| ADVANCED_FUNCTIONS
| DATA_VISUALIZATION
| MACROS_VBA
| DATA_MODELING.

(** the string value of each member of the enum *)
Definition categoryValue (c : ExcelSkillCategory) : string :=
  match c with
  | BASIC_FORMULAS => "basic_formulas"
  | DATA_MANIPULATION => "data_manipulation"
  | PIVOT_TABLES => "pivot_tables"
  | ADVANCED_FUNCTIONS => "advanced_functions"
  | DATA_VISUALIZATION => "data_visualization"
  | MACROS_VBA => "macros_vba"
  | DATA_MODELING => "data_modeling"
  end.

Inductive DifficultyLevel := basic | intermediate | advanced.
Definition ExcelLevel := DifficultyLevel.
Inductive InterviewStatus := active | paused | completed.
Inductive TurnType := question | response | system.

#[global] Instance ExcelSkillCategory_eq_dec : EqDecision ExcelSkillCategory.
Proof. solve_decision. Defined.
#[global] Instance DifficultyLevel_eq_dec : EqDecision DifficultyLevel.
Proof. solve_decision. Defined.
#[global] Instance InterviewStatus_eq_dec : EqDecision InterviewStatus.
Proof. solve_decision. Defined.
#[global] Instance TurnType_eq_dec : EqDecision TurnType.
Proof. solve_decision. Defined.

Record SkillScores := {
  overall : Q;
  basicFormulas : Q;
  dataManipulation : Q;
  pivotTables : Q;
  advancedFunctions : Q;
  dataVisualization : Q;
  macrosVBA : Q;
  dataModeling : Q
}.

Record ExpectedAnswer := {
  pattern : string;
  answerScore : Q;
  explanation : string
}.

Record EvaluationCriterion := {
  criterionName : string;
  weight : Q;
  description : string
}.

Record CommonMistake := {
  mistakePattern : string;
  deduction : Q;
  mistakeFeedback : string
}.

Record PartialCreditRule := {
  condition : string;
  creditPercentage : Q;
  ruleFeedback : string
}.

Record EvaluationRubric := {
  maxScore : Q;
  criteria : list EvaluationCriterion;
  commonMistakes : list CommonMistake;
  partialCreditRules : list PartialCreditRule
}.

Record FollowUpCondition := {
  trigger : string;
  questionTemplate : string
}.

Record Question := {
  id : string;
  category : ExcelSkillCategory;
  difficulty : DifficultyLevel;
  text : string;
  expectedAnswerPatterns : list string;
  evaluationCriteria : EvaluationRubric;
  followUpTriggers : list FollowUpCondition
}.

(** an entry of the static bank: [Omit<ExcelQuestion, 'id' | 'usageCount' | 'averageScore'>] *)
Record BankQuestion := {
  bankCategory : ExcelSkillCategory;
  bankDifficulty : DifficultyLevel;
  bankText : string;
  expectedAnswers : list ExpectedAnswer;
  evaluationRubric : EvaluationRubric;
  tags : list string
}.

Record PartialCredit := {
  criterion : string;
  points : Q;
  creditReasoning : string
}.

Record EvaluationResult := {
  questionId : string;
  score : Q;
  confidence : Q;
  reasoning : string;
  partialCredits : list PartialCredit;
  suggestedFollowUp : option string
}.

(** the [metadata] of a turn: the two keys the source reads or writes *)
Record TurnMetadata := {
  metaQuestion : option Question;
  metaQuestionIndex : option Z
}.

Record ConversationTurn := {
  turnId : string;
  turnType : TurnType;
  content : string;
  timestamp : Z;
  turnMetadata : option TurnMetadata
}.

Record InterviewSession := {
  sessionId : string;
  candidateId : string;
  roleLevel : ExcelLevel;
  status : InterviewStatus;
  currentQuestionIndex : Z;
  conversationHistory : list ConversationTurn;
  skillAssessment : SkillScores;
  startTime : Z;
  endTime : option Z;
  sessionMetadata : list (string * string)
}.

Record InterviewContext := {
  contextSessionId : string;
  candidateLevel : ExcelLevel;
  previousQuestions : list Question;
  currentSkillScores : list (string * Q);
  contextHistory : list ConversationTurn
}.

(** *** [src/services/evaluation/evaluation-engine.ts] *)

Module Evaluation.

Local Open Scope Q_scope.

(** one call to [OpenAIClient.evaluateExcelResponse] *)
Record AiCall := {
  callQuestion : Question;
  callResponse : string;
  callContext : InterviewContext
}.

(** the value of an [async] evaluation together with the AI calls it made *)
Record Evaluated := {
  outcome : Result EvaluationResult;
  aiCalls : list AiCall
}.

Definition mistakeCredit (mistake : CommonMistake) : PartialCredit :=
  {| criterion := "Common Mistake";
     points := - deduction mistake;
     creditReasoning := mistakeFeedback mistake |}.

Definition ruleCredit (q : Question) (rule : PartialCreditRule) : PartialCredit :=
  {| criterion := "Partial Credit";
     points := (maxScore (evaluationCriteria q) * creditPercentage rule) / 100;
     creditReasoning := ruleFeedback rule |}.

(** the two loops that fill [partialCredits] (the running [deductions]
    total of the source is never read) *)
Definition collectPartialCredits (q : Question) (normalizedResponse : string)
  : list PartialCredit :=
  (List.map mistakeCredit
     (List.filter
        (fun mistake => JS.includes normalizedResponse (JS.toLowerCase (mistakePattern mistake)))
        (commonMistakes (evaluationCriteria q)))
   ++
   List.map (ruleCredit q)
     (List.filter
        (fun rule => JS.includes normalizedResponse (JS.toLowerCase (condition rule)))
        (partialCreditRules (evaluationCriteria q))))%list.

Definition tryRuleBasedEvaluation (q : Question) (response : string)
  : option EvaluationResult :=
  let normalizedResponse := JS.trim (JS.toLowerCase response) in
  match List.find
          (fun pattern => JS.includes normalizedResponse (JS.toLowerCase pattern))
          (expectedAnswerPatterns q) with
  | Some pattern =>
      Some {| questionId := id q;
              score := 95;
              confidence := 0.9;
              reasoning := "Response matches expected pattern: " +:+ pattern;
              partialCredits :=
                [ {| criterion := "Exact Match";
                     points := 95;
                     creditReasoning :=
                       "Response contains the expected formula or concept" |} ];
              suggestedFollowUp := None |}
  | None =>
      let partialCredits := collectPartialCredits q normalizedResponse in
      if (0 <? List.length partialCredits)%nat then
        let totalPoints :=
          List.fold_left (fun sum credit => sum + points credit) partialCredits 0 in
        Some {| questionId := id q;
                score := Qmax 0 (Qmin 100 totalPoints);
                confidence := 0.7;
                reasoning := "Rule-based evaluation with pattern matching";
                partialCredits := partialCredits;
                suggestedFollowUp := None |}
      else None
  end.

Definition Qgtb (a b : Q) : bool := negb (Qle_bool a b).

Section WithAiClient.

(** [this.aiClient.evaluateExcelResponse]; it may throw *)
Variable evaluateExcelResponse :
  Question -> string -> InterviewContext -> Result EvaluationResult.

Definition mergeRuleInsights (aiResult ruleBasedResult : EvaluationResult)
  : EvaluationResult :=
  {| questionId := questionId aiResult;
     score := score aiResult;
     confidence := Qmax (confidence aiResult) (confidence ruleBasedResult);
     reasoning := reasoning aiResult;
     partialCredits := (partialCredits aiResult ++ partialCredits ruleBasedResult)%list;
     suggestedFollowUp := suggestedFollowUp aiResult |}.

Definition askAi (q : Question) (response : string) (context : InterviewContext)
                 (ruleBasedResult : option EvaluationResult) : Evaluated :=
  {| outcome :=
       aiResult <- evaluateExcelResponse q response context ;;
       Ok (match ruleBasedResult with
           | Some r => mergeRuleInsights aiResult r
           | None => aiResult
           end);
     aiCalls := [ {| callQuestion := q; callResponse := response;
                     callContext := context |} ] |}.

Definition evaluateResponse (q : Question) (response : string)
                            (context : InterviewContext) : Evaluated :=
  let ruleBasedResult := tryRuleBasedEvaluation q response in
  match ruleBasedResult with
  | Some r =>
      if Qgtb (confidence r) 0.8
      then {| outcome := Ok r; aiCalls := [] |}
      else askAi q response context ruleBasedResult
  | None => askAi q response context ruleBasedResult
  end.

End WithAiClient.

(** "In a real implementation, this would look up the question by ID.
    For now, we'll use a placeholder" *)
Definition extractCategoryFromEvaluation (evaluation : EvaluationResult) : string :=
  categoryValue BASIC_FORMULAS.

(** the sum and the quotient are the exact ones.  The source adds doubles
    from left to right, so that for scores with a fractional part its
    average can differ in the last digit from the one below, and from one
    order of the scores to another; for whole-number scores up to 100 its
    sum is exact *)
Definition calculateCategoryAverage (scores : option (list Q)) : Q :=
  match scores with
  | None => 0
  | Some [] => 0
  | Some l => List.fold_left (fun sum score => sum + score) l 0
              / inject_Z (Z.of_nat (List.length l))
  end.

(** the [forEach] that groups the scores by category *)
Definition groupByCategory (evaluations : list EvaluationResult)
  : gmap string (list Q) :=
  List.fold_left
    (fun (categoryScores : gmap string (list Q)) evaluation =>
       let category := extractCategoryFromEvaluation evaluation in
       let categoryScores :=
         match categoryScores !! category with
         | None => <[category := []]> categoryScores
         | Some _ => categoryScores
         end in
       <[category := (default [] (categoryScores !! category) ++ [score evaluation])%list]>
         categoryScores)
    evaluations ∅.

(** the [weights] literal of [calculateSkillScores], in key order, each
    key with the field of [SkillScores] it names *)
Definition weights : list ((SkillScores -> Q) * Q) :=
  [ (basicFormulas, 0.2); (dataManipulation, 0.25); (pivotTables, 0.2);
    (advancedFunctions, 0.15); (dataVisualization, 0.1); (macrosVBA, 0.05);
    (dataModeling, 0.05) ].

(** the weighted sum and its quotient by the total weight are the exact
    ones; in doubles a score multiplied by its weight and divided by it
    again can differ from the score in the last digit *)
Definition calculateSkillScores (evaluations : list EvaluationResult) : SkillScores :=
  let categoryScores := groupByCategory evaluations in
  let average c := calculateCategoryAverage (categoryScores !! categoryValue c) in
  let skillScores :=
    {| overall := 0;
       basicFormulas := average BASIC_FORMULAS;
       dataManipulation := average DATA_MANIPULATION;
       pivotTables := average PIVOT_TABLES;
       advancedFunctions := average ADVANCED_FUNCTIONS;
       dataVisualization := average DATA_VISUALIZATION;
       macrosVBA := average MACROS_VBA;
       dataModeling := average DATA_MODELING |} in
  let '(totalWeight, weightedSum) :=
    List.fold_left
      (fun '(totalWeight, weightedSum) '(skill, weight) =>
         let score := skill skillScores in
         if Qgtb score 0
         then (totalWeight + weight, weightedSum + score * weight)
         else (totalWeight, weightedSum))
      weights (0, 0) in
  {| overall := if Qgtb totalWeight 0 then weightedSum / totalWeight else 0;
     basicFormulas := basicFormulas skillScores;
     dataManipulation := dataManipulation skillScores;
     pivotTables := pivotTables skillScores;
     advancedFunctions := advancedFunctions skillScores;
     dataVisualization := dataVisualization skillScores;
     macrosVBA := macrosVBA skillScores;
     dataModeling := dataModeling skillScores |}.

End Evaluation.

(** *** [src/data/excel-questions.ts] *)

Module Data.

Local Open Scope Q_scope.

(** the one-character string holding a double quote *)
Definition dquote : string := String (ascii_of_nat 34) EmptyString.

Definition bankQuestion0 : BankQuestion :=
  {| bankCategory := BASIC_FORMULAS;
     bankDifficulty := basic;
     bankText := "How would you calculate the sum of values in cells A1 through A10? Please explain the formula you would use.";
     expectedAnswers :=
       [ {| pattern := "=SUM(A1:A10)"; answerScore := 100;
              explanation := "Correct SUM formula with proper range notation" |};
         {| pattern := "SUM(A1:A10)"; answerScore := 80;
              explanation := "Correct function but missing equals sign" |};
         {| pattern := "=A1+A2+A3+A4+A5+A6+A7+A8+A9+A10"; answerScore := 60;
              explanation := "Mathematically correct but inefficient approach" |} ];
     evaluationRubric :=
       {| maxScore := 100;
          criteria :=
            [ {| criterionName := "Formula Syntax"; weight := 0.4;
                   description := "Correct use of equals sign and function syntax" |};
              {| criterionName := "Range Notation"; weight := 0.4;
                   description := "Proper use of colon notation for ranges" |};
              {| criterionName := "Function Knowledge"; weight := 0.2;
                   description := "Understanding of SUM function purpose" |} ];
          commonMistakes :=
            [ {| mistakePattern := "missing equals sign"; deduction := 20;
                   mistakeFeedback := "Remember to start formulas with an equals sign (=)" |};
              {| mistakePattern := "incorrect range syntax"; deduction := 30;
                   mistakeFeedback := "Use colon (:) to specify ranges, e.g., A1:A10" |} ];
          partialCreditRules :=
            [ {| condition := "mentions SUM function"; creditPercentage := 50;
                   ruleFeedback := "Good knowledge of SUM function, but check syntax" |} ] |};
     tags := [ "formulas"; "basic"; "sum"; "ranges" ] |}.

Definition bankQuestion1 : BankQuestion :=
  {| bankCategory := BASIC_FORMULAS;
     bankDifficulty := basic;
     bankText := "If you want to find the average of numbers in cells B1 to B20, what formula would you use?";
     expectedAnswers :=
       [ {| pattern := "=AVERAGE(B1:B20)"; answerScore := 100;
              explanation := "Perfect AVERAGE formula" |};
         {| pattern := "=SUM(B1:B20)/20"; answerScore := 85;
              explanation := "Mathematically correct alternative approach" |} ];
     evaluationRubric :=
       {| maxScore := 100;
          criteria :=
            [ {| criterionName := "Function Selection"; weight := 0.5;
                   description := "Choosing appropriate function for averaging" |};
              {| criterionName := "Syntax Accuracy"; weight := 0.5;
                   description := "Correct formula syntax and range specification" |} ];
          commonMistakes :=
            [ {| mistakePattern := "AVG instead of AVERAGE"; deduction := 15;
                   mistakeFeedback := "The function is AVERAGE, not AVG in Excel" |} ];
          partialCreditRules :=
            [] |};
     tags := [ "formulas"; "basic"; "average"; "statistics" ] |}.

Definition bankQuestion2 : BankQuestion :=
  {| bankCategory := DATA_MANIPULATION;
     bankDifficulty := intermediate;
     bankText := "You have a list of employee names in column A and their salaries in column B. How would you find the salary of a specific employee, say 'John Smith', using a lookup function?";
     expectedAnswers :=
       [ {| pattern := ("=VLOOKUP(" +:+ dquote +:+ "John Smith" +:+ dquote +:+ ",A:B,2,FALSE)"); answerScore := 100;
              explanation := "Perfect VLOOKUP with exact match" |};
         {| pattern := ("=INDEX(B:B,MATCH(" +:+ dquote +:+ "John Smith" +:+ dquote +:+ ",A:A,0))"); answerScore := 100;
              explanation := "Excellent INDEX-MATCH combination" |};
         {| pattern := ("=XLOOKUP(" +:+ dquote +:+ "John Smith" +:+ dquote +:+ ",A:A,B:B)"); answerScore := 100;
              explanation := "Modern XLOOKUP function (Excel 365)" |} ];
     evaluationRubric :=
       {| maxScore := 100;
          criteria :=
            [ {| criterionName := "Function Choice"; weight := 0.4;
                   description := "Selecting appropriate lookup function" |};
              {| criterionName := "Parameters"; weight := 0.4;
                   description := "Correct function parameters and syntax" |};
              {| criterionName := "Match Type"; weight := 0.2;
                   description := "Understanding of exact vs approximate match" |} ];
          commonMistakes :=
            [ {| mistakePattern := "missing FALSE parameter"; deduction := 25;
                   mistakeFeedback := "For exact matches, use FALSE as the last parameter in VLOOKUP" |};
              {| mistakePattern := "wrong column index"; deduction := 30;
                   mistakeFeedback := "Column index should be 2 for the second column (salary)" |} ];
          partialCreditRules :=
            [ {| condition := "mentions VLOOKUP concept"; creditPercentage := 60;
                   ruleFeedback := "Good understanding of lookup concept, refine the syntax" |} ] |};
     tags := [ "lookup"; "vlookup"; "data-retrieval"; "intermediate" ] |}.

Definition bankQuestion3 : BankQuestion :=
  {| bankCategory := PIVOT_TABLES;
     bankDifficulty := intermediate;
     bankText := "You have sales data with columns for Date, Salesperson, Product, and Amount. How would you create a pivot table to show total sales by salesperson and product?";
     expectedAnswers :=
       [ {| pattern := "drag salesperson to rows, product to columns, amount to values"; answerScore := 100;
              explanation := "Perfect pivot table structure understanding" |};
         {| pattern := "salesperson in row area, product in column area, sum of amount in data area"; answerScore := 95;
              explanation := "Correct understanding with different terminology" |} ];
     evaluationRubric :=
       {| maxScore := 100;
          criteria :=
            [ {| criterionName := "Field Placement"; weight := 0.5;
                   description := "Correct placement of fields in pivot table areas" |};
              {| criterionName := "Aggregation Understanding"; weight := 0.3;
                   description := "Understanding of sum aggregation for amounts" |};
              {| criterionName := "Structure Logic"; weight := 0.2;
                   description := "Logical organization of data dimensions" |} ];
          commonMistakes :=
            [ {| mistakePattern := "amount in wrong area"; deduction := 40;
                   mistakeFeedback := "Amount should go in the Values area for aggregation" |} ];
          partialCreditRules :=
            [ {| condition := "mentions pivot table creation"; creditPercentage := 40;
                   ruleFeedback := "Good awareness of pivot tables, focus on field placement" |} ] |};
     tags := [ "pivot-tables"; "data-analysis"; "aggregation"; "intermediate" ] |}.

Definition bankQuestion4 : BankQuestion :=
  {| bankCategory := ADVANCED_FUNCTIONS;
     bankDifficulty := advanced;
     bankText := "How would you create a formula that counts the number of cells in column A that contain text starting with 'Project' and have a corresponding value in column B greater than 1000?";
     expectedAnswers :=
       [ {| pattern := ("=COUNTIFS(A:A," +:+ dquote +:+ "Project*" +:+ dquote +:+ ",B:B," +:+ dquote +:+ ">1000" +:+ dquote +:+ ")"); answerScore := 100;
              explanation := "Perfect COUNTIFS with multiple criteria" |};
         {| pattern := ("=SUMPRODUCT((LEFT(A:A,7)=" +:+ dquote +:+ "Project" +:+ dquote +:+ ")*(B:B>1000))"); answerScore := 95;
              explanation := "Advanced SUMPRODUCT approach" |} ];
     evaluationRubric :=
       {| maxScore := 100;
          criteria :=
            [ {| criterionName := "Function Selection"; weight := 0.4;
                   description := "Choosing appropriate multi-criteria function" |};
              {| criterionName := "Criteria Syntax"; weight := 0.4;
                   description := "Correct syntax for text and numeric criteria" |};
              {| criterionName := "Wildcard Usage"; weight := 0.2;
                   description := "Understanding of wildcard characters" |} ];
          commonMistakes :=
            [ {| mistakePattern := "using COUNTIF instead of COUNTIFS"; deduction := 50;
                   mistakeFeedback := "COUNTIFS is needed for multiple criteria, not COUNTIF" |} ];
          partialCreditRules :=
            [ {| condition := "mentions multiple criteria"; creditPercentage := 60;
                   ruleFeedback := "Good understanding of the requirement for multiple conditions" |} ] |};
     tags := [ "advanced-functions"; "countifs"; "criteria"; "wildcards" ] |}.

Definition bankQuestion5 : BankQuestion :=
  {| bankCategory := DATA_VISUALIZATION;
     bankDifficulty := intermediate;
     bankText := "You have monthly sales data for the past year. What type of chart would be most appropriate to show the trend over time, and how would you create it?";
     expectedAnswers :=
       [ {| pattern := "line chart"; answerScore := 100;
              explanation := "Line charts are perfect for showing trends over time" |};
         {| pattern := "area chart"; answerScore := 85;
              explanation := "Area charts can also show trends effectively" |};
         {| pattern := "column chart"; answerScore := 70;
              explanation := "Column charts work but are less ideal for time series" |} ];
     evaluationRubric :=
       {| maxScore := 100;
          criteria :=
            [ {| criterionName := "Chart Type Selection"; weight := 0.6;
                   description := "Choosing appropriate chart for time series data" |};
              {| criterionName := "Creation Process"; weight := 0.4;
                   description := "Understanding of chart creation steps" |} ];
          commonMistakes :=
            [ {| mistakePattern := "pie chart"; deduction := 60;
                   mistakeFeedback := "Pie charts are not suitable for time series data" |} ];
          partialCreditRules :=
            [] |};
     tags := [ "charts"; "visualization"; "trends"; "time-series" ] |}.

Definition bankQuestion6 : BankQuestion :=
  {| bankCategory := MACROS_VBA;
     bankDifficulty := advanced;
     bankText := "How would you create a simple macro to automatically format a selected range of cells with bold text and yellow background?";
     expectedAnswers :=
       [ {| pattern := "Selection.Font.Bold = True; Selection.Interior.Color = RGB(255, 255, 0)"; answerScore := 100;
              explanation := "Correct VBA syntax for formatting" |};
         {| pattern := "record macro with formatting actions"; answerScore := 80;
              explanation := "Good understanding of macro recorder approach" |} ];
     evaluationRubric :=
       {| maxScore := 100;
          criteria :=
            [ {| criterionName := "VBA Syntax"; weight := 0.5;
                   description := "Correct VBA code syntax" |};
              {| criterionName := "Object Model"; weight := 0.3;
                   description := "Understanding of Excel object model" |};
              {| criterionName := "Approach"; weight := 0.2;
                   description := "Logical approach to automation" |} ];
          commonMistakes :=
            [ {| mistakePattern := "incorrect object references"; deduction := 40;
                   mistakeFeedback := "Use Selection object to reference selected cells" |} ];
          partialCreditRules :=
            [ {| condition := "mentions macro recorder"; creditPercentage := 50;
                   ruleFeedback := "Macro recorder is a good starting point for learning VBA" |} ] |};
     tags := [ "macros"; "vba"; "automation"; "advanced" ] |}.

Definition bankQuestion7 : BankQuestion :=
  {| bankCategory := DATA_MODELING;
     bankDifficulty := advanced;
     bankText := "You need to create a financial model that calculates monthly loan payments. What function would you use, and what parameters does it require?";
     expectedAnswers :=
       [ {| pattern := "=PMT(rate/12, nper*12, pv)"; answerScore := 100;
              explanation := "Perfect PMT function with proper parameter adjustment" |};
         {| pattern := "PMT function with rate, periods, present value"; answerScore := 85;
              explanation := "Good understanding of PMT function components" |} ];
     evaluationRubric :=
       {| maxScore := 100;
          criteria :=
            [ {| criterionName := "Function Knowledge"; weight := 0.4;
                   description := "Knowledge of PMT function" |};
              {| criterionName := "Parameter Understanding"; weight := 0.4;
                   description := "Understanding of rate, nper, pv parameters" |};
              {| criterionName := "Period Adjustment"; weight := 0.2;
                   description := "Adjusting annual rate to monthly" |} ];
          commonMistakes :=
            [ {| mistakePattern := "not adjusting rate for monthly"; deduction := 30;
                   mistakeFeedback := "Remember to divide annual rate by 12 for monthly payments" |} ];
          partialCreditRules :=
            [] |};
     tags := [ "financial-modeling"; "pmt"; "loans"; "advanced" ] |}.

Definition excelQuestions : list BankQuestion :=
  [ bankQuestion0; bankQuestion1; bankQuestion2; bankQuestion3; bankQuestion4; bankQuestion5; bankQuestion6; bankQuestion7 ].

(** [roleQuestionWeights]: for each role level the categories in the key
    order of the object literal, each with its weight *)
Definition roleQuestionWeights (roleLevel : ExcelLevel)
  : list (ExcelSkillCategory * Q) :=
  match roleLevel with
  | basic =>
      [ (BASIC_FORMULAS, 0.4); (DATA_MANIPULATION, 0.3); (DATA_VISUALIZATION, 0.2);
        (PIVOT_TABLES, 0.1); (ADVANCED_FUNCTIONS, 0.0); (MACROS_VBA, 0.0);
        (DATA_MODELING, 0.0) ]
  | intermediate =>
      [ (BASIC_FORMULAS, 0.2); (DATA_MANIPULATION, 0.3); (PIVOT_TABLES, 0.25);
        (DATA_VISUALIZATION, 0.15); (ADVANCED_FUNCTIONS, 0.1); (MACROS_VBA, 0.0);
        (DATA_MODELING, 0.0) ]
  | advanced =>
      [ (BASIC_FORMULAS, 0.1); (DATA_MANIPULATION, 0.2); (PIVOT_TABLES, 0.2);
        (ADVANCED_FUNCTIONS, 0.25); (DATA_VISUALIZATION, 0.1); (MACROS_VBA, 0.1);
        (DATA_MODELING, 0.05) ]
  end.

End Data.

(** *** Array helpers *)

(** [Array.prototype.sort] with a comparator: a stable sort; [before a b]
    holds when the comparator does not put [b] strictly in front of [a] *)
Fixpoint insertSorted {A} (before : A -> A -> bool) (x : A) (l : list A) : list A :=
  match l with
  | [] => [x]
  | y :: l' => if before x y then x :: y :: l' else y :: insertSorted before x l'
  end.

Definition stableSort {A} (before : A -> A -> bool) (l : list A) : list A :=
  List.fold_right (insertSorted before) [] l.

(** [Array.prototype.slice(-count)] *)
Definition sliceLast {A} (count : nat) (l : list A) : list A :=
  List.skipn (List.length l - count) l.

(** [array[index]] for a numeric index; [None] is [undefined] *)
Definition at_index {A} (l : list A) (index : Z) : option A :=
  if (index <? 0)%Z then None else List.nth_error l (Z.to_nat index).

(** [.filter(Boolean)] on an array of possibly undefined values *)
Fixpoint filterDefined {A} (l : list (option A)) : list A :=
  match l with
  | [] => []
  | Some a :: l' => a :: filterDefined l'
  | None :: l' => filterDefined l'
  end.

(** a plain object used as a dictionary: keys in insertion order *)
Fixpoint objSet {K V} `{EqDecision K} (o : list (K * V)) (k : K) (v : V) : list (K * V) :=
  match o with
  | [] => [(k, v)]
  | (k', v') :: o' => if decide (k' = k) then (k, v) :: o' else (k', v') :: objSet o' k v
  end.

Fixpoint objGet {K V} `{EqDecision K} (o : list (K * V)) (k : K) : option V :=
  match o with
  | [] => None
  | (k', v') :: o' => if decide (k' = k) then Some v' else objGet o' k
  end.

(** *** The question table of the database, [src/lib/repositories/question.ts] *)

Record DbQuestion := {
  dbId : string;
  dbCategory : ExcelSkillCategory;
  dbDifficulty : DifficultyLevel;
  dbText : string;
  dbExpectedAnswers : list ExpectedAnswer;
  dbEvaluationRubric : EvaluationRubric;
  dbTags : list string;
  usageCount : Z;
  dbCreatedAt : Z
}.

Module QuestionRepository.

(** [orderBy: [{ usageCount: 'asc' }, { createdAt: 'desc' }]]; rows equal
    on both keys stay in table order *)
Definition leastUsedFirst (a b : DbQuestion) : bool :=
  (usageCount a <? usageCount b)%Z
  || ((usageCount a =? usageCount b)%Z && (dbCreatedAt b <=? dbCreatedAt a)%Z).

Definition findByCategory (table : list DbQuestion) (category : ExcelSkillCategory)
                          (difficulty : option DifficultyLevel) (limit : nat)
  : list DbQuestion :=
  let matching :=
    List.filter
      (fun q => bool_decide (dbCategory q = category)
                && match difficulty with
                   | Some d => bool_decide (dbDifficulty q = d)
                   | None => true
                   end)
      table in
  List.firstn limit (stableSort leastUsedFirst matching).

End QuestionRepository.

(** *** [src/services/questions/question-engine.ts] *)

Module Questions.

Local Open Scope Q_scope.

Record SkillCoverage := {
  categories : list (ExcelSkillCategory * Q);
  overallCoverage : Q;
  missingAreas : list ExcelSkillCategory
}.

Definition Qltb (a b : Q) : bool := negb (Qle_bool b a).
Definition Qgeb (a b : Q) : bool := Qle_bool b a.

Definition getAskedQuestions (session : InterviewSession) : list Question :=
  filterDefined
    (List.map
       (fun turn => match turnMetadata turn with
                    | Some metadata => metaQuestion metadata
                    | None => None
                    end)
       (List.filter (fun turn => bool_decide (turnType turn = question))
                    (conversationHistory session))).

Definition getRecentQuestions (session : InterviewSession) (count : nat)
  : list Question :=
  sliceLast count (getAskedQuestions session).

Definition getExpectedQuestionsForCategory (category : ExcelSkillCategory)
                                           (roleLevel : ExcelLevel) : Z :=
  let weights := Data.roleQuestionWeights roleLevel in
  let weight := default 0 (objGet weights category) in
  let totalQuestions := 15 in
  Qceiling (totalQuestions * weight).

Record CoverageTotals := {
  categoryCoverage : list (ExcelSkillCategory * Q);
  totalWeight : Q;
  coveredWeight : Q
}.

(** the body of the [forEach] over the entries of the role weights *)
Definition coverageStep (askedQuestions : list Question) (roleLevel : ExcelLevel)
                        (acc : CoverageTotals) (entry : ExcelSkillCategory * Q)
  : CoverageTotals :=
  let '(cat, weight) := entry in
  let categoryQuestions :=
    List.filter (fun q => bool_decide (category q = cat)) askedQuestions in
  let expectedQuestions := getExpectedQuestionsForCategory cat roleLevel in
  let coverage :=
    if (0 <? expectedQuestions)%Z
    then inject_Z (Z.of_nat (List.length categoryQuestions)) / inject_Z expectedQuestions
    else 0 in
  {| categoryCoverage := objSet (categoryCoverage acc) cat (Qmin coverage 1.0);
     totalWeight := totalWeight acc + weight;
     coveredWeight := coveredWeight acc + coverage * weight |}.

Definition validateQuestionCoverage (session : InterviewSession) : SkillCoverage :=
  let askedQuestions := getAskedQuestions session in
  let roleWeights := Data.roleQuestionWeights (roleLevel session) in
  let totals :=
    List.fold_left (coverageStep askedQuestions (roleLevel session)) roleWeights
      {| categoryCoverage := []; totalWeight := 0; coveredWeight := 0 |} in
  {| categories := categoryCoverage totals;
     overallCoverage :=
       if Qltb 0 (totalWeight totals)
       then coveredWeight totals / totalWeight totals
       else 0;
     missingAreas :=
       List.map fst
         (List.filter (fun entry => Qltb (snd entry) 0.5) (categoryCoverage totals)) |}.

Definition selectNextCategory (session : InterviewSession) (coverage : SkillCoverage)
  : Result ExcelSkillCategory :=
  let roleWeights := Data.roleQuestionWeights (roleLevel session) in
  let categoryScores :=
    List.map
      (fun '(cat, weight) =>
         let currentCoverage := default 0 (objGet (categories coverage) cat) in
         (cat, weight * (1 - currentCoverage)))
      roleWeights in
  (* comparator (a, b) => b.priority - a.priority *)
  let sorted :=
    stableSort (fun a b => Qle_bool (snd b - snd a) 0) categoryScores in
  match sorted with
  | first :: _ => Ok (fst first)
  | [] => Err "TypeError: Cannot read properties of undefined (reading 'category')"
  end.

(** how many values [Math.random()] and [uuidv4()] have handed out *)
Record Counters := {
  randomsDrawn : nat;
  uuidsIssued : nat
}.

Section WithGenerators.

(** the n-th value returned by [Math.random()] and by [uuidv4()] *)
Variable Math_random : nat -> Q.
Variable uuidv4 : nat -> string.

Definition Gen (A : Type) : Type := Counters -> A * Counters.

Definition random : Gen Q :=
  fun c => (Math_random (randomsDrawn c),
            {| randomsDrawn := S (randomsDrawn c); uuidsIssued := uuidsIssued c |}).

Definition uuid : Gen string :=
  fun c => (uuidv4 (uuidsIssued c),
            {| randomsDrawn := randomsDrawn c; uuidsIssued := S (uuidsIssued c) |}).

(** [array.map(f)] for an [f] that draws values, left to right *)
Fixpoint mapGen {A B} (f : A -> Gen B) (l : list A) : Gen (list B) :=
  match l with
  | [] => fun c => ([], c)
  | a :: l' => fun c =>
      let '(b, c1) := f a c in
      let '(bs, c2) := mapGen f l' c1 in
      (b :: bs, c2)
  end.

(** "Placeholder": one random score for each question *)
Definition getQuestionScores (session : InterviewSession) (questions : list Question)
  : Gen (list Q) :=
  mapGen (fun _ c => let '(r, c') := random c in (r * 100, c')) questions.

Definition difficultyFor (avgScore : Q) : DifficultyLevel :=
  if Qgeb avgScore 80 then advanced
  else if Qgeb avgScore 60 then intermediate
  else basic.

Definition adaptDifficulty (session : InterviewSession) (cat : ExcelSkillCategory)
  : Gen DifficultyLevel :=
  fun c =>
    let recentQuestions := getRecentQuestions session 3 in
    let categoryQuestions :=
      List.filter (fun q => bool_decide (category q = cat)) recentQuestions in
    if (List.length categoryQuestions =? 0)%nat then (basic, c)
    else
      let '(scores, c') := getQuestionScores session categoryQuestions c in
      let avgScore :=
        if (0 <? List.length scores)%nat
        then List.fold_left (fun a b => a + b) scores 0
             / inject_Z (Z.of_nat (List.length scores))
        else 50 in
      (difficultyFor avgScore, c').

Definition convertDbQuestionToQuestion (dbQuestion : DbQuestion) : Question :=
  {| id := dbId dbQuestion;
     category := dbCategory dbQuestion;
     difficulty := dbDifficulty dbQuestion;
     text := dbText dbQuestion;
     expectedAnswerPatterns := List.map pattern (dbExpectedAnswers dbQuestion);
     evaluationCriteria := dbEvaluationRubric dbQuestion;
     followUpTriggers := [] |}.

Definition mapExcelQuestionToQuestion (excelQuestion : BankQuestion) : Gen Question :=
  fun c =>
    let '(newId, c') := uuid c in
    ({| id := newId;
        category := bankCategory excelQuestion;
        difficulty := bankDifficulty excelQuestion;
        text := bankText excelQuestion;
        expectedAnswerPatterns := List.map pattern (expectedAnswers excelQuestion);
        evaluationCriteria := evaluationRubric excelQuestion;
        followUpTriggers := [] |}, c').

Definition notAsked (askedQuestionIds : list string) (q : Question) : bool :=
  negb (bool_decide (id q ∈ askedQuestionIds)).

Definition getAvailableQuestions (table : list DbQuestion) (session : InterviewSession)
                                 (cat : ExcelSkillCategory) (diff : DifficultyLevel)
  : Gen (list Question) :=
  fun c =>
    let askedQuestionIds := List.map id (getAskedQuestions session) in
    let dbQuestions := QuestionRepository.findByCategory table cat None 10 in
    let availableDbQuestions :=
      List.map convertDbQuestionToQuestion
        (List.filter (fun q => negb (bool_decide (dbId q ∈ askedQuestionIds)))
           (List.filter (fun q => bool_decide (dbDifficulty q = diff)) dbQuestions)) in
    if (0 <? List.length availableDbQuestions)%nat then (availableDbQuestions, c)
    else
      let '(staticQuestions, c') :=
        mapGen mapExcelQuestionToQuestion
          (List.filter
             (fun q => bool_decide (bankCategory q = cat)
                       && bool_decide (bankDifficulty q = diff))
             Data.excelQuestions) c in
      (List.filter (notAsked askedQuestionIds) staticQuestions, c').

Definition getFallbackQuestions (session : InterviewSession) : Gen (list Question) :=
  fun c =>
    let askedQuestionIds := List.map id (getAskedQuestions session) in
    let '(allQuestions, c') := mapGen mapExcelQuestionToQuestion Data.excelQuestions c in
    (List.filter (notAsked askedQuestionIds) allQuestions, c').

(** the result is [None] when the computed index is outside the array
    ([undefined] in the source) *)
Definition selectQuestion (questions : list Question)
  : Gen (Result (option Question)) :=
  fun c =>
    if (List.length questions =? 0)%nat
    then (Err "No questions available for selection", c)
    else
      let '(r, c') := random c in
      let randomIndex := Qfloor (r * inject_Z (Z.of_nat (List.length questions))) in
      (Ok (at_index questions randomIndex), c').

Definition getNextQuestion (table : list DbQuestion) (session : InterviewSession)
  : Gen (Result (option Question)) :=
  fun c =>
    let coverage := validateQuestionCoverage session in
    match selectNextCategory session coverage with
    | Err m => (Err m, c)
    | Ok nextCategory =>
        let '(diff, c1) := adaptDifficulty session nextCategory c in
        let '(availableQuestions, c2) :=
          getAvailableQuestions table session nextCategory diff c1 in
        if (List.length availableQuestions =? 0)%nat then
          let '(fallbackQuestions, c3) := getFallbackQuestions session c2 in
          if (List.length fallbackQuestions =? 0)%nat
          then (Err "No more questions available", c3)
          else selectQuestion fallbackQuestions c3
        else
          match selectQuestion availableQuestions c2 with
          | (Ok (Some selectedQuestion), c3) => (Ok (Some selectedQuestion), c3)
          | (Ok None, c3) =>
              (* [selectedQuestion.id] is read for the log entry *)
              (Err "TypeError: Cannot read properties of undefined (reading 'id')", c3)
          | (Err m, c3) => (Err m, c3)
          end
    end.

End WithGenerators.

End Questions.

(** *** The database *)

Record Candidate := {
  candidateEmail : string;
  candidateName : string
}.

Record EvaluationRow := {
  rowSessionId : string;
  rowQuestionId : string;
  rowScore : Q;
  rowConfidence : Q;
  rowCreatedAt : Z
}.

(** the tables reached through [this.db], keyed by primary key where the
    source looks rows up by [id] *)
Record Db := {
  candidates : gmap string Candidate;
  interviewSessions : gmap string InterviewSession;
  evaluationResults : list EvaluationRow;
  excelQuestionTable : list DbQuestion
}.

(** *** [src/lib/repositories/base.ts] and [src/lib/repositories/interview.ts] *)

Module InterviewSessionRepository.

Local Open Scope Q_scope.

Record CreateInterviewSessionData := {
  createCandidateId : string;
  createRoleLevel : ExcelLevel;
  createMetadata : option (list (string * string))
}.

Record UpdateInterviewSessionData := {
  updStatus : option InterviewStatus;
  updCurrentQuestionIndex : option Z;
  updConversationHistory : option (list ConversationTurn);
  updSkillAssessment : option SkillScores;
  updEndTime : option Z;
  updMetadata : option (list (string * string))
}.

Definition noUpdate : UpdateInterviewSessionData :=
  {| updStatus := None; updCurrentQuestionIndex := None;
     updConversationHistory := None; updSkillAssessment := None;
     updEndTime := None; updMetadata := None |}.

Definition validateId (i : string) : Result unit :=
  if decide (i = "") then Err "Invalid ID provided" else Ok tt.

(** [validateRequired(data, ['candidateId', 'roleLevel'])]: a role level
    is never falsy *)
Definition validateRequired (data : CreateInterviewSessionData) : Result unit :=
  if decide (createCandidateId data = "")
  then Err "Missing required fields: candidateId"
  else Ok tt.

Definition zeroScores : SkillScores :=
  {| overall := 0; basicFormulas := 0; dataManipulation := 0; pivotTables := 0;
     advancedFunctions := 0; dataVisualization := 0; macrosVBA := 0;
     dataModeling := 0 |}.

Definition findById (db : Db) (i : string) : Result (option InterviewSession) :=
  validateId i ;;;
  Ok (interviewSessions db !! i).

(** [findFirst({ where: { candidateId, status: 'active' } })] *)
Definition findActiveByCandidateId (db : Db) (cand : string)
  : Result (option InterviewSession) :=
  validateId cand ;;;
  Ok (List.find
        (fun s => bool_decide (candidateId s = cand) && bool_decide (status s = active))
        (List.map snd (map_to_list (interviewSessions db)))).

Definition withSessions (db : Db) (sessions : gmap string InterviewSession) : Db :=
  {| candidates := candidates db;
     interviewSessions := sessions;
     evaluationResults := evaluationResults db;
     excelQuestionTable := excelQuestionTable db |}.

(** the row after the assignments collected in [updateData] *)
Definition applyUpdate (s : InterviewSession) (data : UpdateInterviewSessionData)
  : InterviewSession :=
  {| sessionId := sessionId s;
     candidateId := candidateId s;
     roleLevel := roleLevel s;
     status := default (status s) (updStatus data);
     currentQuestionIndex :=
       default (currentQuestionIndex s) (updCurrentQuestionIndex data);
     conversationHistory :=
       default (conversationHistory s) (updConversationHistory data);
     skillAssessment := default (skillAssessment s) (updSkillAssessment data);
     startTime := startTime s;
     endTime := match updEndTime data with
                | Some t => Some t
                | None => endTime s
                end;
     sessionMetadata := default (sessionMetadata s) (updMetadata data) |}.

(** Prisma's [update] rejects when no row has the given [id] *)
Definition update (db : Db) (i : string) (data : UpdateInterviewSessionData)
  : Result (Db * InterviewSession) :=
  validateId i ;;;
  match interviewSessions db !! i with
  | None => Err "Record to update not found"
  | Some s =>
      let s' := applyUpdate s data in
      Ok (withSessions db (<[i := s']> (interviewSessions db)), s')
  end.

(** the identifier and the start time of the new row are generated by the
    database; they are the inputs [newId] and [now].  The identifier is the
    primary key: inserting one that is already taken is rejected.

    [create] reaches the database at three [await]s, with no transaction
    around them: it looks the candidate up, it looks for an active session,
    and it inserts the new row.  Other calls can run in between, so every
    step meets the database as it is at that moment: [atLookup], [atCheck]
    and [atInsert]. *)
Definition createSteps (atLookup atCheck atInsert : Db)
                       (data : CreateInterviewSessionData)
                       (newId : string) (now : Z) : Result (Db * InterviewSession) :=
  validateRequired data ;;;
  match candidates atLookup !! createCandidateId data with
  | None =>
      Err ("Candidate with ID " +:+ createCandidateId data +:+ " not found")
  | Some _ =>
      activeSession <- findActiveByCandidateId atCheck (createCandidateId data) ;;
      match activeSession with
      | Some s =>
          Err ("Candidate already has an active interview session: " +:+ sessionId s)
      | None =>
          match interviewSessions atInsert !! newId with
          | Some _ => Err "Unique constraint failed on the fields: (`id`)"
          | None =>
              let s :=
                {| sessionId := newId;
                   candidateId := createCandidateId data;
                   roleLevel := createRoleLevel data;
                   status := active;
                   currentQuestionIndex := 0;
                   conversationHistory := [];
                   skillAssessment := zeroScores;
                   startTime := now;
                   endTime := None;
                   sessionMetadata := default [] (createMetadata data) |} in
              Ok (withSessions atInsert (<[newId := s]> (interviewSessions atInsert)), s)
          end
      end
  end.

(** a call of [create] that no other call overlaps: the three steps meet
    the same database *)
Definition create (db : Db) (data : CreateInterviewSessionData)
                  (newId : string) (now : Z) : Result (Db * InterviewSession) :=
  createSteps db db db data newId now.

Definition addConversationTurn (db : Db) (i : string) (turn : ConversationTurn)
  : Result (Db * InterviewSession) :=
  validateId i ;;;
  found <- findById db i ;;
  match found with
  | None => Err ("Interview session " +:+ i +:+ " not found")
  | Some session =>
      let history := (conversationHistory session ++ [turn])%list in
      update db i
        {| updStatus := None; updCurrentQuestionIndex := None;
           updConversationHistory := Some history; updSkillAssessment := None;
           updEndTime := None; updMetadata := None |}
  end.

Definition completeSession (db : Db) (i : string) (finalScores : SkillScores) (now : Z)
  : Result (Db * InterviewSession) :=
  update db i
    {| updStatus := Some completed; updCurrentQuestionIndex := None;
       updConversationHistory := None; updSkillAssessment := Some finalScores;
       updEndTime := Some now; updMetadata := None |}.

Definition pauseSession (db : Db) (i : string) : Result (Db * InterviewSession) :=
  update db i
    {| updStatus := Some paused; updCurrentQuestionIndex := None;
       updConversationHistory := None; updSkillAssessment := None;
       updEndTime := None; updMetadata := None |}.

Definition resumeSession (db : Db) (i : string) : Result (Db * InterviewSession) :=
  update db i
    {| updStatus := Some active; updCurrentQuestionIndex := None;
       updConversationHistory := None; updSkillAssessment := None;
       updEndTime := None; updMetadata := None |}.

End InterviewSessionRepository.

(** *** [src/services/interview/interview-orchestrator.ts] *)

Module InterviewOrchestrator.

Local Open Scope Q_scope.
Import InterviewSessionRepository.


(** a start that no other call overlaps *)
Definition startInterview (db : Db) (cand : string) (level : ExcelLevel)
                          (newId : string) (now : Z)
  : Result (Db * InterviewSession) :=
  create db {| createCandidateId := cand; createRoleLevel := level;
               createMetadata := None |} newId now.

(** the turn recorded for an answer; [now] is the clock read by
    [Date.now()] and [new Date()] *)
Definition responseTurn (session : InterviewSession) (answer : string) (now : Z)
  : ConversationTurn :=
  {| turnId := "turn-" +:+ JS.showZ now;
     turnType := response;
     content := answer;
     timestamp := now;
     turnMetadata :=
       Some {| metaQuestion := None;
               metaQuestionIndex := Some (currentQuestionIndex session) |} |}.

Definition submitResponse (db : Db) (i : string) (answer : string) (now : Z)
  : Result Db :=
  found <- findById db i ;;
  match found with
  | None => Err ("Interview session " +:+ i +:+ " not found")
  | Some session =>
      added <- addConversationTurn db i (responseTurn session answer now) ;;
      updated <- update (fst added) i
                   {| updStatus := None;
                      updCurrentQuestionIndex := Some (currentQuestionIndex session + 1)%Z;
                      updConversationHistory := None; updSkillAssessment := None;
                      updEndTime := None; updMetadata := None |} ;;
      Ok (fst updated)
  end.

(** "Calculate final scores (placeholder implementation)" *)
Definition finalScores : SkillScores :=
  {| overall := 75;
     basicFormulas := 80;
     dataManipulation := 70;
     pivotTables := 75;
     advancedFunctions := 70;
     dataVisualization := 80;
     macrosVBA := 60;
     dataModeling := 65 |}.

Definition completeInterview (db : Db) (i : string) (now : Z)
  : Result (Db * InterviewSession) :=
  found <- findById db i ;;
  match found with
  | None => Err ("Interview session " +:+ i +:+ " not found")
  | Some session => completeSession db i finalScores now
  end.

Definition pauseInterview (db : Db) (i : string) : Result (Db * InterviewSession) :=
  pauseSession db i.

Definition resumeInterview (db : Db) (i : string) : Result (Db * InterviewSession) :=
  resumeSession db i.

End InterviewOrchestrator.

(** *** What the specification asks of the difficulty selector *)

Module Spec.

Local Open Scope Q_scope.

(** the score recorded for a question in the evaluation history *)
Definition scoreOf (history : list EvaluationResult) (q : Question) : option Q :=
  option_map score
    (List.find (fun e => bool_decide (questionId e = id q)) history).

(** Section 4.2, step 3: the tier is decided by the last 3 previously
    asked-and-scored questions of the category, with their scores taken
    from the evaluation history *)
Definition adaptDifficulty (session : InterviewSession)
                           (history : list EvaluationResult)
                           (cat : ExcelSkillCategory) : DifficultyLevel :=
  let scored :=
    filterDefined
      (List.map (scoreOf history)
         (List.filter (fun q => bool_decide (category q = cat))
                      (Questions.getAskedQuestions session))) in
  let recent := sliceLast 3 scored in
  match recent with
  | [] => basic
  | _ =>
      let avg := List.fold_left Qplus recent 0
                 / inject_Z (Z.of_nat (List.length recent)) in
      if Qle_bool 80 avg then advanced
      else if Qle_bool 60 avg then intermediate
      else basic
  end.

End Spec.

(** *** Concrete sessions, questions and databases used as test inputs *)

Module Fixtures.

Local Open Scope Q_scope.

Definition uuids (n : nat) : string := "uuid-" +:+ JS.showZ (Z.of_nat n).
Definition highDraws (n : nat) : Q := 0.9.
Definition lowDraws (n : nat) : Q := 0.1.
Definition start : Questions.Counters :=
  {| Questions.randomsDrawn := 0; Questions.uuidsIssued := 0 |}.

(** a bank entry as a question carrying the given identifier *)
Definition asked (i : string) (b : BankQuestion) : Question :=
  fst (Questions.mapExcelQuestionToQuestion (fun _ => i) b start).

Definition sumQuestion : Question := asked "q-sum" Data.bankQuestion0.
Definition averageQuestion : Question := asked "q-average" Data.bankQuestion1.
Definition lookupQuestion : Question := asked "q-lookup" Data.bankQuestion2.
Definition pivotQuestion : Question := asked "q-pivot" Data.bankQuestion3.

Definition questionTurn (now : Z) (q : Question) : ConversationTurn :=
  {| turnId := "turn-" +:+ JS.showZ now;
     turnType := question;
     content := text q;
     timestamp := now;
     turnMetadata := Some {| metaQuestion := Some q; metaQuestionIndex := None |} |}.

Definition sessionWith (i : string) (level : ExcelLevel) (st : InterviewStatus)
                       (history : list ConversationTurn) : InterviewSession :=
  {| sessionId := i;
     candidateId := "cand-1";
     roleLevel := level;
     status := st;
     currentQuestionIndex := 0;
     conversationHistory := history;
     skillAssessment := InterviewSessionRepository.zeroScores;
     startTime := 1000;
     endTime := None;
     sessionMetadata := [] |}.

Definition john : Candidate :=
  {| candidateEmail := "john@example.com"; candidateName := "John Doe" |}.

Definition dbWith (s : InterviewSession) : Db :=
  {| candidates := {[ "cand-1" := john ]};
     interviewSessions := {[ sessionId s := s ]};
     evaluationResults := [];
     excelQuestionTable := [] |}.

(** an active session that has just been asked the SUM question *)
Definition activeSession : InterviewSession :=
  sessionWith "session-1" intermediate active [questionTurn 1001 sumQuestion].
Definition activeDb : Db := dbWith activeSession.

Definition pausedSession : InterviewSession :=
  sessionWith "session-1" intermediate paused [questionTurn 1001 sumQuestion].
Definition pausedDb : Db := dbWith pausedSession.

Definition context : InterviewContext :=
  {| contextSessionId := "session-1";
     candidateLevel := intermediate;
     previousQuestions := [];
     currentSkillScores := [];
     contextHistory := [] |}.

(** an AI tier that answers every request with the same judgement *)
Definition aiScore40 (q : Question) (answer : string) (ctx : InterviewContext)
  : Result EvaluationResult :=
  Ok {| questionId := id q; score := 40; confidence := 0.6;
        reasoning := "judged by the AI tier"; partialCredits := [];
        suggestedFollowUp := None |}.

Definition evaluationOf (q : Question) (s : Q) : EvaluationResult :=
  {| questionId := id q; score := s; confidence := 0.9; reasoning := "";
     partialCredits := []; suggestedFollowUp := None |}.

(** one basic-formulas question followed by three data-manipulation ones *)
Definition fourAsked : InterviewSession :=
  sessionWith "session-1" basic active
    [ questionTurn 1001 sumQuestion;
      questionTurn 1002 (asked "q-lookup-1" Data.bankQuestion2);
      questionTurn 1003 (asked "q-lookup-2" Data.bankQuestion2);
      questionTurn 1004 (asked "q-lookup-3" Data.bankQuestion2) ].

(** a basic-level session that has been asked the SUM question only *)
Definition oneAsked : InterviewSession :=
  sessionWith "session-1" basic active [questionTurn 1001 sumQuestion].

(** a basic-level session asked every entry of the static bank once *)
Definition allAsked : InterviewSession :=
  sessionWith "session-1" basic active
    (List.map (fun '(n, b) => questionTurn (1001 + Z.of_nat n)
                                (asked ("asked-" +:+ JS.showZ (Z.of_nat n)) b))
              (List.combine (List.seq 0 8) Data.excelQuestions)).

(** sixteen basic-formulas questions put to a basic-level candidate *)
Definition sixteenAsked : InterviewSession :=
  sessionWith "session-1" basic active
    (List.map (fun n => questionTurn (1001 + Z.of_nat n)
                          (asked ("q-sum-" +:+ JS.showZ (Z.of_nat n)) Data.bankQuestion0))
              (List.seq 0 16)).

End Fixtures.

(** *** Vocabulary of the statements *)

(** every character of the string is white space (the empty string included) *)
Fixpoint isBlank (s : string) : bool :=
  match s with
  | EmptyString => true
  | String c s' => JS.isWhiteSpace c && isBlank s'
  end.

(** no pattern, mistake pattern or partial-credit condition of the question
    is the empty string *)
Definition patternsNonEmpty (q : Question) : Prop :=
  Forall (fun p => p <> "") (expectedAnswerPatterns q)
  /\ Forall (fun m => mistakePattern m <> "") (commonMistakes (evaluationCriteria q))
  /\ Forall (fun r => condition r <> "") (partialCreditRules (evaluationCriteria q)).

(** arithmetic mean, 0 for the empty list *)
Definition mean (l : list Q) : Q :=
  match l with
  | [] => 0%Q
  | _ => (List.fold_left (fun sum score => sum + score) l 0
          / inject_Z (Z.of_nat (List.length l)))%Q
  end.

(** the three bands of the difficulty ladder *)
Definition tierOf (avg : Q) (d : DifficultyLevel) : Prop :=
  (80 <= avg /\ d = advanced)%Q
  \/ (60 <= avg /\ avg < 80 /\ d = intermediate)%Q
  \/ (avg < 60 /\ d = basic)%Q.


(** the candidate has a session in the active state *)
Definition hasActiveSession (db : Db) (cand : string) : Prop :=
  exists i s, interviewSessions db !! i = Some s
              /\ candidateId s = cand /\ status s = active.

(** the score the bank attaches to the first expected answer whose
    normalized pattern occurs in the normalized answer *)
Definition associatedScore (b : BankQuestion) (answer : string) : option Q :=
  option_map answerScore
    (List.find
       (fun a => JS.includes (JS.trim (JS.toLowerCase answer))
                             (JS.trim (JS.toLowerCase (pattern a))))
       (expectedAnswers b)).

(** what the loop of the coverage tracker maintains: clamped ratios in
    [0,1] and running totals that are not negative *)
Definition coverageInvariant (acc : Questions.CoverageTotals) : Prop :=
  Forall (fun e => 0 <= snd e <= 1)%Q (Questions.categoryCoverage acc)
  /\ (0 <= Questions.totalWeight acc)%Q /\ (0 <= Questions.coveredWeight acc)%Q.

(** two session rows that differ at most in their status *)
Definition sameButStatus (s s' : InterviewSession) : Prop :=
  sessionId s' = sessionId s /\ candidateId s' = candidateId s
  /\ roleLevel s' = roleLevel s
  /\ currentQuestionIndex s' = currentQuestionIndex s
  /\ conversationHistory s' = conversationHistory s
  /\ skillAssessment s' = skillAssessment s
  /\ startTime s' = startTime s /\ endTime s' = endTime s
  /\ sessionMetadata s' = sessionMetadata s.

(** two databases that differ at most in the row of session [i] *)
Definition sameButSession (db db' : Db) (i : string) (s' : InterviewSession) : Prop :=
  interviewSessions db' = <[i := s']> (interviewSessions db)
  /\ candidates db' = candidates db
  /\ evaluationResults db' = evaluationResults db
  /\ excelQuestionTable db' = excelQuestionTable db.

(** how many of the questions asked belong to a category *)
Definition countIn (asked : list Question) (c : ExcelSkillCategory) : nat :=
  List.length (List.filter (fun q => bool_decide (category q = c)) asked).

(** the weight-normalized average of the category coverages of a snapshot *)
Definition weightedAverageOfCategories (level : ExcelLevel)
                                       (coverage : Questions.SkillCoverage) : Q :=
  let roleWeights := Data.roleQuestionWeights level in
  (List.fold_left
     (fun sum entry =>
        sum + snd entry
              * default 0 (objGet (Questions.categories coverage) (fst entry)))
     roleWeights 0
   / List.fold_left (fun sum entry => sum + snd entry) roleWeights 0)%Q.

From Stdlib Require Import DecimalPos.

(** *** More of the evaluation engine: [generateFeedback] *)

Record DetailedFeedback := {
  feedbackQuestionId : string;
  feedbackResponse : string;
  feedbackScore : Q;
  strengths : list string;
  improvements : list string;
  specificFeedback : string
}.

Module Feedback.

Local Open Scope Q_scope.

(** the [forEach] over the partial credits: a credit with positive points
    is a strength, any other an improvement *)
Definition sortCredits (credits : list PartialCredit) : list string * list string :=
  List.fold_left
    (fun '(strengths, improvements) credit =>
       if Evaluation.Qgtb (points credit) 0
       then ((strengths ++ [creditReasoning credit])%list, improvements)
       else (strengths, (improvements ++ [creditReasoning credit])%list))
    credits ([], []).

Definition generateFeedback (evaluation : EvaluationResult) : DetailedFeedback :=
  let '(strengths, improvements) := sortCredits (partialCredits evaluation) in
  let '(strengths, improvements) :=
    if Qle_bool 90 (score evaluation) then
      ((strengths ++ ["Excellent understanding of Excel concepts and syntax"])%list,
       improvements)
    else if Qle_bool 70 (score evaluation) then
      ((strengths ++ ["Good grasp of Excel fundamentals"])%list,
       (improvements ++ ["Focus on syntax precision and advanced features"])%list)
    else if Qle_bool 50 (score evaluation) then
      (strengths,
       (improvements ++ ["Review basic Excel formulas and functions";
                         "Practice with real-world Excel scenarios"])%list)
    else
      (strengths,
       (improvements ++ ["Strengthen foundational Excel knowledge";
                         "Consider taking an Excel basics course"])%list) in
  {| feedbackQuestionId := questionId evaluation;
     feedbackResponse := "";
     feedbackScore := score evaluation;
     strengths := strengths;
     improvements := improvements;
     specificFeedback := reasoning evaluation |}.

End Feedback.

(** *** More of the question engine: follow-up questions *)

Module FollowUp.

Local Open Scope Q_scope.

Definition isDigit (c : ascii) : bool :=
  let n := nat_of_ascii c in (48 <=? n)%nat && (n <=? 57)%nat.

(** the digits at the front of a string *)
Fixpoint digitRun (s : string) : string :=
  match s with
  | EmptyString => EmptyString
  | String c s' => if isDigit c then String c (digitRun s') else EmptyString
  end.

(** [s.match(/\d+/)?.[0]]: the leftmost run of digits, as long as it goes *)
Fixpoint firstDigits (s : string) : option string :=
  match s with
  | EmptyString => None
  | String c s' => if isDigit c then Some (String c (digitRun s')) else firstDigits s'
  end.

Fixpoint parseDigits (s : string) (acc : Z) : Z :=
  match s with
  | EmptyString => acc
  | String c s' => parseDigits s' (10 * acc + (Z.of_nat (nat_of_ascii c) - 48))%Z
  end.

(** [parseInt] on a run of decimal digits *)
Definition parseInt (digits : string) : Z := parseDigits digits 0.

Definition evaluateTrigger (trigger : string) (score : Q) (response : string) : bool :=
  if JS.includes trigger "score <" then
    let threshold := parseInt (default "0" (firstDigits trigger)) in
    Questions.Qltb score (inject_Z threshold)
  else if JS.includes trigger "score >" then
    let threshold := parseInt (default "100" (firstDigits trigger)) in
    Questions.Qltb (inject_Z threshold) score
  else false.

Definition placeholder : string := "{response}".

Fixpoint dropChars (n : nat) (s : string) : string :=
  match n, s with
  | O, _ => s
  | S _, EmptyString => EmptyString
  | S k, String _ s' => dropChars k s'
  end.

(** the text put in place of one match by [String.prototype.replace] when
    the replacement is a string and the pattern has no capture group: [$$]
    is a dollar sign, [$&] the match, [$`] the text before the match, [$']
    the text after it; a dollar sign followed by anything else stands for
    itself *)
Fixpoint expandReplacement (matched before after replacement : string) : string :=
  match replacement with
  | EmptyString => EmptyString
  | String "$" (String "$" rest) =>
      String "$" (expandReplacement matched before after rest)
  | String "$" (String "&" rest) =>
      matched +:+ expandReplacement matched before after rest
  | String "$" (String "`" rest) =>
      before +:+ expandReplacement matched before after rest
  | String "$" (String "'" rest) =>
      after +:+ expandReplacement matched before after rest
  | String c rest => String c (expandReplacement matched before after rest)
  end.

(** [template.replace(/\{response\}/g, response)] from a position of the
    template on: [before] is the text already passed, [skip] the number of
    characters of a match still to pass *)
Fixpoint replaceFrom (skip : nat) (before rest response : string) : string :=
  match rest with
  | EmptyString => EmptyString
  | String c rest' =>
      match skip with
      | S k => replaceFrom k (before +:+ String c EmptyString) rest' response
      | O =>
          if JS.startsWith rest placeholder
          then expandReplacement placeholder before
                 (dropChars (String.length placeholder) rest) response
               +:+ replaceFrom (String.length placeholder - 1)
                     (before +:+ String c EmptyString) rest' response
          else String c (replaceFrom 0 (before +:+ String c EmptyString) rest' response)
      end
  end.

Definition processQuestionTemplate (template response : string) : string :=
  replaceFrom 0 EmptyString template response.

Definition generateFollowUp (uuidv4 : nat -> string) (previousQ : Question)
                            (response : string) (score : Q)
  : Questions.Gen (Result Question) :=
  fun c =>
    match List.find (fun t => evaluateTrigger (trigger t) score response)
                    (followUpTriggers previousQ) with
    | Some t =>
        let '(newId, c') := Questions.uuid uuidv4 c in
        (Ok {| id := newId;
               category := category previousQ;
               difficulty := difficulty previousQ;
               text := processQuestionTemplate (questionTemplate t) response;
               expectedAnswerPatterns := [];
               evaluationCriteria := evaluationCriteria previousQ;
               followUpTriggers := [] |}, c')
    | None => (Err "No follow-up question needed", c)
    end.

End FollowUp.

(** *** More of the orchestrator: [getNextQuestion] *)

Inductive NextAction := continue | complete | pause.

Record InterviewStep := {
  stepQuestion : option Question;
  stepEvaluation : option EvaluationResult;
  nextAction : NextAction;
  stepMessage : string
}.

Module OrchestratorSteps.

(** [None] is the [null] returned for "Interview complete" *)
Definition getNextQuestion (Math_random : nat -> Q) (uuidv4 : nat -> string)
                           (db : Db) (i : string)
  : Questions.Gen (Result (option InterviewStep)) :=
  fun c =>
    match InterviewSessionRepository.findById db i with
    | Err m => (Err m, c)
    | Ok None => (Err ("Interview session " +:+ i +:+ " not found"), c)
    | Ok (Some session) =>
        match Questions.getNextQuestion Math_random uuidv4
                (excelQuestionTable db) session c with
        | (Err m, c') => (Err m, c')
        | (Ok None, c') => (Ok None, c')
        | (Ok (Some q), c') =>
            (Ok (Some {| stepQuestion := Some q;
                         stepEvaluation := None;
                         nextAction := continue;
                         stepMessage := "Next question ready" |}), c')
        end
    end.

End OrchestratorSteps.

(** *** More of the session repository, [src/lib/repositories/interview.ts] *)

(** [Partial<SkillScores>]: a field that is absent is [None] *)
Record PartialSkillScores := {
  partOverall : option Q;
  partBasicFormulas : option Q;
  partDataManipulation : option Q;
  partPivotTables : option Q;
  partAdvancedFunctions : option Q;
  partDataVisualization : option Q;
  partMacrosVBA : option Q;
  partDataModeling : option Q
}.

Record SessionStats := {
  statsTotal : Z;
  byStatus : list (InterviewStatus * Z);
  byRoleLevel : list (ExcelLevel * Z);
  averageDuration : Q;
  statsCompletionRate : Q
}.

Module SessionMaintenance.

Import InterviewSessionRepository.
Local Open Scope Q_scope.

(** the rows of the session table *)
Definition sessionRows (db : Db) : list InterviewSession :=
  List.map snd (map_to_list (interviewSessions db)).

(** [{ ...currentScores, ...scores }] *)
Definition mergeScores (currentScores : SkillScores) (scores : PartialSkillScores)
  : SkillScores :=
  {| overall := default (overall currentScores) (partOverall scores);
     basicFormulas := default (basicFormulas currentScores) (partBasicFormulas scores);
     dataManipulation :=
       default (dataManipulation currentScores) (partDataManipulation scores);
     pivotTables := default (pivotTables currentScores) (partPivotTables scores);
     advancedFunctions :=
       default (advancedFunctions currentScores) (partAdvancedFunctions scores);
     dataVisualization :=
       default (dataVisualization currentScores) (partDataVisualization scores);
     macrosVBA := default (macrosVBA currentScores) (partMacrosVBA scores);
     dataModeling := default (dataModeling currentScores) (partDataModeling scores) |}.

(** the stored [skillAssessment] is always an object, so the zeroed
    default of the source is never taken *)
Definition updateSkillScores (db : Db) (i : string) (scores : PartialSkillScores)
  : Result (Db * InterviewSession) :=
  validateId i ;;;
  found <- findById db i ;;
  match found with
  | None => Err ("Interview session " +:+ i +:+ " not found")
  | Some session =>
      let currentScores := skillAssessment session in
      let updatedScores := mergeScores currentScores scores in
      update db i
        {| updStatus := None; updCurrentQuestionIndex := None;
           updConversationHistory := None; updSkillAssessment := Some updatedScores;
           updEndTime := None; updMetadata := None |}
  end.

Definition getActiveSessionsCount (db : Db) : Z :=
  Z.of_nat (List.length
              (List.filter (fun s => bool_decide (status s = active)) (sessionRows db))).

(** [new Date(x)] keeps the integer part of a number of milliseconds *)
Definition truncate (x : Q) : Z := if Qle_bool 0 x then Qfloor x else Qceiling x.

(** the [where] clause of the sweep *)
Definition isExpired (cutoffTime : Z) (s : InterviewSession) : bool :=
  bool_decide (status s = active) && (startTime s <? cutoffTime)%Z.

(** [maxAgeHours] is [None] when the argument is left out; [now] is the
    clock read by [Date.now()] and [new Date()] *)
Definition cleanupExpiredSessions (db : Db) (maxAgeHours : option Q) (now : Z)
  : Db * Z :=
  let maxAgeHours := default 24 maxAgeHours in
  let cutoffTime := truncate (inject_Z now - maxAgeHours * 60 * 60 * 1000) in
  let swept :=
    (fun s => if isExpired cutoffTime s
              then applyUpdate s
                     {| updStatus := Some completed; updCurrentQuestionIndex := None;
                        updConversationHistory := None; updSkillAssessment := None;
                        updEndTime := Some now; updMetadata := None |}
              else s) <$> interviewSessions db in
  (withSessions db swept,
   Z.of_nat (List.length (List.filter (isExpired cutoffTime) (sessionRows db)))).

(** [groupBy] on a column: one entry for every value that occurs, with the
    number of rows holding it; the values are listed in the order of their
    declaration *)
Definition groupBy {A} `{EqDecision A} (column : InterviewSession -> A)
                   (values : list A) (rows : list InterviewSession) : list (A * Z) :=
  List.filter (fun entry => (0 <? snd entry)%Z)
    (List.map
       (fun v => (v, Z.of_nat (List.length
                                 (List.filter (fun s => bool_decide (column s = v)) rows))))
       values).

Definition getSessionStats (db : Db) : SessionStats :=
  let rows := sessionRows db in
  let total := Z.of_nat (List.length rows) in
  let completedSessions :=
    List.filter
      (fun s => bool_decide (status s = completed) && bool_decide (endTime s <> None))
      rows in
  let durations :=
    List.map
      (fun s => (inject_Z (default 0%Z (endTime s)) - inject_Z (startTime s))
                / 1000 / 60)
      (List.filter (fun s => bool_decide (endTime s <> None)) completedSessions) in
  let averageDuration :=
    if (0 <? List.length durations)%nat
    then List.fold_left (fun sum duration => sum + duration) durations 0
         / inject_Z (Z.of_nat (List.length durations))
    else 0 in
  let completionRate :=
    if (0 <? total)%Z
    then inject_Z (Z.of_nat (List.length completedSessions)) / inject_Z total * 100
    else 0 in
  {| statsTotal := total;
     byStatus := groupBy status [active; paused; completed] rows;
     byRoleLevel := groupBy roleLevel [basic; intermediate; advanced] rows;
     averageDuration := averageDuration;
     statsCompletionRate := completionRate |}.

End SessionMaintenance.

(** *** Pagination, [src/lib/repositories/base.ts], and [findMany] *)

Inductive SortOrder := asc | desc.

Record PaginationOptions := {
  optPage : option Q;
  optLimit : option Q;
  sortBy : option string;
  sortOrder : option SortOrder
}.

Record PaginatedResult (R : Type) := {
  data : list R;
  total : Z;
  page : Q;
  limit : Q;
  totalPages : Z
}.

Arguments data {R}.
Arguments total {R}.
Arguments page {R}.
Arguments limit {R}.
Arguments totalPages {R}.

Record InterviewSessionFilters := {
  filterCandidateId : option string;
  filterStatus : option InterviewStatus;
  filterRoleLevel : option ExcelLevel;
  startedAfter : option Z;
  startedBefore : option Z;
  completedAfter : option Z;
  completedBefore : option Z
}.

Module Pagination.

Local Open Scope Q_scope.

(** [x || d] for an optional number: 0 is falsy *)
Definition orElse (x : option Q) (d : Q) : Q :=
  match x with
  | Some v => if Qeq_bool v 0 then d else v
  | None => d
  end.

(** the two queries have been run: [rows] is the result of [findManyQuery],
    [count] that of [countQuery] *)
Definition paginate {R} (rows : list R) (count : Z) (options : PaginationOptions)
  : PaginatedResult R :=
  let page := Qmax 1 (orElse (optPage options) 1) in
  let limit := Qmin 100 (Qmax 1 (orElse (optLimit options) 10)) in
  {| data := rows;
     total := count;
     page := page;
     limit := limit;
     totalPages := Qceiling (inject_Z count / limit) |}.

(** the [where] clause built from the filters: a filter that is absent, or
    an empty candidate identifier, puts no condition; a session without end
    time meets no condition on the end time *)
Definition matchesFilters (filters : InterviewSessionFilters) (s : InterviewSession)
  : bool :=
  match filterCandidateId filters with
  | Some c => if decide (c = "") then true else bool_decide (candidateId s = c)
  | None => true
  end
  && match filterStatus filters with
     | Some st => bool_decide (status s = st)
     | None => true
     end
  && match filterRoleLevel filters with
     | Some l => bool_decide (roleLevel s = l)
     | None => true
     end
  && match startedAfter filters with
     | Some t => (t <=? startTime s)%Z
     | None => true
     end
  && match startedBefore filters with
     | Some t => (startTime s <=? t)%Z
     | None => true
     end
  && match completedAfter filters, endTime s with
     | Some t, Some e => (t <=? e)%Z
     | Some _, None => false
     | None, _ => true
     end
  && match completedBefore filters, endTime s with
     | Some t, Some e => (e <=? t)%Z
     | Some _, None => false
     | None, _ => true
     end.

Section WithOrdering.

(** the order in which the database returns the rows for an [orderBy]
    clause; the related candidate and evaluation rows that are included
    are left out of the rows *)
Variable orderBy : option string -> option SortOrder
                   -> list InterviewSession -> list InterviewSession.

Definition findMany (db : Db) (filters : InterviewSessionFilters)
                    (options : PaginationOptions)
  : PaginatedResult InterviewSession :=
  let matching :=
    List.filter (matchesFilters filters) (SessionMaintenance.sessionRows db) in
  let rows := orderBy (sortBy options) (sortOrder options) matching in
  paginate rows (Z.of_nat (List.length matching)) options.

End WithOrdering.

End Pagination.

(** *** The evaluation table, [src/lib/repositories/evaluation.ts] *)

(** a row of the evaluation table with all its columns; a column that
    holds [null] is [None] *)
Record StoredEvaluation := {
  evalId : string;
  evalSessionId : string;
  evalQuestionId : string;
  candidateResponse : string;
  evalScore : Q;
  evalConfidence : Q;
  evalReasoning : option string;
  evalPartialCredits : option (list PartialCredit);
  evalCreatedAt : Z
}.

Record CreateEvaluationData := {
  newSessionId : string;
  newQuestionId : string;
  newCandidateResponse : string;
  newScore : Q;
  newConfidence : Q;
  newReasoning : option string;
  newPartialCredits : option (list PartialCredit)
}.

Module EvaluationRepository.

Local Open Scope Q_scope.

(** [array.join(', ')] *)
Fixpoint join (fields : list string) : string :=
  match fields with
  | [] => ""
  | [f] => f
  | f :: rest => f +:+ ", " +:+ join rest
  end.

(** [validateRequired]: a field is missing when its value is falsy, which
    the empty string and the number 0 are *)
Definition missingFields (data : CreateEvaluationData) : list string :=
  (if decide (newSessionId data = "") then ["sessionId"] else [])
  ++ (if decide (newQuestionId data = "") then ["questionId"] else [])
  ++ (if decide (newCandidateResponse data = "") then ["candidateResponse"] else [])
  ++ (if Qeq_bool (newScore data) 0 then ["score"] else [])
  ++ (if Qeq_bool (newConfidence data) 0 then ["confidence"] else []).

Definition validateRequired (data : CreateEvaluationData) : Result unit :=
  if (0 <? List.length (missingFields data))%nat
  then Err ("Missing required fields: " +:+ join (missingFields data))
  else Ok tt.

(** the identifier and the creation time of the new row are generated by
    the database; they are the inputs [newId] and [now].  The identifier is
    the primary key: inserting one that is already taken is rejected. *)
Definition create (db : Db) (table : list StoredEvaluation)
                  (data : CreateEvaluationData) (newId : string) (now : Z)
  : Result (list StoredEvaluation * StoredEvaluation) :=
  validateRequired data ;;;
  if Questions.Qltb (newScore data) 0 || Questions.Qltb 100 (newScore data)
  then Err "Score must be between 0 and 100"
  else if Questions.Qltb (newConfidence data) 0
          || Questions.Qltb 1 (newConfidence data)
  then Err "Confidence must be between 0 and 1"
  else
    match interviewSessions db !! newSessionId data,
          List.find (fun q => bool_decide (dbId q = newQuestionId data))
                    (excelQuestionTable db) with
    | None, _ => Err ("Interview session " +:+ newSessionId data +:+ " not found")
    | Some _, None => Err ("Excel question " +:+ newQuestionId data +:+ " not found")
    | Some _, Some _ =>
        if List.existsb (fun r => bool_decide (evalId r = newId)) table
        then Err "Unique constraint failed on the fields: (`id`)"
        else
          let row :=
            {| evalId := newId;
               evalSessionId := newSessionId data;
               evalQuestionId := newQuestionId data;
               candidateResponse := newCandidateResponse data;
               evalScore := newScore data;
               evalConfidence := newConfidence data;
               evalReasoning :=
                 match newReasoning data with
                 | Some r => if decide (r = "") then None else Some r
                 | None => None
                 end;
               evalPartialCredits := Some (default [] (newPartialCredits data));
               evalCreatedAt := now |} in
          Ok ((table ++ [row])%list, row)
    end.

(** [orderBy: { createdAt: 'asc' }]; rows created at the same time stay in
    the order of the table *)
Definition findBySessionId (table : list StoredEvaluation) (sessionId : string)
  : Result (list StoredEvaluation) :=
  InterviewSessionRepository.validateId sessionId ;;;
  Ok (stableSort (fun a b => (evalCreatedAt a <=? evalCreatedAt b)%Z)
        (List.filter (fun r => bool_decide (evalSessionId r = sessionId)) table)).

End EvaluationRepository.

(** *** The report service *)

Inductive HiringRecommendation := strong_hire | hire | no_hire | insufficient_data.

Record ComparisonResult := {
  percentile : Q;
  benchmark : string;
  recommendation : string
}.

Record InterviewReport := {
  reportCandidateId : string;
  overallScore : Q;
  skillBreakdown : SkillScores;
  reportStrengths : list string;
  improvementAreas : list string;
  hiringRecommendation : HiringRecommendation;
  detailedFeedback : list DetailedFeedback;
  interviewDuration : Z;
  completionRate : Q
}.

Module ReportService.

Local Open Scope Q_scope.

Definition extractStrengths (evaluation : StoredEvaluation) : list string :=
  let strengths :=
    ((if Questions.Qgeb (evalScore evaluation) 80
      then ["Strong technical knowledge demonstrated"] else [])
     ++ (if Questions.Qgeb (evalConfidence evaluation) 0.8
         then ["Clear and confident response"] else [])
     ++ match evalPartialCredits evaluation with
        | Some credits =>
            List.map creditReasoning
              (List.filter (fun credit => Evaluation.Qgtb (points credit) 0) credits)
        | None => []
        end)%list in
  if (0 <? List.length strengths)%nat then strengths else ["Response provided"].

Definition extractImprovements (evaluation : StoredEvaluation) : list string :=
  ((if Questions.Qltb (evalScore evaluation) 70
    then ["Review fundamental concepts"] else [])
   ++ (if Questions.Qltb (evalConfidence evaluation) 0.6
       then ["Build confidence through practice"] else [])
   ++ match evalPartialCredits evaluation with
      | Some credits =>
          List.map creditReasoning
            (List.filter (fun credit => Qle_bool (points credit) 0) credits)
      | None => []
      end)%list.

(** [skill.replace(/([A-Z])/g, ' $1').toLowerCase()] *)
Fixpoint spaceCapitals (skill : string) : string :=
  match skill with
  | EmptyString => EmptyString
  | String c rest =>
      if JS.isUpper c then String " " (String c (spaceCapitals rest))
      else String c (spaceCapitals rest)
  end.

Definition skillName (skill : string) : string :=
  JS.toLowerCase (spaceCapitals skill).

(** [Object.entries(skillScores)] without the entry of [overall]; the keys
    come in the order in which the scores are declared *)
Definition skillEntries (skillScores : SkillScores) : list (string * Q) :=
  [ ("basicFormulas", basicFormulas skillScores);
    ("dataManipulation", dataManipulation skillScores);
    ("pivotTables", pivotTables skillScores);
    ("advancedFunctions", advancedFunctions skillScores);
    ("dataVisualization", dataVisualization skillScores);
    ("macrosVBA", macrosVBA skillScores);
    ("dataModeling", dataModeling skillScores) ].

(** the average of a column; [None] is the [NaN] of an empty list, for
    which every comparison is false *)
Definition average (values : list Q) : option Q :=
  match values with
  | [] => None
  | _ => Some (List.fold_left (fun sum v => sum + v) values 0
               / inject_Z (Z.of_nat (List.length values)))
  end.

Definition analyzePerformance (skillScores : SkillScores)
                              (evaluations : list StoredEvaluation)
  : list string * list string :=
  let '(strengths, improvementAreas) :=
    List.fold_left
      (fun '(strengths, improvementAreas) '(skill, score) =>
         if Questions.Qgeb score 80
         then ((strengths ++ ["Excellent " +:+ skillName skill +:+ " skills"])%list,
               improvementAreas)
         else if Questions.Qltb score 60
         then (strengths,
               (improvementAreas
                ++ ["Strengthen " +:+ skillName skill +:+ " knowledge"])%list)
         else (strengths, improvementAreas))
      (skillEntries skillScores) ([], []) in
  let avgScore := average (List.map evalScore evaluations) in
  let avgConfidence := average (List.map evalConfidence evaluations) in
  let '(strengths, improvementAreas) :=
    match avgConfidence with
    | Some c =>
        if Questions.Qgeb c 0.8
        then ((strengths ++ ["Consistent and confident responses"])%list,
              improvementAreas)
        else if Questions.Qltb c 0.6
        then (strengths,
              (improvementAreas ++ ["Build confidence in Excel knowledge"])%list)
        else (strengths, improvementAreas)
    | None => (strengths, improvementAreas)
    end in
  match avgScore with
  | Some s =>
      if Questions.Qgeb s 85
      then ((strengths ++ ["Strong overall Excel proficiency"])%list,
            improvementAreas)
      else if Questions.Qltb s 65
      then (strengths,
            (improvementAreas ++ ["Focus on fundamental Excel concepts"])%list)
      else (strengths, improvementAreas)
  | None => (strengths, improvementAreas)
  end.

(** the [thresholds] table: strong hire, hire *)
Definition thresholds (roleLevel : ExcelLevel) : Q * Q :=
  match roleLevel with
  | basic => (85, 70)
  | intermediate => (90, 75)
  | advanced => (95, 85)
  end.

Definition generateHiringRecommendation (overallScore : Q) (roleLevel : ExcelLevel)
                                        (completionRate : Q)
  : HiringRecommendation :=
  if Questions.Qltb completionRate 50 then insufficient_data
  else
    let threshold := thresholds roleLevel in
    if Questions.Qgeb overallScore (fst threshold) then strong_hire
    else if Questions.Qgeb overallScore (snd threshold) then hire
    else no_hire.

(** the [baselines] table *)
Definition baselines (roleLevel : ExcelLevel) : SkillScores :=
  match roleLevel with
  | basic =>
      {| overall := 60; basicFormulas := 70; dataManipulation := 60;
         pivotTables := 50; advancedFunctions := 40; dataVisualization := 45;
         macrosVBA := 30; dataModeling := 35 |}
  | intermediate =>
      {| overall := 75; basicFormulas := 85; dataManipulation := 80;
         pivotTables := 75; advancedFunctions := 70; dataVisualization := 65;
         macrosVBA := 50; dataModeling := 60 |}
  | advanced =>
      {| overall := 85; basicFormulas := 90; dataManipulation := 90;
         pivotTables := 85; advancedFunctions := 85; dataVisualization := 80;
         macrosVBA := 75; dataModeling := 80 |}
  end.

Definition compareToBaseline (scores : SkillScores) (roleLevel : ExcelLevel)
  : ComparisonResult :=
  let baseline := baselines roleLevel in
  let overallDifference := overall scores - overall baseline in
  let percentile :=
    if Questions.Qgeb overallDifference 15 then 90
    else if Questions.Qgeb overallDifference 10 then 80
    else if Questions.Qgeb overallDifference 5 then 70
    else if Questions.Qgeb overallDifference 0 then 60
    else if Questions.Qgeb overallDifference (- (5)) then 50
    else if Questions.Qgeb overallDifference (- (10)) then 40
    else if Questions.Qgeb overallDifference (- (15)) then 30
    else 20 in
  let benchmark :=
    if Questions.Qgeb percentile 80 then "Top performer"
    else if Questions.Qgeb percentile 70 then "Above average"
    else if Questions.Qgeb percentile 50 then "Average performer"
    else if Questions.Qgeb percentile 30 then "Below average"
    else "Needs significant improvement" in
  let recommendation :=
    if Questions.Qgeb (overall scores) (overall baseline + 10)
    then "Exceeds role requirements - consider for advanced positions"
    else if Questions.Qgeb (overall scores) (overall baseline)
    then "Meets role requirements - good candidate"
    else if Questions.Qgeb (overall scores) (overall baseline - 10)
    then "Close to requirements - consider with additional training"
    else "Does not meet minimum requirements for this role" in
  {| percentile := percentile;
     benchmark := benchmark;
     recommendation := recommendation |}.

Definition generateReport (table : list StoredEvaluation) (session : InterviewSession)
  : Result InterviewReport :=
  evaluations <- EvaluationRepository.findBySessionId table (sessionId session) ;;
  if (List.length evaluations =? 0)%nat
  then Err "No evaluations found for session"
  else
    let duration :=
      match endTime session with
      | Some e => Qfloor ((inject_Z e - inject_Z (startTime session)) / 1000)
      | None => 0%Z
      end in
    let completionRate := if (0 <? List.length evaluations)%nat then 100 else 0 in
    let detailedFeedback :=
      List.map
        (fun evaluation =>
           {| feedbackQuestionId := evalQuestionId evaluation;
              feedbackResponse := candidateResponse evaluation;
              feedbackScore := evalScore evaluation;
              strengths := extractStrengths evaluation;
              improvements := extractImprovements evaluation;
              specificFeedback :=
                match evalReasoning evaluation with
                | Some r => if decide (r = "")
                            then "No specific feedback available" else r
                | None => "No specific feedback available"
                end |})
        evaluations in
    let skillBreakdown := skillAssessment session in
    let '(strengths, improvementAreas) :=
      analyzePerformance skillBreakdown evaluations in
    let hiringRecommendation :=
      generateHiringRecommendation (overall skillBreakdown) (roleLevel session)
        completionRate in
    Ok {| reportCandidateId := candidateId session;
          overallScore := overall skillBreakdown;
          skillBreakdown := skillBreakdown;
          reportStrengths := strengths;
          improvementAreas := improvementAreas;
          hiringRecommendation := hiringRecommendation;
          detailedFeedback := detailedFeedback;
          interviewDuration := duration;
          completionRate := completionRate |}.

End ReportService.

(** *** Vocabulary of the further statements *)

(** the normalized answer contains the lower-cased text of the pattern *)
Definition patternMatches (answer pattern : string) : bool :=
  JS.includes (JS.trim (JS.toLowerCase answer)) (JS.toLowerCase pattern).

(** a number between 0 and 100 *)
Definition isPercentage (x : Q) : Prop := (0 <= x /\ x <= 100)%Q.

(** a number without a fractional part *)
Definition isWholeNumber (x : Q) : Prop := exists z : Z, (x == inject_Z z)%Q.

(** the first element of the list has the largest key *)
Definition headIsMax {A} (key : A -> Q) (l : list A) : Prop :=
  match l with
  | [] => True
  | h :: _ => forall y, In y l -> (key y <= key h)%Q
  end.

(** the priority the selector gives to a category of weight [w] *)
Definition priorityOf (coverage : Questions.SkillCoverage)
                      (c : ExcelSkillCategory) (w : Q) : Q :=
  (w * (1 - default 0 (objGet (Questions.categories coverage) c)))%Q.

(** the coverage recorded for a category: asked over expected, at most 1 *)
Definition clampedCoverage (session : InterviewSession) (c : ExcelSkillCategory) : Q :=
  Qmin
    (if (0 <? Questions.getExpectedQuestionsForCategory c (roleLevel session))%Z
     then (inject_Z (Z.of_nat (countIn (Questions.getAskedQuestions session) c))
           / inject_Z (Questions.getExpectedQuestionsForCategory c (roleLevel session)))%Q
     else 0%Q)
    1.0%Q.

(** fewer questions of the category were asked than the role expects *)
Definition underAsked (session : InterviewSession) (c : ExcelSkillCategory) : Prop :=
  (Z.of_nat (countIn (Questions.getAskedQuestions session) c)
   < Questions.getExpectedQuestionsForCategory c (roleLevel session))%Z.

(** the answers of a list submitted one after the other, each with the
    time at which it is recorded *)
Fixpoint submitResponses (db : Db) (i : string) (answers : list (string * Z))
  : Result Db :=
  match answers with
  | [] => Ok db
  | (answer, now) :: rest =>
      db' <- InterviewOrchestrator.submitResponse db i answer now ;;
      submitResponses db' i rest
  end.

(** the response turns recorded for a list of answers, the first of which
    meets the question index [index] *)
Fixpoint responseTurns (index : Z) (answers : list (string * Z))
  : list ConversationTurn :=
  match answers with
  | [] => []
  | (answer, now) :: rest =>
      {| turnId := "turn-" +:+ JS.showZ now;
         turnType := response;
         content := answer;
         timestamp := now;
         turnMetadata :=
           Some {| metaQuestion := None; metaQuestionIndex := Some index |} |}
      :: responseTurns (index + 1) rest
  end.

(** the order of the recommendations, from the least to the most
    favourable *)
Definition rankOf (r : HiringRecommendation) : Z :=
  match r with
  | insufficient_data => 0
  | no_hire => 1
  | hire => 2
  | strong_hire => 3
  end.

(** the table holds an evaluation of the session *)
Definition hasEvaluation (table : list StoredEvaluation) (s : InterviewSession) : Prop :=
  exists r, In r table /\ evalSessionId r = sessionId s.

(** the sum of the counts of a grouping *)
Definition sumCounts {A} (groups : list (A * Z)) : Z :=
  List.fold_right (fun entry sum => (snd entry + sum)%Z) 0%Z groups.

(** *** Further test inputs *)

Module MoreFixtures.

Local Open Scope Q_scope.

(** an evaluation holding one credit in favour and one deduction *)
Definition mixedEvaluation : EvaluationResult :=
  {| questionId := "q-sum"; score := 30; confidence := 0.7;
     reasoning := "Rule-based evaluation with pattern matching";
     partialCredits :=
       [ {| criterion := "Common Mistake"; points := - 20;
            creditReasoning := "Remember to start formulas with an equals sign (=)" |};
         {| criterion := "Partial Credit"; points := 50;
            creditReasoning := "Good knowledge of SUM function, but check syntax" |} ];
     suggestedFollowUp := None |}.

(** a question of the given category, with the rubric of the SUM question *)
Definition ofCategory (i : string) (c : ExcelSkillCategory) : Question :=
  {| id := i;
     category := c;
     difficulty := basic;
     text := "Describe how you would do this in Excel.";
     expectedAnswerPatterns := [];
     evaluationCriteria := evaluationCriteria Fixtures.sumQuestion;
     followUpTriggers := [] |}.

(** a basic-level session asked as many questions of every category as the
    role expects: 6, 5, 3 and 2 *)
Definition coveredSession : InterviewSession :=
  Fixtures.sessionWith "session-1" basic active
    (List.map (fun '(n, c) =>
                 Fixtures.questionTurn (1001 + Z.of_nat n)
                   (ofCategory ("q-" +:+ JS.showZ (Z.of_nat n)) c))
              (List.combine (List.seq 0 16)
                 (List.repeat BASIC_FORMULAS 6 ++ List.repeat DATA_MANIPULATION 5
                  ++ List.repeat DATA_VISUALIZATION 3 ++ List.repeat PIVOT_TABLES 2)%list)).

(** a row of the question table on basic formulas *)
Definition formulaRow (i : string) (d : DifficultyLevel) (used : Z) : DbQuestion :=
  {| dbId := i; dbCategory := BASIC_FORMULAS; dbDifficulty := d;
     dbText := "Which formula adds up a column?";
     dbExpectedAnswers := [];
     dbEvaluationRubric := evaluationCriteria Fixtures.sumQuestion;
     dbTags := []; usageCount := used; dbCreatedAt := 0 |}.

(** ten basic rows that were never used and one advanced row used five
    times *)
Definition crowdedTable : list DbQuestion :=
  (List.map (fun n => formulaRow ("row-" +:+ JS.showZ (Z.of_nat n)) basic 0)
            (List.seq 0 10)
   ++ [formulaRow "adv-1" advanced 5])%list.

(** two stored evaluations of session-1 and one of another session *)
Definition evaluationTable : list StoredEvaluation :=
  [ {| evalId := "eval-2"; evalSessionId := "session-1"; evalQuestionId := "q-lookup";
       candidateResponse := "Use VLOOKUP"; evalScore := 55; evalConfidence := 0.5;
       evalReasoning := None;
       evalPartialCredits :=
         Some [ {| criterion := "Common Mistake"; points := - 20;
                   creditReasoning := "Remember the exact match argument" |} ];
       evalCreatedAt := 3000 |};
    {| evalId := "eval-1"; evalSessionId := "session-1"; evalQuestionId := "q-sum";
       candidateResponse := "=SUM(A1:A10)"; evalScore := 95; evalConfidence := 0.9;
       evalReasoning := Some "Exact match with expected answer pattern";
       evalPartialCredits := Some [];
       evalCreatedAt := 2000 |};
    {| evalId := "eval-3"; evalSessionId := "session-9"; evalQuestionId := "q-sum";
       candidateResponse := "SUM"; evalScore := 40; evalConfidence := 0.7;
       evalReasoning := Some ""; evalPartialCredits := None;
       evalCreatedAt := 2500 |} ].

End MoreFixtures.


(** ** Part II.  Properties *)

(** *** The rule tier and the confidence threshold *)

Section RuleTier.

Import Evaluation.
Local Open Scope Q_scope.

Variable ai : Question -> string -> InterviewContext -> Result EvaluationResult.

Lemma find_first_match {A} (f : A -> bool) (l : list A) (x : A) :
  In x l -> f x = true -> exists y, List.find f l = Some y /\ f y = true.
Proof.
  intros Hin Hfx. destruct (List.find f l) as [y|] eqn:Hfind.
  - exists y. split; [reflexivity|]. eapply List.find_some; eassumption.
  - pose proof (List.find_none f l Hfind x Hin). congruence.
Qed.

Lemma lowerChar_whiteSpace c : JS.isWhiteSpace c = true -> JS.lowerChar c = c.
Proof.
  destruct c as [[] [] [] [] [] [] [] []]; vm_compute; intros H;
    solve [reflexivity | discriminate H].
Qed.

Lemma toLowerCase_blank s : isBlank s = true -> JS.toLowerCase s = s.
Proof.
  induction s as [|c s IH]; simpl; [reflexivity|].
  intros [Hc Hs]%andb_prop. rewrite lowerChar_whiteSpace, IH; auto.
Qed.

Lemma trimStart_blank s : isBlank s = true -> JS.trimStart s = "".
Proof.
  induction s as [|c s IH]; simpl; [reflexivity|].
  intros [Hc Hs]%andb_prop. rewrite Hc. auto.
Qed.

Lemma normalize_blank s : isBlank s = true -> JS.trim (JS.toLowerCase s) = "".
Proof.
  intros H. rewrite toLowerCase_blank by assumption.
  unfold JS.trim. rewrite trimStart_blank by assumption. reflexivity.
Qed.

Lemma toLowerCase_nonEmpty p : p <> "" -> JS.toLowerCase p <> "".
Proof. destruct p; simpl; congruence. Qed.

Lemma includes_empty_subject p : p <> "" -> JS.includes "" p = false.
Proof. destruct p; simpl; congruence. Qed.

Lemma find_in_empty_response {A} (f : A -> string) (l : list A) :
  Forall (fun a => f a <> "") l ->
  List.find (fun a => JS.includes "" (JS.toLowerCase (f a))) l = None.
Proof.
  induction 1 as [|a l Ha _ IH]; cbn [List.find]; [reflexivity|].
  rewrite includes_empty_subject by (apply toLowerCase_nonEmpty; assumption).
  exact IH.
Qed.

Lemma filter_in_empty_response {A} (f : A -> string) (l : list A) :
  Forall (fun a => f a <> "") l ->
  List.filter (fun a => JS.includes "" (JS.toLowerCase (f a))) l = [].
Proof.
  induction 1 as [|a l Ha _ IH]; cbn [List.filter]; [reflexivity|].
  rewrite includes_empty_subject by (apply toLowerCase_nonEmpty; assumption).
  exact IH.
Qed.

Lemma tryRuleBasedEvaluation_blank q answer :
  patternsNonEmpty q -> isBlank answer = true ->
  tryRuleBasedEvaluation q answer = None.
Proof.
  intros (Hp & Hm & Hr) Hblank. unfold tryRuleBasedEvaluation.
  rewrite normalize_blank by assumption.
  rewrite (find_in_empty_response (fun p => p)) by assumption.
  unfold collectPartialCredits.
  rewrite (filter_in_empty_response mistakePattern) by assumption.
  rewrite (filter_in_empty_response condition) by assumption.
  reflexivity.
Qed.

(** C3 (as the code has it).  When the trimmed, lower-cased answer contains
    the lower-cased text of one of the question's expected patterns, the
    evaluation is the rule tier's: score 95 whatever the pattern,
    confidence 0.9 (above the 0.8 threshold), and the AI tier is not called. *)
Theorem exact_match_scores_95 q answer ctx p :
  In p (expectedAnswerPatterns q) ->
  JS.includes (JS.trim (JS.toLowerCase answer)) (JS.toLowerCase p) = true ->
  exists r,
    evaluateResponse ai q answer ctx = {| outcome := Ok r; aiCalls := [] |}
    /\ score r = 95 /\ confidence r = 0.9 /\ 0.8 < confidence r
    /\ questionId r = id q.
Proof.
  intros Hin Hinc.
  destruct (find_first_match
              (fun pat => JS.includes (JS.trim (JS.toLowerCase answer))
                                      (JS.toLowerCase pat))
              _ p Hin Hinc) as (y & Hfind & _).
  unfold evaluateResponse, tryRuleBasedEvaluation. rewrite Hfind. cbn.
  eexists. split; [reflexivity|]. cbn. repeat split; reflexivity.
Qed.

(** C8 (as the code has it).  For a question none of whose patterns is the
    empty string, an empty or white-space-only answer gets nothing from the
    rule tier and is handed to the AI tier, exactly once; the outcome is
    the AI tier's own. *)
Theorem blank_answer_goes_to_ai q answer ctx :
  patternsNonEmpty q -> isBlank answer = true ->
  tryRuleBasedEvaluation q answer = None
  /\ evaluateResponse ai q answer ctx
     = {| outcome := ai q answer ctx;
          aiCalls := [ {| callQuestion := q; callResponse := answer;
                          callContext := ctx |} ] |}.
Proof.
  intros Hq Hblank.
  pose proof (tryRuleBasedEvaluation_blank q answer Hq Hblank) as Hnone.
  split; [exact Hnone|].
  unfold evaluateResponse. rewrite Hnone. unfold askAi. f_equal.
  destruct (ai q answer ctx); reflexivity.
Qed.

End RuleTier.

Lemma exact_match_scores_95_witness :
  In "=SUM(A1:A10)" (expectedAnswerPatterns Fixtures.sumQuestion)
  /\ exists r,
       Evaluation.evaluateResponse Fixtures.aiScore40 Fixtures.sumQuestion
         "  =Sum(A1:A10) " Fixtures.context
       = {| Evaluation.outcome := Ok r; Evaluation.aiCalls := [] |}
       /\ score r = 95%Q /\ confidence r = 0.9%Q /\ (0.8 < confidence r)%Q
       /\ questionId r = id Fixtures.sumQuestion.
Proof.
  split.
  - left. reflexivity.
  - apply (exact_match_scores_95 Fixtures.aiScore40 Fixtures.sumQuestion
             "  =Sum(A1:A10) " Fixtures.context "=SUM(A1:A10)").
    + left. reflexivity.
    + vm_compute. reflexivity.
Defined.

(** C3 as stated fails.  The bank attaches score 100 to the pattern
    [=SUM(A1:A10)] and no expected answer of that question carries 95, yet
    the answer [=SUM(A1:A10)] is scored 95. *)
Lemma exact_match_ignores_associated_score :
  associatedScore Data.bankQuestion0 "=SUM(A1:A10)" = Some 100%Q
  /\ Forall (fun a => ~ (answerScore a == 95)%Q) (expectedAnswers Data.bankQuestion0)
  /\ exists r,
       Evaluation.outcome
         (Evaluation.evaluateResponse Fixtures.aiScore40 Fixtures.sumQuestion
            "=SUM(A1:A10)" Fixtures.context) = Ok r
       /\ score r = 95%Q /\ ~ (score r == 100)%Q.
Proof.
  split; [vm_compute; reflexivity|]. split.
  - repeat constructor; vm_compute; discriminate.
  - eexists. split; [vm_compute; reflexivity|].
    split; [reflexivity|]. vm_compute. discriminate.
Qed.

Lemma blank_answer_goes_to_ai_witness :
  patternsNonEmpty Fixtures.sumQuestion /\ isBlank "   " = true
  /\ Evaluation.tryRuleBasedEvaluation Fixtures.sumQuestion "   " = None
  /\ Evaluation.evaluateResponse Fixtures.aiScore40 Fixtures.sumQuestion "   "
       Fixtures.context
     = {| Evaluation.outcome :=
            Fixtures.aiScore40 Fixtures.sumQuestion "   " Fixtures.context;
          Evaluation.aiCalls :=
            [ {| Evaluation.callQuestion := Fixtures.sumQuestion;
                 Evaluation.callResponse := "   ";
                 Evaluation.callContext := Fixtures.context |} ] |}.
Proof.
  assert (Hq : patternsNonEmpty Fixtures.sumQuestion).
  { repeat split; repeat constructor; vm_compute; discriminate. }
  split; [exact Hq|]. split; [reflexivity|].
  apply (blank_answer_goes_to_ai Fixtures.aiScore40 Fixtures.sumQuestion "   "
           Fixtures.context Hq).
  reflexivity.
Defined.

(** C8 as stated fails.  The white-space-only answer to the SUM question is
    not short-circuited: the rule tier yields nothing, the AI tier is called
    once, and the score is the AI tier's 40. *)
Lemma blank_answer_reaches_ai :
  isBlank "   " = true
  /\ Evaluation.tryRuleBasedEvaluation Fixtures.sumQuestion "   " = None
  /\ List.length
       (Evaluation.aiCalls
          (Evaluation.evaluateResponse Fixtures.aiScore40 Fixtures.sumQuestion
             "   " Fixtures.context)) = 1%nat
  /\ exists r,
       Evaluation.outcome
         (Evaluation.evaluateResponse Fixtures.aiScore40 Fixtures.sumQuestion
            "   " Fixtures.context) = Ok r
       /\ score r = 40%Q.
Proof.
  split; [reflexivity|]. split; [vm_compute; reflexivity|].
  split; [vm_compute; reflexivity|].
  eexists. split; [vm_compute; reflexivity|]. reflexivity.
Qed.

(** *** The skill score aggregator *)

Section Aggregation.

Import Evaluation.
Local Open Scope Q_scope.

Lemma categoryValue_basic_only c :
  c <> BASIC_FORMULAS -> categoryValue c <> categoryValue BASIC_FORMULAS.
Proof. destruct c; simpl; congruence. Qed.

(** every score ends up under the key of basic formulas *)
Lemma groupByCategory_all_basic evs :
  groupByCategory evs =
  match evs with
  | [] => ∅
  | _ => {[ categoryValue BASIC_FORMULAS := List.map score evs ]}
  end.
Proof.
  unfold groupByCategory.
  match goal with |- List.fold_left ?F _ _ = _ => set (step := F) end.
  assert (Hgen : forall evs (m : gmap string (list Q)),
             List.fold_left step evs m =
             match evs with
             | [] => m
             | _ => <[categoryValue BASIC_FORMULAS :=
                        (default [] (m !! categoryValue BASIC_FORMULAS)
                         ++ List.map score evs)%list]> m
             end).
  { clear evs. induction evs as [|e evs IH]; intros m; [reflexivity|].
    cbn [List.fold_left]. rewrite IH.
    assert (Hstep : step m e =
                    <[categoryValue BASIC_FORMULAS :=
                        (default [] (m !! categoryValue BASIC_FORMULAS)
                         ++ [score e])%list]> m).
    { unfold step, extractCategoryFromEvaluation.
      destruct (m !! categoryValue BASIC_FORMULAS) as [l|] eqn:Hm.
      - rewrite Hm. reflexivity.
      - rewrite lookup_insert_eq, insert_insert_eq. reflexivity. }
    rewrite Hstep. destruct evs as [|e' evs]; [reflexivity|].
    rewrite lookup_insert_eq, insert_insert_eq.
    cbn [default]. unfold Datatypes.id. rewrite <- app_assoc. reflexivity. }
  rewrite Hgen. destruct evs; [reflexivity|].
  rewrite lookup_empty. reflexivity.
Qed.

Lemma calculateCategoryAverage_mean l :
  calculateCategoryAverage (Some l) = mean l.
Proof. destruct l; reflexivity. Qed.

Lemma single_weight_cancels (m : Q) : (0 + m * 0.2) / (0 + 0.2) == m.
Proof. field. Qed.

Lemma average_of_group evs c :
  calculateCategoryAverage (groupByCategory evs !! categoryValue c) =
  if decide (c = BASIC_FORMULAS) then mean (List.map score evs) else 0.
Proof.
  rewrite groupByCategory_all_basic. destruct evs as [|e evs].
  - rewrite lookup_empty. destruct (decide _); reflexivity.
  - destruct (decide (c = BASIC_FORMULAS)) as [->|Hc].
    + rewrite lookup_singleton_eq. apply calculateCategoryAverage_mean.
    + rewrite lookup_singleton_ne
        by (apply not_eq_sym, categoryValue_basic_only, Hc).
      reflexivity.
Qed.

(** what the aggregator computes for any history: the mean of all scores
    is reported as the basic-formulas score, every other category reads 0,
    and the overall score is that mean when it is positive *)
Lemma calculateSkillScores_all_basic evs :
  let r := calculateSkillScores evs in
  let m := mean (List.map score evs) in
  basicFormulas r = m
  /\ dataManipulation r = 0 /\ pivotTables r = 0 /\ advancedFunctions r = 0
  /\ dataVisualization r = 0 /\ macrosVBA r = 0 /\ dataModeling r = 0
  /\ (0 < m -> overall r == m) /\ (m <= 0 -> overall r = 0).
Proof.
  cbv zeta. unfold calculateSkillScores.
  rewrite !average_of_group. cbn [decide_rel].
  repeat match goal with
         | |- context [decide (?a = ?b)] =>
             let d := eval vm_compute in (bool_decide (a = b)) in
             match d with
             | true => replace (decide (a = b)) with
                         (left (A:=a = b) (B:=a <> b) eq_refl) by reflexivity
             | false => destruct (decide (a = b)); [discriminate|]
             end
         end.
  set (m := mean (List.map score evs)).
  destruct (Qgtb m 0) eqn:Hm.
  - assert (Hpos : 0 < m).
    { apply Qnot_le_lt. intros Hle. apply Qle_bool_iff in Hle.
      unfold Qgtb in Hm. rewrite Hle in Hm. discriminate Hm. }
    repeat (progress (cbv beta iota zeta delta
                        [weights List.fold_left basicFormulas dataManipulation
                         pivotTables advancedFunctions dataVisualization
                         macrosVBA dataModeling overall];
                      change (Qgtb 0 0) with false; rewrite ?Hm)).
    change (Qgtb (0 + 0.2) 0) with true. cbv beta iota.
    do 7 (split; [reflexivity|]). split.
    + intros _. apply single_weight_cancels.
    + intros Hle. exfalso. apply (Qlt_irrefl 0). eapply Qlt_le_trans; eassumption.
  - assert (Hle : m <= 0).
    { apply Qle_bool_iff. unfold Qgtb in Hm.
      destruct (Qle_bool m 0); [reflexivity|discriminate Hm]. }
    repeat (progress (cbv beta iota zeta delta
                        [weights List.fold_left basicFormulas dataManipulation
                         pivotTables advancedFunctions dataVisualization
                         macrosVBA dataModeling overall];
                      change (Qgtb 0 0) with false; rewrite ?Hm)).
    do 7 (split; [reflexivity|]). split.
    + intros Hpos. exfalso. apply (Qlt_irrefl 0). eapply Qlt_le_trans; eassumption.
    + reflexivity.
Qed.

(** C4, the code at the failing input.  A history holding one evaluation,
    score 80, of a pivot-tables question is reported as a basic-formulas
    score of 80 and a pivot-tables score of 0. *)
Theorem calculateSkillScores_misfiles_pivot_score :
  category Fixtures.pivotQuestion = PIVOT_TABLES
  /\ questionId (Fixtures.evaluationOf Fixtures.pivotQuestion 80)
     = id Fixtures.pivotQuestion
  /\ basicFormulas
       (calculateSkillScores [Fixtures.evaluationOf Fixtures.pivotQuestion 80]) == 80
  /\ pivotTables
       (calculateSkillScores [Fixtures.evaluationOf Fixtures.pivotQuestion 80]) == 0
  /\ overall
       (calculateSkillScores [Fixtures.evaluationOf Fixtures.pivotQuestion 80]) == 80.
Proof.
  split; [reflexivity|]. split; [reflexivity|].
  repeat split; vm_compute; reflexivity.
Qed.

End Aggregation.

(** *** The coverage tracker *)

Section Coverage.

Import Questions.
Local Open Scope Q_scope.

Lemma objSet_Forall {K V} `{EqDecision K} (P : K * V -> Prop) o k v :
  Forall P o -> P (k, v) -> Forall P (objSet o k v).
Proof.
  intros Ho Hkv. induction Ho as [|[k' v'] o Hhd Htl IH]; cbn [objSet].
  - constructor; [assumption|constructor].
  - destruct (decide (k' = k)); constructor; assumption.
Qed.

Lemma ratio_nonneg (n : nat) (e : Z) :
  (0 < e)%Z -> 0 <= inject_Z (Z.of_nat n) / inject_Z e.
Proof.
  intros He. apply Qle_shift_div_l.
  - change 0 with (inject_Z 0). rewrite <- Zlt_Qlt. exact He.
  - rewrite Qmult_0_l. change 0 with (inject_Z 0). rewrite <- Zle_Qle. lia.
Qed.

Lemma Qplus_nonneg (a b : Q) : 0 <= a -> 0 <= b -> 0 <= a + b.
Proof.
  intros Ha Hb. apply Qle_trans with (0 + 0); [discriminate|].
  apply Qplus_le_compat; assumption.
Qed.

Lemma role_weights_nonneg level :
  Forall (fun e => 0 <= snd e) (Data.roleQuestionWeights level).
Proof. destruct level; repeat constructor; vm_compute; discriminate. Qed.

Lemma coverageStep_invariant askedQuestions level acc entry :
  0 <= snd entry -> coverageInvariant acc ->
  coverageInvariant (coverageStep askedQuestions level acc entry).
Proof.
  destruct entry as [cat w]. cbn [snd]. intros Hw (Hcats & Htot & Hcov).
  unfold coverageStep.
  set (n := List.length _).
  set (e := getExpectedQuestionsForCategory cat level).
  assert (Hratio : 0 <= (if (0 <? e)%Z
                         then inject_Z (Z.of_nat n) / inject_Z e else 0)).
  { destruct (0 <? e)%Z eqn:He; [|apply Qle_refl].
    apply ratio_nonneg. apply Z.ltb_lt. exact He. }
  repeat split; cbn [categoryCoverage totalWeight coveredWeight].
  - apply objSet_Forall; [assumption|]. cbn [snd]. split.
    + apply Q.min_glb; [assumption|discriminate].
    + eapply Qle_trans; [apply Q.le_min_r|discriminate].
  - apply Qplus_nonneg; assumption.
  - apply Qplus_nonneg; [assumption|].
    apply Qmult_le_0_compat; assumption.
Qed.

Lemma coverage_fold_invariant askedQuestions level entries acc :
  Forall (fun e => 0 <= snd e) entries -> coverageInvariant acc ->
  coverageInvariant
    (List.fold_left (coverageStep askedQuestions level) entries acc).
Proof.
  intros Hentries. revert acc.
  induction Hentries as [|entry entries Hentry _ IH]; intros acc Hacc;
    cbn [List.fold_left]; [assumption|].
  apply IH. apply coverageStep_invariant; assumption.
Qed.

(** for every session each category's coverage lies in [0,1], and the
    overall coverage is never negative *)
Lemma category_coverage_in_unit_interval session :
  Forall (fun e => 0 <= snd e <= 1) (categories (validateQuestionCoverage session))
  /\ 0 <= overallCoverage (validateQuestionCoverage session).
Proof.
  unfold validateQuestionCoverage.
  match goal with
  | |- context [List.fold_left ?f ?l ?a] =>
      pose proof (coverage_fold_invariant (getAskedQuestions session)
                    (roleLevel session) l a (role_weights_nonneg _)) as Hinv;
      set (totals := List.fold_left f l a) in *
  end.
  destruct Hinv as (Hcats & Htot & Hcov).
  { repeat split; try apply Qle_refl. constructor. }
  cbn [categories overallCoverage]. split; [exact Hcats|].
  unfold Qltb. destruct (Qle_bool (totalWeight totals) 0) eqn:Hz; cbn [negb].
  - apply Qle_refl.
  - apply Qle_shift_div_l.
    + apply Qnot_le_lt. intros Hle. apply Qle_bool_iff in Hle. congruence.
    + rewrite Qmult_0_l. exact Hcov.
Qed.

(** every question asked is counted in exactly one category *)
Lemma category_counts_sum asked :
  (countIn asked BASIC_FORMULAS + countIn asked DATA_MANIPULATION
   + countIn asked PIVOT_TABLES + countIn asked ADVANCED_FUNCTIONS
   + countIn asked DATA_VISUALIZATION + countIn asked MACROS_VBA
   + countIn asked DATA_MODELING = List.length asked)%nat.
Proof.
  unfold countIn. induction asked as [|q asked IH]; [reflexivity|].
  cbn [List.filter List.length].
  destruct (category q);
    repeat match goal with
           | |- context [bool_decide ?P] =>
               let b := eval vm_compute in (bool_decide P) in
               change (bool_decide P) with b
           end;
    cbn [List.length]; lia.
Qed.

Lemma count_as_rational (n : nat) : 0 <= inject_Z (Z.of_nat n).
Proof. change 0 with (inject_Z 0). rewrite <- Zle_Qle. lia. Qed.

Lemma counts_within_budget asked :
  (List.length asked <= 15)%nat ->
  inject_Z (Z.of_nat (countIn asked BASIC_FORMULAS))
  + inject_Z (Z.of_nat (countIn asked DATA_MANIPULATION))
  + inject_Z (Z.of_nat (countIn asked PIVOT_TABLES))
  + inject_Z (Z.of_nat (countIn asked ADVANCED_FUNCTIONS))
  + inject_Z (Z.of_nat (countIn asked DATA_VISUALIZATION))
  + inject_Z (Z.of_nat (countIn asked MACROS_VBA))
  + inject_Z (Z.of_nat (countIn asked DATA_MODELING)) <= 15.
Proof.
  intros Hbudget. pose proof (category_counts_sum asked) as Hsum.
  rewrite <- !inject_Z_plus. change 15 with (inject_Z 15).
  rewrite <- Zle_Qle. lia.
Qed.

(** replace the closed arithmetic of the role table by its values *)
Ltac evaluate_role_table :=
  repeat match goal with
         | |- context [getExpectedQuestionsForCategory ?c ?l] =>
             let v := eval vm_compute in (getExpectedQuestionsForCategory c l) in
             change (getExpectedQuestionsForCategory c l) with v
         end;
  repeat match goal with
         | |- context [(0 <? ?e)%Z] =>
             let v := eval vm_compute in (0 <? e)%Z in
             change (0 <? e)%Z with v
         end;
  repeat match goal with
         | |- context [Qltb 0 ?t] =>
             let v := eval vm_compute in (Qltb 0 t) in
             change (Qltb 0 t) with v
         end;
  cbv beta iota.

Ltac invert_constants :=
  unfold Qdiv; cbv [inject_Z];
  repeat match goal with
         | |- context [Qinv (Qmake ?a ?b)] =>
             let v := eval vm_compute in (Qinv (Qmake a b)) in
             change (Qinv (Qmake a b)) with v
         end.

(** within the budget of 15 questions the unclamped total stays below 1 *)
Lemma overall_coverage_within_budget session :
  (List.length (getAskedQuestions session) <= 15)%nat ->
  overallCoverage (validateQuestionCoverage session) <= 1.
Proof.
  intros Hbudget.
  pose proof (counts_within_budget (getAskedQuestions session) Hbudget) as Hsum.
  unfold validateQuestionCoverage.
  set (asked := getAskedQuestions session) in *.
  pose proof (count_as_rational (countIn asked BASIC_FORMULAS)).
  pose proof (count_as_rational (countIn asked DATA_MANIPULATION)).
  pose proof (count_as_rational (countIn asked PIVOT_TABLES)).
  pose proof (count_as_rational (countIn asked ADVANCED_FUNCTIONS)).
  pose proof (count_as_rational (countIn asked DATA_VISUALIZATION)).
  pose proof (count_as_rational (countIn asked MACROS_VBA)).
  pose proof (count_as_rational (countIn asked DATA_MODELING)).
  destruct (roleLevel session);
    cbv beta iota zeta delta
      [Data.roleQuestionWeights List.fold_left coverageStep totalWeight
       coveredWeight overallCoverage];
    evaluate_role_table;
    repeat match goal with
           | |- context [List.length
                           (List.filter
                              (fun q => bool_decide (category q = ?c)) asked)] =>
               change (List.length
                         (List.filter
                            (fun q => bool_decide (category q = c)) asked))
                 with (countIn asked c)
           end;
    repeat match goal with
           | H : context [inject_Z (Z.of_nat (countIn asked ?c))] |- _ =>
               generalize dependent (inject_Z (Z.of_nat (countIn asked c)))
           end;
    intros; (apply Qle_shift_div_r; [reflexivity|]); invert_constants; lra.
Qed.

(** C9, the code at the failing input.  For a basic-level session that has
    been asked sixteen basic-formulas questions the coverage of the category
    is clamped to 1 and the weight-normalized average of the category
    coverages is 0.4, but the overall coverage reported is 16/15. *)
Theorem overallCoverage_exceeds_one :
  List.length (getAskedQuestions Fixtures.sixteenAsked) = 16%nat
  /\ objGet (categories (validateQuestionCoverage Fixtures.sixteenAsked))
            BASIC_FORMULAS = Some (Qmin (16 # 6) 1.0)
  /\ weightedAverageOfCategories basic
       (validateQuestionCoverage Fixtures.sixteenAsked) == 0.4
  /\ overallCoverage (validateQuestionCoverage Fixtures.sixteenAsked) == 16 # 15
  /\ 1 < overallCoverage (validateQuestionCoverage Fixtures.sixteenAsked).
Proof.
  split; [vm_compute; reflexivity|].
  split; [vm_compute; reflexivity|].
  split; [vm_compute; reflexivity|].
  split; vm_compute; reflexivity.
Qed.

End Coverage.

(** *** The adaptive question selector *)

Section Selector.

Import Questions.
Local Open Scope Q_scope.

Variable Math_random : nat -> Q.
Variable uuidv4 : nat -> string.

Lemma mapGen_length {A B} (f : A -> Gen B) (l : list A) c :
  List.length (fst (mapGen f l c)) = List.length l.
Proof.
  revert c. induction l as [|a l IH]; intros c; cbn [mapGen]; [reflexivity|].
  destruct (f a c) as [b c1]. specialize (IH c1).
  destruct (mapGen f l c1) as [bs c2]. cbn [fst List.length] in *. congruence.
Qed.

Lemma difficultyFor_tier avg : tierOf avg (difficultyFor avg).
Proof.
  unfold tierOf, difficultyFor, Qgeb.
  destruct (Qle_bool 80 avg) eqn:H80.
  - left. split; [apply Qle_bool_iff; assumption|reflexivity].
  - assert (avg < 80).
    { apply Qnot_le_lt. intros Hle. apply Qle_bool_iff in Hle. congruence. }
    destruct (Qle_bool 60 avg) eqn:H60.
    + right. left. repeat split; [apply Qle_bool_iff|..]; assumption || reflexivity.
    + right. right. split; [|reflexivity].
      apply Qnot_le_lt. intros Hle. apply Qle_bool_iff in Hle. congruence.
Qed.

(** what [adaptDifficulty] computes: it looks at the questions of the
    category among the last three questions asked in the session, whatever
    their category: none gives basic; otherwise the values that
    [getQuestionScores] hands out for them, one per question, are averaged,
    and an average of at least 80 gives advanced, at least 60 intermediate,
    anything lower basic *)
Lemma adaptDifficulty_recent_window session cat c :
  let categoryQuestions :=
    List.filter (fun q => bool_decide (category q = cat))
                (sliceLast 3 (getAskedQuestions session)) in
  let scores := fst (getQuestionScores Math_random session categoryQuestions c) in
  let d := fst (adaptDifficulty Math_random session cat c) in
  List.length scores = List.length categoryQuestions
  /\ (categoryQuestions = [] -> d = basic)
  /\ (categoryQuestions <> [] -> tierOf (mean scores) d).
Proof.
  cbv zeta. unfold adaptDifficulty, getRecentQuestions.
  set (categoryQuestions := List.filter _ _).
  pose proof (mapGen_length
                (fun (_ : Question) c0 =>
                   let '(r, c') := random Math_random c0 in (r * 100, c'))
                categoryQuestions c) as Hlen.
  fold (getQuestionScores Math_random session categoryQuestions c) in Hlen.
  split; [exact Hlen|].
  destruct (getQuestionScores Math_random session categoryQuestions c)
    as [scores c'] eqn:Hscores.
  cbn [fst] in *. split.
  - intros ->. reflexivity.
  - intros Hne. destruct categoryQuestions as [|q0 qs]; [congruence|].
    cbn [List.length Nat.eqb]. cbv iota.
    destruct scores as [|s0 ss]; [discriminate Hlen|].
    cbn [List.length Nat.ltb Nat.leb fst]. apply difficultyFor_tier.
Qed.

End Selector.

(** C5.  The code does not decide the tier from the scored history.
    First input: a session that was asked the SUM question, a basic-formulas
    question scored 95 in the evaluation history.  The rule of the
    specification picks advanced; the code averages the placeholder scores
    of [getQuestionScores], which are draws of [Math.random()], and with
    draws of 0.1 it picks basic (with draws of 0.9, advanced).  Second
    input: the same question scored 90, followed by three data-manipulation
    questions.  The rule picks advanced; the code cuts the history down to
    the last three questions before it filters by category, finds none of
    the category, and picks basic as for a new category, whatever the
    draws. *)
Lemma adaptDifficulty_ignores_the_scored_history :
  Spec.adaptDifficulty Fixtures.oneAsked
    [Fixtures.evaluationOf Fixtures.sumQuestion 95] BASIC_FORMULAS = advanced
  /\ fst (Questions.adaptDifficulty Fixtures.lowDraws Fixtures.oneAsked
            BASIC_FORMULAS Fixtures.start) = basic
  /\ fst (Questions.adaptDifficulty Fixtures.highDraws Fixtures.oneAsked
            BASIC_FORMULAS Fixtures.start) = advanced
  /\ Spec.adaptDifficulty Fixtures.fourAsked
       [Fixtures.evaluationOf Fixtures.sumQuestion 90] BASIC_FORMULAS = advanced
  /\ (forall draws c,
        Questions.adaptDifficulty draws Fixtures.fourAsked BASIC_FORMULAS c
        = (basic, c)).
Proof.
  do 4 (split; [vm_compute; reflexivity|]). intros draws c. reflexivity.
Qed.

(** *** Question lookup and its fallback *)

Section NextQuestion.

Import Questions.
Local Open Scope Q_scope.

Variable Math_random : nat -> Q.
Variable uuidv4 : nat -> string.

(** [Math.random()] returns a number in [0,1) *)
Hypothesis Math_random_range : forall n, 0 <= Math_random n /\ Math_random n < 1.

Lemma insertSorted_not_nil {A} (before : A -> A -> bool) x l :
  insertSorted before x l <> [].
Proof.
  destruct l as [|y l]; cbn [insertSorted]; [discriminate|].
  destruct (before x y); discriminate.
Qed.

Lemma insertSorted_In {A} (before : A -> A -> bool) x l y :
  In y (insertSorted before x l) -> y = x \/ In y l.
Proof.
  induction l as [|z l IH]; cbn [insertSorted].
  - intros [->|[]]. left. reflexivity.
  - destruct (before x z).
    + intros [->|H]; [left; reflexivity|right; exact H].
    + intros [->|H]; [right; left; reflexivity|].
      destruct (IH H) as [->|H']; [left; reflexivity|right; right; exact H'].
Qed.

Lemma stableSort_In {A} (before : A -> A -> bool) l y :
  In y (stableSort before l) -> In y l.
Proof.
  unfold stableSort. induction l as [|x l IH]; cbn [List.fold_right]; [tauto|].
  intros H. destruct (insertSorted_In _ _ _ _ H) as [->|H'];
    [left; reflexivity|right; apply IH; exact H'].
Qed.

Lemma firstn_In {A} n (l : list A) y : In y (List.firstn n l) -> In y l.
Proof.
  intros H. rewrite <- (List.firstn_skipn n l). apply List.in_or_app. left. exact H.
Qed.

Lemma selectNextCategory_ok session coverage :
  exists cat, selectNextCategory session coverage = Ok cat.
Proof.
  unfold selectNextCategory.
  destruct (Data.roleQuestionWeights (roleLevel session)) as [|e es] eqn:Hw.
  { destruct (roleLevel session); discriminate Hw. }
  cbn [List.map]. unfold stableSort. cbn [List.fold_right].
  match goal with
  | |- context [insertSorted ?b ?x ?l] =>
      pose proof (insertSorted_not_nil b x l) as Hne;
      destruct (insertSorted b x l) as [|first rest]
  end.
  - congruence.
  - eexists. reflexivity.
Qed.

Lemma at_index_random {A} (l : list A) r :
  0 <= r -> r < 1 -> l <> [] ->
  exists x,
    at_index l (Qfloor (r * inject_Z (Z.of_nat (List.length l)))) = Some x
    /\ In x l.
Proof.
  intros H0 H1 Hl. set (n := Z.of_nat (List.length l)).
  assert (Hn : (0 < n)%Z) by (subst n; destruct l; [congruence|cbn; lia]).
  assert (HnQ : 0 < inject_Z n).
  { change 0 with (inject_Z 0). rewrite <- Zlt_Qlt. exact Hn. }
  set (i := Qfloor (r * inject_Z n)).
  assert (Hi0 : (0 <= i)%Z).
  { change 0%Z with (Qfloor 0). apply Qfloor_resp_le.
    apply Qmult_le_0_compat; [assumption|apply Qlt_le_weak; assumption]. }
  assert (Hi1 : (i < n)%Z).
  { rewrite Zlt_Qlt. eapply Qle_lt_trans; [apply Qfloor_le|].
    apply Qlt_le_trans with (1 * inject_Z n).
    - apply Qmult_lt_compat_r; assumption.
    - rewrite Qmult_1_l. apply Qle_refl. }
  unfold at_index. destruct (i <? 0)%Z eqn:E; [lia|].
  destruct (List.nth_error l (Z.to_nat i)) as [x|] eqn:En.
  - exists x. split; [reflexivity|]. eapply List.nth_error_In. exact En.
  - apply List.nth_error_None in En. lia.
Qed.

Lemma selectQuestion_in questions c :
  questions <> [] ->
  exists q c',
    selectQuestion Math_random questions c = (Ok (Some q), c') /\ In q questions.
Proof.
  intros Hne. unfold selectQuestion.
  destruct questions as [|q0 qs] eqn:Hq; [congruence|]. rewrite <- Hq in *.
  replace (List.length questions =? 0)%nat with false
    by (subst questions; reflexivity).
  unfold random.
  destruct (Math_random_range (randomsDrawn c)) as [H0 H1].
  destruct (at_index_random questions _ H0 H1) as (x & Hx & Hin).
  { subst questions. discriminate. }
  rewrite Hx. eauto.
Qed.

Lemma mapExcel_In bs c q :
  In q (fst (mapGen (mapExcelQuestionToQuestion uuidv4) bs c)) ->
  exists b, In b bs /\ category q = bankCategory b
            /\ difficulty q = bankDifficulty b /\ text q = bankText b.
Proof.
  revert c. induction bs as [|b bs IH]; intros c; cbn [mapGen].
  - intros [].
  - unfold mapExcelQuestionToQuestion at 1. unfold uuid. cbv beta iota zeta.
    match goal with
    | |- context [mapGen ?f bs ?c1] =>
        specialize (IH c1); destruct (mapGen f bs c1) as [qs c2]
    end.
    cbn [fst]. intros [<-|Hin].
    + exists b. cbn. repeat split. left. reflexivity.
    + destruct (IH Hin) as (b' & Hb' & Hfields). exists b'. split; [right; exact Hb'|exact Hfields].
Qed.

Lemma notAsked_spec askedIds q :
  notAsked askedIds q = true <-> ~ In (id q) askedIds.
Proof.
  unfold notAsked. rewrite negb_true_iff, bool_decide_eq_false, list_elem_of_In.
  reflexivity.
Qed.

(** every question offered by the primary lookup has the requested category
    and difficulty, and an identifier not yet used in the session *)
Lemma getAvailableQuestions_sound table session cat diff c q :
  In q (fst (getAvailableQuestions uuidv4 table session cat diff c)) ->
  category q = cat /\ difficulty q = diff
  /\ ~ In (id q) (List.map id (getAskedQuestions session)).
Proof.
  unfold getAvailableQuestions.
  match goal with |- context [(0 <? ?n)%nat] => destruct (0 <? n)%nat end.
  - cbn [fst]. intros Hin. apply List.in_map_iff in Hin as (d & <- & Hd).
    apply List.filter_In in Hd as (Hd & Hnew).
    apply List.filter_In in Hd as (Hd & Hdiff).
    unfold QuestionRepository.findByCategory in Hd.
    apply firstn_In, stableSort_In, List.filter_In in Hd as (_ & Hcat).
    apply andb_prop in Hcat as (Hcat & _).
    apply bool_decide_eq_true in Hcat. apply bool_decide_eq_true in Hdiff.
    apply negb_true_iff, bool_decide_eq_false in Hnew.
    rewrite list_elem_of_In in Hnew.
    cbn. repeat split; assumption.
  - match goal with
    | |- context [mapGen ?f ?bs c] =>
        pose proof (mapExcel_In bs c q) as Hmap;
        destruct (mapGen f bs c) as [qs c']
    end.
    cbn [fst] in *. intros Hin. apply List.filter_In in Hin as (Hin & Hnew).
    destruct (Hmap Hin) as (b & Hb & Hcat & Hdiff & _).
    apply List.filter_In in Hb as (_ & Hb). apply andb_prop in Hb as (Hb1 & Hb2).
    apply bool_decide_eq_true in Hb1. apply bool_decide_eq_true in Hb2.
    apply notAsked_spec in Hnew.
    repeat split; congruence || assumption.
Qed.

Lemma getFallbackQuestions_sound session c q :
  In q (fst (getFallbackQuestions uuidv4 session c)) ->
  ~ In (id q) (List.map id (getAskedQuestions session)).
Proof.
  unfold getFallbackQuestions.
  destruct (mapGen (mapExcelQuestionToQuestion uuidv4) Data.excelQuestions c)
    as [qs c'].
  cbn [fst]. intros Hin. apply List.filter_In in Hin as (_ & Hnew).
  apply notAsked_spec. exact Hnew.
Qed.

Lemma length_zero_iff_nil {A} (l : list A) :
  (List.length l =? 0)%nat = true <-> l = [].
Proof. destruct l; cbn; split; congruence. Qed.

Lemma findByCategory_any_difficulty table cat limit :
  QuestionRepository.findByCategory table cat None limit
  = List.firstn limit
      (stableSort QuestionRepository.leastUsedFirst
         (List.filter (fun d => bool_decide (dbCategory d = cat)) table)).
Proof.
  unfold QuestionRepository.findByCategory. do 2 f_equal.
  apply List.filter_ext. intros d. apply andb_true_r.
Qed.

(** C6 (as the code has it).  The selector looks at three lists in turn.
    The first holds the rows of the question table that are among the ten
    least used rows of the chosen category, have the chosen difficulty, and
    whose identifier was not asked in the session.  When it is empty the
    second is taken: the entries of the static bank of the chosen category
    and difficulty; and when that is empty too the third: the whole static
    bank.  There is no search of the category at another difficulty.  The
    entries of the static bank are handed out under newly generated
    identifiers and are kept when that identifier was not asked before.
    The selector fails, with "No more questions available", exactly when
    the three lists are empty; otherwise the question comes from the first
    list that is not empty. *)
Theorem getNextQuestion_two_tiers table session c :
  exists cat,
    selectNextCategory session (validateQuestionCoverage session) = Ok cat
    /\ let '(diff, c1) := adaptDifficulty Math_random session cat c in
       let askedIds := List.map id (getAskedQuestions session) in
       let dbRows :=
         List.filter (fun d => negb (bool_decide (dbId d ∈ askedIds)))
           (List.filter (fun d => bool_decide (dbDifficulty d = diff))
              (List.firstn 10
                 (stableSort QuestionRepository.leastUsedFirst
                    (List.filter (fun d => bool_decide (dbCategory d = cat))
                                 table)))) in
       let '(static, c2) :=
         mapGen (mapExcelQuestionToQuestion uuidv4)
           (List.filter (fun b => bool_decide (bankCategory b = cat)
                                  && bool_decide (bankDifficulty b = diff))
                        Data.excelQuestions) c1 in
       let '(whole, c3) :=
         mapGen (mapExcelQuestionToQuestion uuidv4) Data.excelQuestions c2 in
       let unasked := List.filter (notAsked askedIds) in
       let result := fst (getNextQuestion Math_random uuidv4 table session c) in
       (isOk result = false
        <-> dbRows = [] /\ unasked static = [] /\ unasked whole = [])
       /\ match result with
          | Err m => m = "No more questions available"
          | Ok None => False
          | Ok (Some q) =>
              (dbRows <> []
               /\ exists d, In d dbRows /\ In d table
                            /\ q = convertDbQuestionToQuestion d)
              \/ (dbRows = [] /\ In q (unasked static)
                  /\ category q = cat /\ difficulty q = diff)
              \/ (dbRows = [] /\ unasked static = [] /\ In q (unasked whole))
          end.
Proof.
  destruct (selectNextCategory_ok session (validateQuestionCoverage session))
    as [cat Hcat].
  exists cat. split; [exact Hcat|].
  unfold getNextQuestion. rewrite Hcat.
  destruct (adaptDifficulty Math_random session cat c) as [diff c1].
  unfold getAvailableQuestions. rewrite findByCategory_any_difficulty.
  set (askedIds := List.map id (getAskedQuestions session)).
  set (leastUsed := List.firstn 10 _).
  set (dbRows := List.filter (fun d => negb (bool_decide (dbId d ∈ askedIds))) _).
  pose proof (mapExcel_In
                (List.filter (fun b => bool_decide (bankCategory b = cat)
                                       && bool_decide (bankDifficulty b = diff))
                             Data.excelQuestions) c1) as Hbank.
  destruct (mapGen (mapExcelQuestionToQuestion uuidv4)
              (List.filter (fun b => bool_decide (bankCategory b = cat)
                                     && bool_decide (bankDifficulty b = diff))
                           Data.excelQuestions) c1) as [static c2].
  cbn [fst] in Hbank. unfold getFallbackQuestions. fold askedIds.
  destruct (mapGen (mapExcelQuestionToQuestion uuidv4) Data.excelQuestions c2)
    as [whole c3] eqn:Hwhole.
  cbv zeta.
  assert (Hrows : forall d, In d dbRows -> In d table).
  { intros d Hd. subst dbRows leastUsed.
    apply List.filter_In in Hd as [Hd _]. apply List.filter_In in Hd as [Hd _].
    apply firstn_In, stableSort_In, List.filter_In in Hd as [Hd _]. exact Hd. }
  destruct dbRows as [|d0 rows] eqn:Hdb.
  - cbn [List.map List.length Nat.ltb Nat.leb].
    destruct (List.filter (notAsked askedIds) static) as [|s0 ss] eqn:Hs.
    + cbn [List.length Nat.eqb]. rewrite Hwhole.
      destruct (List.filter (notAsked askedIds) whole) as [|w0 ws] eqn:Hw.
      * cbn [List.length Nat.eqb fst isOk]. split; [|reflexivity].
        split; [intros _; repeat split; reflexivity|intros _; reflexivity].
      * assert (Hne : w0 :: ws <> []) by discriminate.
        destruct (selectQuestion_in (w0 :: ws) c3 Hne) as (q & c4 & Hsel & Hin).
        cbn [List.length Nat.eqb]. rewrite Hsel. cbn [fst isOk]. split.
        -- split; [discriminate|]. intros (_ & _ & ?). discriminate.
        -- right. right. auto.
    + assert (Hne : s0 :: ss <> []) by discriminate.
      destruct (selectQuestion_in (s0 :: ss) c2 Hne) as (q & c4 & Hsel & Hin).
      cbn [List.length Nat.eqb]. rewrite Hsel. cbn [fst isOk]. split.
      * split; [discriminate|]. intros (_ & ? & _). discriminate.
      * right. left. split; [reflexivity|]. split; [exact Hin|].
        assert (Hq : In q static).
        { rewrite <- Hs in Hin. apply List.filter_In in Hin as [Hin _]. exact Hin. }
        destruct (Hbank q Hq) as (b & Hb & Hc & Hd & _).
        apply List.filter_In in Hb as (_ & Hb). apply andb_prop in Hb as (Hb1 & Hb2).
        apply bool_decide_eq_true in Hb1. apply bool_decide_eq_true in Hb2.
        split; congruence.
  - cbn [List.map List.length Nat.ltb Nat.leb Nat.eqb].
    set (available := convertDbQuestionToQuestion d0
                      :: List.map convertDbQuestionToQuestion rows).
    assert (Hne : available <> []) by discriminate.
    destruct (selectQuestion_in available c1 Hne) as (q & c4 & Hsel & Hin).
    rewrite Hsel. cbn [fst isOk]. split.
    + split; [discriminate|]. intros (? & _). discriminate.
    + left. split; [discriminate|].
      change available with (List.map convertDbQuestionToQuestion (d0 :: rows)) in Hin.
      apply List.in_map_iff in Hin as (d & <- & Hd).
      exists d. split; [exact Hd|]. split; [apply Hrows; exact Hd|reflexivity].
Qed.

End NextQuestion.

Lemma getNextQuestion_two_tiers_witness :
  (forall n, (0 <= Fixtures.lowDraws n /\ Fixtures.lowDraws n < 1)%Q)
  /\ exists cat,
       Questions.selectNextCategory Fixtures.oneAsked
         (Questions.validateQuestionCoverage Fixtures.oneAsked) = Ok cat
       /\ let '(diff, c1) :=
            Questions.adaptDifficulty Fixtures.lowDraws Fixtures.oneAsked cat
              Fixtures.start in
          let askedIds :=
            List.map id (Questions.getAskedQuestions Fixtures.oneAsked) in
          let dbRows :=
            List.filter (fun d => negb (bool_decide (dbId d ∈ askedIds)))
              (List.filter (fun d => bool_decide (dbDifficulty d = diff))
                 (List.firstn 10
                    (stableSort QuestionRepository.leastUsedFirst
                       (List.filter (fun d => bool_decide (dbCategory d = cat))
                                    MoreFixtures.crowdedTable)))) in
          let '(static, c2) :=
            Questions.mapGen (Questions.mapExcelQuestionToQuestion Fixtures.uuids)
              (List.filter (fun b => bool_decide (bankCategory b = cat)
                                     && bool_decide (bankDifficulty b = diff))
                           Data.excelQuestions) c1 in
          let '(whole, c3) :=
            Questions.mapGen (Questions.mapExcelQuestionToQuestion Fixtures.uuids)
              Data.excelQuestions c2 in
          let unasked := List.filter (Questions.notAsked askedIds) in
          let result :=
            fst (Questions.getNextQuestion Fixtures.lowDraws Fixtures.uuids
                   MoreFixtures.crowdedTable Fixtures.oneAsked Fixtures.start) in
          (isOk result = false
           <-> dbRows = [] /\ unasked static = [] /\ unasked whole = [])
          /\ match result with
             | Err m => m = "No more questions available"
             | Ok None => False
             | Ok (Some q) =>
                 (dbRows <> []
                  /\ exists d, In d dbRows /\ In d MoreFixtures.crowdedTable
                               /\ q = Questions.convertDbQuestionToQuestion d)
                 \/ (dbRows = [] /\ In q (unasked static)
                     /\ category q = cat /\ difficulty q = diff)
                 \/ (dbRows = [] /\ unasked static = [] /\ In q (unasked whole))
             end.
Proof.
  assert (Hrange : forall n, (0 <= Fixtures.lowDraws n
                              /\ Fixtures.lowDraws n < 1)%Q).
  { intros n. split; [discriminate|reflexivity]. }
  split; [exact Hrange|].
  exact (getNextQuestion_two_tiers Fixtures.lowDraws Fixtures.uuids Hrange
           MoreFixtures.crowdedTable Fixtures.oneAsked Fixtures.start).
Defined.

(** on that input the question comes from the question table: the draw of
    0.1 gives the basic difficulty and then the second of the ten rows *)
Lemma getNextQuestion_takes_a_table_row :
  fst (Questions.getNextQuestion Fixtures.lowDraws Fixtures.uuids
         MoreFixtures.crowdedTable Fixtures.oneAsked Fixtures.start)
  = Ok (Some (Questions.convertDbQuestionToQuestion
                (MoreFixtures.formulaRow "row-1" basic 0))).
Proof. vm_compute. reflexivity. Qed.

(** the question table is searched through its ten least used rows of the
    category only: the advanced row [adv-1] matches the chosen category and
    difficulty and was never asked, but ten rows were used less, and the
    selector goes on to the static bank and returns the data-modeling
    question *)
Lemma getNextQuestion_overlooks_the_eleventh_row :
  Questions.selectNextCategory Fixtures.oneAsked
    (Questions.validateQuestionCoverage Fixtures.oneAsked) = Ok BASIC_FORMULAS
  /\ fst (Questions.adaptDifficulty Fixtures.highDraws Fixtures.oneAsked
            BASIC_FORMULAS Fixtures.start) = advanced
  /\ In (MoreFixtures.formulaRow "adv-1" advanced 5) MoreFixtures.crowdedTable
  /\ ~ In "adv-1" (List.map id (Questions.getAskedQuestions Fixtures.oneAsked))
  /\ exists q c',
       Questions.getNextQuestion Fixtures.highDraws Fixtures.uuids
         MoreFixtures.crowdedTable Fixtures.oneAsked Fixtures.start
       = (Ok (Some q), c')
       /\ category q = DATA_MODELING
       /\ text q = bankText Data.bankQuestion7.
Proof.
  split; [vm_compute; reflexivity|].
  split; [vm_compute; reflexivity|].
  split; [vm_compute; tauto|].
  split.
  - vm_compute. intros [H|[]]. discriminate H.
  - eexists. eexists. split; [vm_compute; reflexivity|].
    split; reflexivity.
Qed.

(** C6 as stated fails.  A basic-level session has been asked the SUM
    question; the draws are 0.9.  The chosen category is basic formulas and
    the chosen difficulty has no question there.  The bank still holds a
    basic-formulas question that was never asked, yet the selector returns
    the data-modeling question: the search went from the (category,
    difficulty) pair straight to the whole bank. *)
Lemma getNextQuestion_skips_the_category :
  Questions.selectNextCategory Fixtures.oneAsked
    (Questions.validateQuestionCoverage Fixtures.oneAsked) = Ok BASIC_FORMULAS
  /\ In Data.bankQuestion1 Data.excelQuestions
  /\ bankCategory Data.bankQuestion1 = BASIC_FORMULAS
  /\ ~ In (bankText Data.bankQuestion1)
          (List.map text (Questions.getAskedQuestions Fixtures.oneAsked))
  /\ exists q c',
       Questions.getNextQuestion Fixtures.highDraws Fixtures.uuids []
         Fixtures.oneAsked Fixtures.start = (Ok (Some q), c')
       /\ category q = DATA_MODELING
       /\ text q = bankText Data.bankQuestion7.
Proof.
  split; [vm_compute; reflexivity|].
  split; [right; left; reflexivity|].
  split; [reflexivity|].
  split.
  - vm_compute. intros [H|[]]. discriminate H.
  - eexists. eexists. split; [vm_compute; reflexivity|].
    split; reflexivity.
Qed.

(** the static bank is never used up: a session that has been asked every
    bank question, over an empty question table, is given one of them again
    under a new identifier *)
Lemma getNextQuestion_reasks_static_question :
  List.map text (Questions.getAskedQuestions Fixtures.allAsked)
  = List.map bankText Data.excelQuestions
  /\ exists q c',
       Questions.getNextQuestion Fixtures.highDraws Fixtures.uuids []
         Fixtures.allAsked Fixtures.start = (Ok (Some q), c')
       /\ text q = bankText Data.bankQuestion1
       /\ ~ In (id q)
              (List.map id (Questions.getAskedQuestions Fixtures.allAsked)).
Proof.
  split; [vm_compute; reflexivity|].
  eexists. eexists. split; [vm_compute; reflexivity|].
  split; [reflexivity|].
  vm_compute. intuition discriminate.
Qed.

(** *** The session state machine *)

Section StateMachine.

Import InterviewSessionRepository InterviewOrchestrator.
Local Open Scope Q_scope.

Lemma findById_Some db i s :
  findById db i = Ok (Some s) <-> i <> "" /\ interviewSessions db !! i = Some s.
Proof.
  unfold findById, validateId. destruct (decide (i = "")) as [->|Hi]; cbn.
  - split; [discriminate|]. intros [H _]. congruence.
  - split; [intros [= H]; auto|]. intros [_ ->]. reflexivity.
Qed.

Lemma findById_not_Some db i :
  (forall s, findById db i <> Ok (Some s)) ->
  i = "" \/ interviewSessions db !! i = None.
Proof.
  intros H. destruct (decide (i = "")) as [|Hi]; [left; assumption|right].
  destruct (interviewSessions db !! i) as [s|] eqn:Hs; [|reflexivity].
  exfalso. apply (H s). apply findById_Some. auto.
Qed.

Lemma update_found db i data s :
  i <> "" -> interviewSessions db !! i = Some s ->
  update db i data
  = Ok (withSessions db (<[i := applyUpdate s data]> (interviewSessions db)),
        applyUpdate s data).
Proof.
  intros Hi Hs. unfold update, validateId.
  destruct (decide (i = "")); [contradiction|]. cbn. rewrite Hs. reflexivity.
Qed.

Lemma update_missing db i data :
  i = "" \/ interviewSessions db !! i = None -> isOk (update db i data) = false.
Proof.
  unfold update, validateId. intros [->|Hs]; [reflexivity|].
  destruct (decide (i = "")); [reflexivity|]. cbn. rewrite Hs. reflexivity.
Qed.

Lemma submitResponse_found db i answer now s :
  i <> "" -> interviewSessions db !! i = Some s ->
  submitResponse db i answer now
  = Ok (withSessions db
          (<[i := applyUpdate
                    (applyUpdate s
                       {| updStatus := None; updCurrentQuestionIndex := None;
                          updConversationHistory :=
                            Some (conversationHistory s
                                  ++ [responseTurn s answer now])%list;
                          updSkillAssessment := None; updEndTime := None;
                          updMetadata := None |})
                    {| updStatus := None;
                       updCurrentQuestionIndex := Some (currentQuestionIndex s + 1)%Z;
                       updConversationHistory := None; updSkillAssessment := None;
                       updEndTime := None; updMetadata := None |}]>
             (interviewSessions db))).
Proof.
  intros Hi Hs. unfold submitResponse.
  rewrite (proj2 (findById_Some db i s)) by auto. cbn [bind].
  unfold addConversationTurn, validateId at 1.
  destruct (decide (i = "")); [contradiction|]. cbn [bind].
  rewrite (proj2 (findById_Some db i s)) by auto. cbn [bind].
  erewrite update_found by eassumption. cbn [bind fst].
  erewrite update_found; [|assumption|cbn; apply lookup_insert_eq].
  cbn [bind fst]. unfold withSessions. cbn [interviewSessions candidates
    evaluationResults excelQuestionTable].
  rewrite insert_insert_eq. reflexivity.
Qed.

Lemma submitResponse_missing db i answer now :
  i = "" \/ interviewSessions db !! i = None ->
  isOk (submitResponse db i answer now) = false.
Proof.
  unfold submitResponse, findById, validateId. intros [->|Hs]; [reflexivity|].
  destruct (decide (i = "")); [reflexivity|]. cbn. rewrite Hs. reflexivity.
Qed.

(** C1 (as the code has it).  On a stored session, whatever its status,
    submitResponse appends a response turn holding the answer and the
    current question index, and advances the question index by exactly one.
    It does not evaluate the answer: the evaluation history and the
    SkillScores stay as they were, like every other field and row. *)
Theorem submitResponse_records_and_advances db i answer now s :
  findById db i = Ok (Some s) ->
  exists db' s',
    submitResponse db i answer now = Ok db'
    /\ findById db' i = Ok (Some s')
    /\ conversationHistory s'
       = (conversationHistory s
          ++ [ {| turnId := "turn-" +:+ JS.showZ now;
                  turnType := response;
                  content := answer;
                  timestamp := now;
                  turnMetadata :=
                    Some {| metaQuestion := None;
                            metaQuestionIndex := Some (currentQuestionIndex s) |} |} ])%list
    /\ currentQuestionIndex s' = (currentQuestionIndex s + 1)%Z
    /\ skillAssessment s' = skillAssessment s
    /\ status s' = status s
    /\ sameButSession db db' i s'.
Proof.
  intros [Hi Hs]%findById_Some.
  rewrite (submitResponse_found db i answer now s Hi Hs).
  eexists. eexists. split; [reflexivity|].
  split.
  { apply findById_Some. split; [exact Hi|]. cbn. apply lookup_insert_eq. }
  cbn. repeat split; reflexivity.
Qed.

(** C2 (as the code has it).  No transition looks at the status of the
    session.  On a stored session pause sets the status to paused and resume
    sets it to active from any status, changing nothing else, and
    submitResponse and complete succeed; a transition fails only when the
    identifier is empty or names no session. *)
Theorem transitions_ignore_the_status db i :
  match findById db i with
  | Ok (Some s) =>
      (exists db' s', pauseInterview db i = Ok (db', s')
                      /\ status s' = paused /\ sameButStatus s s'
                      /\ sameButSession db db' i s')
      /\ (exists db' s', resumeInterview db i = Ok (db', s')
                         /\ status s' = active /\ sameButStatus s s'
                         /\ sameButSession db db' i s')
      /\ (forall answer now, isOk (submitResponse db i answer now) = true)
      /\ (forall now, isOk (completeInterview db i now) = true)
  | _ =>
      isOk (pauseInterview db i) = false
      /\ isOk (resumeInterview db i) = false
      /\ (forall answer now, isOk (submitResponse db i answer now) = false)
      /\ (forall now, isOk (completeInterview db i now) = false)
  end.
Proof.
  destruct (findById db i) as [[s|]|m] eqn:Hfind.
  - pose proof Hfind as [Hi Hs]%findById_Some.
    unfold pauseInterview, resumeInterview, pauseSession, resumeSession.
    rewrite !(update_found db i _ s Hi Hs).
    split; [|split; [|split]].
    + eexists. eexists. split; [reflexivity|]. cbn.
      repeat split; reflexivity.
    + eexists. eexists. split; [reflexivity|]. cbn.
      repeat split; reflexivity.
    + intros answer now. rewrite (submitResponse_found db i answer now s Hi Hs).
      reflexivity.
    + intros now. unfold completeInterview, completeSession. rewrite Hfind.
      cbn [bind]. rewrite (update_found db i _ s Hi Hs). reflexivity.
  - assert (Hmiss : i = "" \/ interviewSessions db !! i = None).
    { apply findById_not_Some. intros s H. congruence. }
    unfold pauseInterview, resumeInterview, pauseSession, resumeSession.
    rewrite !update_missing by assumption.
    repeat split.
    + intros. apply submitResponse_missing. assumption.
    + intros now. unfold completeInterview. rewrite Hfind. reflexivity.
  - assert (Hmiss : i = "" \/ interviewSessions db !! i = None).
    { apply findById_not_Some. intros s H. congruence. }
    unfold pauseInterview, resumeInterview, pauseSession, resumeSession.
    rewrite !update_missing by assumption.
    repeat split.
    + intros. apply submitResponse_missing. assumption.
    + intros now. unfold completeInterview. rewrite Hfind. reflexivity.
Qed.

(** C10.  completeInterview stores the same fixed vector of final scores
    in every session it completes: the stored scores do not depend on the
    session's history, its previous scores or the evaluation results. *)
Theorem completeInterview_stores_fixed_scores db i now s :
  findById db i = Ok (Some s) ->
  exists db' s',
    completeInterview db i now = Ok (db', s')
    /\ findById db' i = Ok (Some s')
    /\ status s' = completed
    /\ endTime s' = Some now
    /\ skillAssessment s'
       = {| overall := 75; basicFormulas := 80; dataManipulation := 70;
            pivotTables := 75; advancedFunctions := 70; dataVisualization := 80;
            macrosVBA := 60; dataModeling := 65 |}
    /\ conversationHistory s' = conversationHistory s
    /\ sameButSession db db' i s'.
Proof.
  intros Hfind. pose proof Hfind as [Hi Hs]%findById_Some.
  unfold completeInterview. rewrite Hfind. cbn [bind].
  unfold completeSession. rewrite (update_found db i _ s Hi Hs).
  eexists. eexists. split; [reflexivity|].
  split.
  { apply findById_Some. split; [exact Hi|]. cbn. apply lookup_insert_eq. }
  cbn. repeat split; reflexivity.
Qed.

End StateMachine.

(** *** Starting an interview *)

Section Start.

Import InterviewSessionRepository InterviewOrchestrator.
Local Open Scope Q_scope.

Lemma session_listed db i s :
  interviewSessions db !! i = Some s ->
  In s (List.map snd (map_to_list (interviewSessions db))).
Proof.
  intros Hs. apply List.in_map_iff. exists (i, s). split; [reflexivity|].
  apply list_elem_of_In, elem_of_map_to_list. exact Hs.
Qed.

Lemma listed_session db s :
  In s (List.map snd (map_to_list (interviewSessions db))) ->
  exists i, interviewSessions db !! i = Some s.
Proof.
  intros Hin. apply List.in_map_iff in Hin as ([i s'] & Heq & Hin).
  cbn in Heq. subst s'. exists i.
  apply elem_of_map_to_list, list_elem_of_In. exact Hin.
Qed.

Lemma findActiveByCandidateId_spec db cand :
  cand <> "" ->
  (exists s, findActiveByCandidateId db cand = Ok (Some s)
             /\ hasActiveSession db cand)
  \/ (findActiveByCandidateId db cand = Ok None /\ ~ hasActiveSession db cand).
Proof.
  intros Hc. unfold findActiveByCandidateId, validateId.
  destruct (decide (cand = "")); [contradiction|]. cbn [bind].
  match goal with |- context [List.find ?f ?l] =>
    destruct (List.find f l) as [s|] eqn:Hfind end.
  - left. exists s. split; [reflexivity|].
    apply List.find_some in Hfind as [Hin Hp].
    apply andb_prop in Hp as [Hp1 Hp2].
    apply bool_decide_eq_true in Hp1. apply bool_decide_eq_true in Hp2.
    destruct (listed_session db s Hin) as [i Hi]. exists i, s. auto.
  - right. split; [reflexivity|]. intros (i & s & Hs & Hcand & Hact).
    pose proof (List.find_none _ _ Hfind s (session_listed db i s Hs)) as Hp.
    cbn beta in Hp. rewrite Hcand, Hact in Hp.
    rewrite !bool_decide_eq_true_2 in Hp by reflexivity. discriminate Hp.
Qed.

(** what a successful [create] tells about the database it started from *)
Lemma create_inversion db data newId now db' s' :
  create db data newId now = Ok (db', s') ->
  createCandidateId data <> ""
  /\ is_Some (candidates db !! createCandidateId data)
  /\ ~ hasActiveSession db (createCandidateId data)
  /\ interviewSessions db !! newId = None
  /\ db' = withSessions db (<[newId := s']> (interviewSessions db))
  /\ s' = {| sessionId := newId;
             candidateId := createCandidateId data;
             roleLevel := createRoleLevel data;
             status := active;
             currentQuestionIndex := 0;
             conversationHistory := [];
             skillAssessment := zeroScores;
             startTime := now;
             endTime := None;
             sessionMetadata := default [] (createMetadata data) |}.
Proof.
  unfold create, createSteps, validateRequired.
  destruct (decide (createCandidateId data = "")) as [|Hc]; [discriminate|].
  cbn [bind].
  destruct (candidates db !! createCandidateId data) as [cnd|] eqn:Hcand;
    [|discriminate].
  destruct (findActiveByCandidateId_spec db _ Hc) as [(s & -> & _)|[-> Hnone]];
    cbn [bind]; [discriminate|].
  destruct (interviewSessions db !! newId) eqn:Hnew; [discriminate|].
  intros [= <- <-]. repeat split; eauto.
Qed.



End Start.

Lemma submitResponse_records_and_advances_witness :
  InterviewSessionRepository.findById Fixtures.activeDb "session-1"
  = Ok (Some Fixtures.activeSession)
  /\ exists db' s',
       InterviewOrchestrator.submitResponse Fixtures.activeDb "session-1"
         "=SUM(A1:A10)" 2000 = Ok db'
       /\ InterviewSessionRepository.findById db' "session-1" = Ok (Some s')
       /\ List.length (conversationHistory s') = 2%nat
       /\ currentQuestionIndex s' = 1%Z
       /\ skillAssessment s' = skillAssessment Fixtures.activeSession.
Proof.
  assert (Hfind : InterviewSessionRepository.findById Fixtures.activeDb "session-1"
                  = Ok (Some Fixtures.activeSession)) by (vm_compute; reflexivity).
  split; [exact Hfind|].
  destruct (submitResponse_records_and_advances Fixtures.activeDb "session-1"
              "=SUM(A1:A10)" 2000 Fixtures.activeSession Hfind)
    as (db' & s' & Hok & Hfound & Hhist & Hidx & Hscores & _).
  exists db', s'. repeat split; try assumption.
  rewrite Hhist. reflexivity.
Defined.

(** C1 as stated fails.  An active session has just been asked the SUM
    question and the answer matches its first pattern.  submitResponse
    succeeds, but no evaluation is added to the evaluation history and the
    SkillScores stay at zero, although the aggregator would give 95 on the
    evaluation that the rule tier produces for this answer. *)
Lemma submitResponse_does_not_evaluate :
  InterviewSessionRepository.findById Fixtures.activeDb "session-1"
  = Ok (Some Fixtures.activeSession)
  /\ status Fixtures.activeSession = active
  /\ exists db' s' r,
       InterviewOrchestrator.submitResponse Fixtures.activeDb "session-1"
         "=SUM(A1:A10)" 2000 = Ok db'
       /\ InterviewSessionRepository.findById db' "session-1" = Ok (Some s')
       /\ evaluationResults db' = []
       /\ List.length (evaluationResults db')
          <> S (List.length (evaluationResults Fixtures.activeDb))
       /\ Evaluation.tryRuleBasedEvaluation Fixtures.sumQuestion "=SUM(A1:A10)"
          = Some r
       /\ (basicFormulas (Evaluation.calculateSkillScores [r]) == 95)%Q
       /\ basicFormulas (skillAssessment s') = 0%Q.
Proof.
  split; [vm_compute; reflexivity|]. split; [reflexivity|].
  eexists. eexists. eexists.
  split; [vm_compute; reflexivity|].
  split; [vm_compute; reflexivity|].
  split; [reflexivity|].
  split; [cbn; discriminate|].
  split; [vm_compute; reflexivity|].
  split; [vm_compute; reflexivity|].
  reflexivity.
Qed.

Lemma transitions_ignore_the_status_witness :
  InterviewSessionRepository.findById Fixtures.pausedDb "session-1"
  = Ok (Some Fixtures.pausedSession)
  /\ (exists db' s',
        InterviewOrchestrator.resumeInterview Fixtures.pausedDb "session-1"
        = Ok (db', s')
        /\ status s' = active /\ sameButStatus Fixtures.pausedSession s'
        /\ sameButSession Fixtures.pausedDb db' "session-1" s').
Proof.
  assert (Hfind : InterviewSessionRepository.findById Fixtures.pausedDb "session-1"
                  = Ok (Some Fixtures.pausedSession)) by (vm_compute; reflexivity).
  split; [exact Hfind|].
  pose proof (transitions_ignore_the_status Fixtures.pausedDb "session-1") as H.
  rewrite Hfind in H. destruct H as (_ & Hresume & _). exact Hresume.
Defined.

(** C2 as stated fails.  On a paused session pause succeeds and returns the
    database as it was, and submitResponse succeeds too. *)
Lemma paused_session_accepts_transitions :
  InterviewSessionRepository.findById Fixtures.pausedDb "session-1"
  = Ok (Some Fixtures.pausedSession)
  /\ status Fixtures.pausedSession = paused
  /\ InterviewOrchestrator.pauseInterview Fixtures.pausedDb "session-1"
     = Ok (Fixtures.pausedDb, Fixtures.pausedSession)
  /\ isOk (InterviewOrchestrator.submitResponse Fixtures.pausedDb "session-1"
             "=SUM(A1:A10)" 2000) = true.
Proof.
  split; [vm_compute; reflexivity|]. split; [reflexivity|].
  split; vm_compute; reflexivity.
Qed.

Lemma completeInterview_stores_fixed_scores_witness :
  InterviewSessionRepository.findById Fixtures.activeDb "session-1"
  = Ok (Some Fixtures.activeSession)
  /\ exists db' s',
       InterviewOrchestrator.completeInterview Fixtures.activeDb "session-1" 3000
       = Ok (db', s')
       /\ status s' = completed
       /\ skillAssessment s'
          = {| overall := 75; basicFormulas := 80; dataManipulation := 70;
               pivotTables := 75; advancedFunctions := 70; dataVisualization := 80;
               macrosVBA := 60; dataModeling := 65 |}.
Proof.
  assert (Hfind : InterviewSessionRepository.findById Fixtures.activeDb "session-1"
                  = Ok (Some Fixtures.activeSession)) by (vm_compute; reflexivity).
  split; [exact Hfind|].
  destruct (completeInterview_stores_fixed_scores Fixtures.activeDb "session-1"
              3000 Fixtures.activeSession Hfind)
    as (db' & s' & Hok & _ & Hst & _ & Hscores & _).
  exists db', s'. repeat split; assumption.
Defined.




(** ** Part III.  Further properties of the code *)

(** *** The evaluation engine *)

Section EvaluationEngine.

Import Evaluation.
Local Open Scope Q_scope.

Variable ai : Question -> string -> InterviewContext -> Result EvaluationResult.

Lemma find_none_of_no_match q answer :
  (forall p, In p (expectedAnswerPatterns q) -> patternMatches answer p = false) ->
  List.find (fun pat => JS.includes (JS.trim (JS.toLowerCase answer))
                                    (JS.toLowerCase pat))
            (expectedAnswerPatterns q) = None.
Proof.
  intros Hno. destruct (List.find _ _) as [p|] eqn:Hfind; [|reflexivity].
  apply List.find_some in Hfind as [Hin Hp].
  specialize (Hno p Hin). unfold patternMatches in Hno. congruence.
Qed.

(** X1.  Whatever the rule tier returns is a well-formed evaluation: the
    score lies between 0 and 100 however large the deductions and partial
    credits are, the confidence is 0.9 or 0.7, the result names the
    question, and it carries at least one partial credit. *)
Theorem rule_tier_result_well_formed q answer r :
  tryRuleBasedEvaluation q answer = Some r ->
  isPercentage (score r)
  /\ (confidence r = 0.9 \/ confidence r = 0.7)
  /\ questionId r = id q
  /\ partialCredits r <> [].
Proof.
  unfold tryRuleBasedEvaluation, isPercentage.
  destruct (List.find _ _) as [p|].
  - intros [= <-]. cbn. repeat split; try discriminate. left. reflexivity.
  - destruct (collectPartialCredits q _) as [|c cs] eqn:Hc; [discriminate|].
    cbn [List.length Nat.ltb Nat.leb]. intros [= <-]. cbn [score confidence
      questionId partialCredits]. repeat split.
    + apply Q.le_max_l.
    + apply Q.max_lub; [discriminate|apply Q.le_min_l].
    + right. reflexivity.
    + discriminate.
Qed.

(** the evaluation when no expected pattern occurs in the answer *)
Lemma evaluateResponse_no_match q answer ctx :
  (forall p, In p (expectedAnswerPatterns q) -> patternMatches answer p = false) ->
  evaluateResponse ai q answer ctx
  = askAi ai q answer ctx (tryRuleBasedEvaluation q answer)
  /\ ((tryRuleBasedEvaluation q answer = None
       /\ collectPartialCredits q (JS.trim (JS.toLowerCase answer)) = [])
      \/ exists r, tryRuleBasedEvaluation q answer = Some r
                   /\ confidence r = 0.7
                   /\ partialCredits r
                      = collectPartialCredits q (JS.trim (JS.toLowerCase answer))
                   /\ partialCredits r <> []).
Proof.
  intros Hno. pose proof (find_none_of_no_match q answer Hno) as Hfind.
  unfold evaluateResponse, tryRuleBasedEvaluation. rewrite Hfind.
  destruct (collectPartialCredits q _) as [|c cs] eqn:Hc.
  - cbn. split; [reflexivity|left; split; reflexivity].
  - cbn [List.length Nat.ltb Nat.leb confidence]. split; [reflexivity|].
    right. eexists. split; [reflexivity|]. cbn. repeat split. discriminate.
Qed.

(** X2.  The AI tier is left out exactly when one of the question's
    expected patterns occurs in the normalized answer; in every other case
    it is called exactly once, with the question, the answer as typed and
    the context. *)
Theorem ai_skipped_iff_pattern_matches q answer ctx :
  (aiCalls (evaluateResponse ai q answer ctx) = []
   <-> exists p, In p (expectedAnswerPatterns q) /\ patternMatches answer p = true)
  /\ (aiCalls (evaluateResponse ai q answer ctx) = []
      \/ aiCalls (evaluateResponse ai q answer ctx)
         = [ {| callQuestion := q; callResponse := answer; callContext := ctx |} ]).
Proof.
  destruct (List.find (fun pat => patternMatches answer pat)
                      (expectedAnswerPatterns q)) as [p|] eqn:Hfind.
  - apply List.find_some in Hfind as [Hin Hp].
    assert (Hskip : aiCalls (evaluateResponse ai q answer ctx) = []).
    { destruct (find_first_match
                  (fun pat => JS.includes (JS.trim (JS.toLowerCase answer))
                                          (JS.toLowerCase pat))
                  _ p Hin Hp) as (y & Hy & _).
      unfold evaluateResponse, tryRuleBasedEvaluation. rewrite Hy. reflexivity. }
    split; [|left; exact Hskip]. split; [eauto|intros _; exact Hskip].
  - pose proof (List.find_none _ _ Hfind) as Hno. cbn beta in Hno.
    destruct (evaluateResponse_no_match q answer ctx Hno) as [Heq _].
    rewrite Heq. cbn [askAi aiCalls]. split; [|right; reflexivity].
    split; [discriminate|]. intros (p & Hin & Hp). rewrite (Hno p Hin) in Hp.
    discriminate Hp.
Qed.

(** X3.  When no expected pattern occurs in the answer the verdict is the
    AI tier's: a failure of the AI tier is the failure of the evaluation,
    and a judgement of the AI tier keeps its score, reasoning and follow-up.
    The rule tier only adds its partial credits after the AI tier's and
    raises the confidence to at least 0.7 when it found any. *)
Theorem ai_verdict_is_authoritative q answer ctx :
  (forall p, In p (expectedAnswerPatterns q) -> patternMatches answer p = false) ->
  match ai q answer ctx with
  | Err m => outcome (evaluateResponse ai q answer ctx) = Err m
  | Ok aiResult =>
      exists r,
        outcome (evaluateResponse ai q answer ctx) = Ok r
        /\ score r = score aiResult /\ reasoning r = reasoning aiResult
        /\ questionId r = questionId aiResult
        /\ suggestedFollowUp r = suggestedFollowUp aiResult
        /\ partialCredits r
           = (partialCredits aiResult
              ++ collectPartialCredits q (JS.trim (JS.toLowerCase answer)))%list
        /\ confidence aiResult <= confidence r
        /\ (collectPartialCredits q (JS.trim (JS.toLowerCase answer)) <> [] ->
            0.7 <= confidence r)
        /\ (collectPartialCredits q (JS.trim (JS.toLowerCase answer)) = [] ->
            r = aiResult)
  end.
Proof.
  intros Hno. destruct (evaluateResponse_no_match q answer ctx Hno) as [-> Hrule].
  unfold askAi. cbn [outcome]. destruct (ai q answer ctx) as [aiResult|m];
    [|reflexivity].
  cbn [bind]. destruct Hrule as [[-> Hnil]|(r & -> & Hconf & Hcredits & Hne)].
  - exists aiResult. rewrite Hnil, app_nil_r.
    repeat split; try reflexivity; [apply Qle_refl|congruence].
  - eexists. split; [reflexivity|]. unfold mergeRuleInsights.
    cbn [score reasoning questionId suggestedFollowUp partialCredits confidence].
    rewrite Hcredits, Hconf. repeat split.
    + apply Q.le_max_l.
    + intros _. apply Q.le_max_r.
    + intros Hnil. rewrite Hnil in Hcredits. congruence.
Qed.

End EvaluationEngine.

Lemma rule_tier_result_well_formed_witness :
  exists r,
    Evaluation.tryRuleBasedEvaluation Fixtures.sumQuestion
      "I would use something that mentions SUM function" = Some r
    /\ isPercentage (score r)
    /\ (confidence r = 0.9%Q \/ confidence r = 0.7%Q)
    /\ questionId r = id Fixtures.sumQuestion
    /\ partialCredits r <> [].
Proof.
  eexists. split; [vm_compute; reflexivity|].
  apply (rule_tier_result_well_formed Fixtures.sumQuestion
           "I would use something that mentions SUM function").
  vm_compute. reflexivity.
Defined.

Lemma ai_verdict_is_authoritative_witness :
  (forall p, In p (expectedAnswerPatterns Fixtures.sumQuestion) ->
             patternMatches "it mentions SUM function" p = false)
  /\ exists r,
       Evaluation.outcome
         (Evaluation.evaluateResponse Fixtures.aiScore40 Fixtures.sumQuestion
            "it mentions SUM function" Fixtures.context) = Ok r
       /\ score r = 40%Q /\ (0.7 <= confidence r)%Q
       /\ List.length (partialCredits r) = 1%nat.
Proof.
  assert (Hno : forall p, In p (expectedAnswerPatterns Fixtures.sumQuestion) ->
                          patternMatches "it mentions SUM function" p = false).
  { intros p [<-|[<-|[<-|[]]]]; vm_compute; reflexivity. }
  split; [exact Hno|].
  pose proof (ai_verdict_is_authoritative Fixtures.aiScore40 Fixtures.sumQuestion
                "it mentions SUM function" Fixtures.context Hno) as H.
  cbn [Fixtures.aiScore40] in H.
  destruct H as (r & Hout & Hscore & _ & _ & _ & Hcredits & _ & Hconf & _).
  exists r. split; [exact Hout|]. split; [exact Hscore|]. split.
  - apply Hconf. vm_compute. discriminate.
  - rewrite Hcredits. vm_compute. reflexivity.
Defined.

Section FeedbackAndScores.

Import Evaluation Feedback.
Local Open Scope Q_scope.

Lemma sortCredits_filters credits :
  sortCredits credits
  = (List.map creditReasoning
       (List.filter (fun c => Qgtb (points c) 0) credits),
     List.map creditReasoning
       (List.filter (fun c => negb (Qgtb (points c) 0)) credits)).
Proof.
  unfold sortCredits.
  assert (Hgen : forall credits (s i : list string),
             List.fold_left
               (fun '(strengths, improvements) credit =>
                  if Qgtb (points credit) 0
                  then ((strengths ++ [creditReasoning credit])%list, improvements)
                  else (strengths, (improvements ++ [creditReasoning credit])%list))
               credits (s, i)
             = ((s ++ List.map creditReasoning
                        (List.filter (fun c => Qgtb (points c) 0) credits))%list,
                (i ++ List.map creditReasoning
                        (List.filter (fun c => negb (Qgtb (points c) 0)) credits))%list)).
  { clear credits. induction credits as [|c cs IH]; intros s i.
    - cbn. rewrite !app_nil_r. reflexivity.
    - cbn [List.fold_left List.filter]. destruct (Qgtb (points c) 0);
        cbn [negb List.map]; rewrite IH, <- ?app_assoc; reflexivity. }
  apply Hgen.
Qed.

Lemma Qgtb_true a b : Qgtb a b = true <-> b < a.
Proof.
  unfold Qgtb. rewrite negb_true_iff. split.
  - intros H. apply Qnot_le_lt. intros Hle. apply Qle_bool_iff in Hle. congruence.
  - intros H. destruct (Qle_bool a b) eqn:E; [|reflexivity].
    apply Qle_bool_iff in E. exfalso. apply (Qlt_irrefl b).
    eapply Qlt_le_trans; eassumption.
Qed.

Lemma Qgtb_false a b : Qgtb a b = false <-> a <= b.
Proof.
  unfold Qgtb. rewrite negb_false_iff. apply Qle_bool_iff.
Qed.

Lemma filter_split_length {A} (f : A -> bool) (l : list A) :
  (List.length (List.filter f l)
   + List.length (List.filter (fun a => negb (f a)) l) = List.length l)%nat.
Proof.
  induction l as [|a l IH]; [reflexivity|].
  cbn [List.filter]. destruct (f a); cbn [negb List.length]; lia.
Qed.

(** X4.  The feedback for an evaluation files every partial credit once:
    its reasoning is a strength when the points are positive and an
    improvement otherwise.  One or two general remarks are added according
    to the score, so that any score below 90 comes with at least one
    improvement. *)
Theorem feedback_files_every_credit evaluation :
  let f := generateFeedback evaluation in
  (forall c, In c (partialCredits evaluation) -> 0 < points c ->
             In (creditReasoning c) (strengths f))
  /\ (forall c, In c (partialCredits evaluation) -> points c <= 0 ->
                In (creditReasoning c) (improvements f))
  /\ (List.length (strengths f) + List.length (improvements f)
      = List.length (partialCredits evaluation)
        + (if Qle_bool 90 (score evaluation) then 1 else 2))%nat
  /\ (score evaluation < 90 -> improvements f <> [])
  /\ feedbackScore f = score evaluation
  /\ feedbackQuestionId f = questionId evaluation
  /\ specificFeedback f = reasoning evaluation.
Proof.
  cbv zeta. unfold generateFeedback. rewrite sortCredits_filters.
  set (pos := List.map creditReasoning
                (List.filter (fun c => Qgtb (points c) 0) (partialCredits evaluation))).
  set (neg := List.map creditReasoning
                (List.filter (fun c => negb (Qgtb (points c) 0))
                             (partialCredits evaluation))).
  assert (Hpos : forall c, In c (partialCredits evaluation) -> 0 < points c ->
                           In (creditReasoning c) pos).
  { intros c Hin Hc. apply List.in_map, List.filter_In. split; [exact Hin|].
    apply Qgtb_true. exact Hc. }
  assert (Hneg : forall c, In c (partialCredits evaluation) -> points c <= 0 ->
                           In (creditReasoning c) neg).
  { intros c Hin Hc. apply List.in_map, List.filter_In. split; [exact Hin|].
    apply negb_true_iff, Qgtb_false. exact Hc. }
  assert (Hlen : (List.length pos + List.length neg
                  = List.length (partialCredits evaluation))%nat).
  { subst pos neg. rewrite !List.length_map. apply filter_split_length. }
  destruct (Qle_bool 90 (score evaluation)) eqn:H90;
    [|destruct (Qle_bool 70 (score evaluation)) eqn:H70;
      [|destruct (Qle_bool 50 (score evaluation)) eqn:H50]];
    cbn [strengths improvements feedbackScore feedbackQuestionId specificFeedback];
    (split; [intros c Hin Hc; try apply List.in_or_app; try left; auto|]);
    (split; [intros c Hin Hc; try apply List.in_or_app; try left; auto|]);
    (split; [rewrite ?List.length_app; cbn [List.length]; lia|]);
    (split; [|repeat split; reflexivity]).
  - intros Hlt. exfalso. apply Qle_bool_iff in H90.
    apply (Qlt_irrefl 90). eapply Qle_lt_trans; eassumption.
  - intros _ Hnil. apply List.app_eq_nil in Hnil as [_ Hnil]. discriminate Hnil.
  - intros _ Hnil. apply List.app_eq_nil in Hnil as [_ Hnil]. discriminate Hnil.
  - intros _ Hnil. apply List.app_eq_nil in Hnil as [_ Hnil]. discriminate Hnil.
Qed.

Lemma sum_from acc (l : list Q) :
  List.fold_left (fun sum score => sum + score) l acc
  == acc + List.fold_left (fun sum score => sum + score) l 0.
Proof.
  revert acc. induction l as [|x l IH]; intros acc; cbn [List.fold_left].
  - ring.
  - rewrite (IH (acc + x)), (IH (0 + x)). ring.
Qed.

Lemma sum_of_percentages (l : list Q) :
  Forall isPercentage l ->
  0 <= List.fold_left (fun sum score => sum + score) l 0
  /\ List.fold_left (fun sum score => sum + score) l 0
     <= 100 * inject_Z (Z.of_nat (List.length l)).
Proof.
  induction 1 as [|x l [Hx0 Hx1] _ [IH0 IH1]].
  - cbn. split; discriminate.
  - cbn [List.fold_left List.length]. rewrite sum_from.
    rewrite Nat2Z.inj_succ, <- Z.add_1_r, inject_Z_plus.
    change (inject_Z 1) with 1.
    generalize dependent (inject_Z (Z.of_nat (List.length l))). intros n IH1.
    generalize dependent (List.fold_left (fun sum score => sum + score) l 0).
    intros total IH0 IH1. split; lra.
Qed.

Lemma mean_of_percentages (l : list Q) :
  Forall isPercentage l -> isPercentage (mean l).
Proof.
  intros Hl. destruct l as [|x l]; [split; discriminate|].
  destruct (sum_of_percentages _ Hl) as [H0 H1]. unfold mean.
  set (n := inject_Z (Z.of_nat (List.length (x :: l)))) in *.
  assert (Hn : 0 < n).
  { subst n. change 0 with (inject_Z 0). rewrite <- Zlt_Qlt. cbn. lia. }
  split.
  - apply Qle_shift_div_l; [exact Hn|]. rewrite Qmult_0_l. exact H0.
  - apply Qle_shift_div_r; [exact Hn|]. exact H1.
Qed.

(** X5.  When every evaluation of the history has a score between 0 and
    100, so has every entry of the aggregated SkillScores, the overall score
    included. *)
Theorem skill_scores_are_percentages evaluations :
  Forall (fun e => isPercentage (score e)) evaluations ->
  let r := calculateSkillScores evaluations in
  isPercentage (overall r) /\ isPercentage (basicFormulas r)
  /\ isPercentage (dataManipulation r) /\ isPercentage (pivotTables r)
  /\ isPercentage (advancedFunctions r) /\ isPercentage (dataVisualization r)
  /\ isPercentage (macrosVBA r) /\ isPercentage (dataModeling r).
Proof.
  intros Hall.
  assert (Hm : isPercentage (mean (List.map score evaluations))).
  { apply mean_of_percentages. apply List.Forall_map. exact Hall. }
  destruct (calculateSkillScores_all_basic evaluations)
    as (Hb & H1 & H2 & H3 & H4 & H5 & H6 & Hpos & Hzero).
  assert (Hz : isPercentage 0) by (split; discriminate).
  cbv zeta. rewrite Hb, H1, H2, H3, H4, H5, H6.
  split; [|repeat split; solve [apply Hz | apply Hm]].
  destruct (Qlt_le_dec 0 (mean (List.map score evaluations))) as [Hlt|Hle].
  - destruct Hm as [Hm0 Hm1]. specialize (Hpos Hlt). split; rewrite Hpos; assumption.
  - rewrite (Hzero Hle). exact Hz.
Qed.

Lemma sum_of_permutation (l l' : list Q) :
  Permutation l l' ->
  List.fold_left (fun sum score => sum + score) l 0
  == List.fold_left (fun sum score => sum + score) l' 0.
Proof.
  induction 1 as [|x l l' _ IH|x y l|l l' l'' _ IH1 _ IH2].
  - reflexivity.
  - cbn [List.fold_left]. rewrite (sum_from (0 + x) l), (sum_from (0 + x) l'), IH.
    reflexivity.
  - cbn [List.fold_left]. rewrite (sum_from (0 + y + x) l), (sum_from (0 + x + y) l).
    ring.
  - rewrite IH1. exact IH2.
Qed.

Lemma mean_of_permutation (l l' : list Q) :
  Permutation l l' -> mean l == mean l'.
Proof.
  intros Hp. pose proof (Permutation_length Hp) as Hlen.
  pose proof (sum_of_permutation l l' Hp) as Hsum.
  destruct l as [|x l], l' as [|x' l']; try discriminate Hlen; [reflexivity|].
  unfold mean. rewrite Hlen, Hsum. reflexivity.
Qed.

(** X6.  For whole-number scores between 0 and 100 the aggregated
    SkillScores do not depend on the order of the evaluation history: two
    histories with the same evaluations in a different order give equal
    scores in every entry.  (The source adds the scores as doubles from
    left to right; sums of such whole numbers are exact, so that the order
    cannot show.  Scores with a fractional part are left out, as their sum
    is rounded on the way and can differ in the last digit from one order
    to another.) *)
Theorem skill_scores_ignore_order evaluations evaluations' :
  Forall (fun e => isWholeNumber (score e) /\ isPercentage (score e)) evaluations ->
  Permutation evaluations evaluations' ->
  let r := calculateSkillScores evaluations in
  let r' := calculateSkillScores evaluations' in
  overall r == overall r' /\ basicFormulas r == basicFormulas r'
  /\ dataManipulation r == dataManipulation r' /\ pivotTables r == pivotTables r'
  /\ advancedFunctions r == advancedFunctions r'
  /\ dataVisualization r == dataVisualization r'
  /\ macrosVBA r == macrosVBA r' /\ dataModeling r == dataModeling r'.
Proof.
  intros _ Hp.
  assert (Hm : mean (List.map score evaluations)
               == mean (List.map score evaluations')).
  { apply mean_of_permutation. apply Permutation_map. exact Hp. }
  destruct (calculateSkillScores_all_basic evaluations)
    as (Hb & H1 & H2 & H3 & H4 & H5 & H6 & Hpos & Hzero).
  destruct (calculateSkillScores_all_basic evaluations')
    as (Hb' & H1' & H2' & H3' & H4' & H5' & H6' & Hpos' & Hzero').
  cbv zeta. rewrite Hb, H1, H2, H3, H4, H5, H6, Hb', H1', H2', H3', H4', H5', H6'.
  split; [|repeat split; solve [reflexivity | exact Hm]].
  destruct (Qlt_le_dec 0 (mean (List.map score evaluations))) as [Hlt|Hle].
  - rewrite (Hpos Hlt), (Hpos' ltac:(rewrite <- Hm; exact Hlt)). exact Hm.
  - rewrite (Hzero Hle), (Hzero' ltac:(rewrite <- Hm; exact Hle)). reflexivity.
Qed.

End FeedbackAndScores.

Lemma feedback_files_every_credit_witness :
  In "Good knowledge of SUM function, but check syntax"
     (strengths (Feedback.generateFeedback MoreFixtures.mixedEvaluation))
  /\ In "Remember to start formulas with an equals sign (=)"
        (improvements (Feedback.generateFeedback MoreFixtures.mixedEvaluation))
  /\ improvements (Feedback.generateFeedback MoreFixtures.mixedEvaluation) <> [].
Proof.
  destruct (feedback_files_every_credit MoreFixtures.mixedEvaluation)
    as (Hpos & Hneg & _ & Himp & _).
  split; [|split].
  - apply (Hpos {| criterion := "Partial Credit"; points := 50;
                   creditReasoning :=
                     "Good knowledge of SUM function, but check syntax" |}).
    + right. left. reflexivity.
    + reflexivity.
  - apply (Hneg {| criterion := "Common Mistake"; points := - 20;
                   creditReasoning :=
                     "Remember to start formulas with an equals sign (=)" |}).
    + left. reflexivity.
    + discriminate.
  - apply Himp. reflexivity.
Defined.

Lemma skill_scores_are_percentages_witness :
  Forall (fun e => isPercentage (score e))
    [Fixtures.evaluationOf Fixtures.sumQuestion 90;
     Fixtures.evaluationOf Fixtures.pivotQuestion 40]
  /\ isPercentage
       (overall
          (Evaluation.calculateSkillScores
             [Fixtures.evaluationOf Fixtures.sumQuestion 90;
              Fixtures.evaluationOf Fixtures.pivotQuestion 40])).
Proof.
  assert (H : Forall (fun e => isPercentage (score e))
                [Fixtures.evaluationOf Fixtures.sumQuestion 90;
                 Fixtures.evaluationOf Fixtures.pivotQuestion 40]).
  { repeat constructor; discriminate. }
  split; [exact H|].
  exact (proj1 (skill_scores_are_percentages _ H)).
Defined.

Lemma skill_scores_ignore_order_witness :
  Permutation
    [Fixtures.evaluationOf Fixtures.sumQuestion 90;
     Fixtures.evaluationOf Fixtures.pivotQuestion 40]
    [Fixtures.evaluationOf Fixtures.pivotQuestion 40;
     Fixtures.evaluationOf Fixtures.sumQuestion 90]
  /\ (overall
        (Evaluation.calculateSkillScores
           [Fixtures.evaluationOf Fixtures.sumQuestion 90;
            Fixtures.evaluationOf Fixtures.pivotQuestion 40])
      == overall
           (Evaluation.calculateSkillScores
              [Fixtures.evaluationOf Fixtures.pivotQuestion 40;
               Fixtures.evaluationOf Fixtures.sumQuestion 90]))%Q.
Proof.
  assert (H : Permutation
                [Fixtures.evaluationOf Fixtures.sumQuestion 90;
                 Fixtures.evaluationOf Fixtures.pivotQuestion 40]
                [Fixtures.evaluationOf Fixtures.pivotQuestion 40;
                 Fixtures.evaluationOf Fixtures.sumQuestion 90])
    by apply perm_swap.
  split; [exact H|].
  assert (Hwhole : Forall (fun e => isWholeNumber (score e)
                                    /\ isPercentage (score e))
                     [Fixtures.evaluationOf Fixtures.sumQuestion 90;
                      Fixtures.evaluationOf Fixtures.pivotQuestion 40]).
  { constructor; [split; [exists 90%Z; reflexivity|split; discriminate]|].
    constructor; [split; [exists 40%Z; reflexivity|split; discriminate]|].
    constructor. }
  exact (proj1 (skill_scores_ignore_order _ _ Hwhole H)).
Defined.

(** *** Category selection *)

Section CategorySelection.

Import Questions.
Local Open Scope Q_scope.

Lemma comparator_le (a b : Q) : Qle_bool (b - a) 0 = true <-> b <= a.
Proof. rewrite Qle_bool_iff. split; intros H; lra. Qed.

Lemma In_insertSorted {A} (before : A -> A -> bool) x l y :
  y = x \/ In y l -> In y (insertSorted before x l).
Proof.
  induction l as [|z l IH]; cbn [insertSorted].
  - intros [->|[]]. left. reflexivity.
  - destruct (before x z).
    + intros [->|H]; [left; reflexivity|right; exact H].
    + intros [->|[->|H]];
        [right; apply IH; left; reflexivity|left; reflexivity|right; apply IH; right; exact H].
Qed.

Lemma In_stableSort {A} (before : A -> A -> bool) l y :
  In y l -> In y (stableSort before l).
Proof.
  unfold stableSort. induction l as [|x l IH]; cbn [List.fold_right]; [tauto|].
  intros [->|H]; apply In_insertSorted; [left; reflexivity|right; apply IH; exact H].
Qed.

Lemma insertSorted_headIsMax {A} (key : A -> Q) x l :
  headIsMax key l ->
  headIsMax key (insertSorted (fun a b => Qle_bool (key b - key a) 0) x l).
Proof.
  destruct l as [|h t]; cbn [insertSorted headIsMax].
  - intros _ y [->|[]]. apply Qle_refl.
  - intros Hmax. destruct (Qle_bool (key h - key x) 0) eqn:Hcmp.
    + apply comparator_le in Hcmp. intros y [->|Hy]; [apply Qle_refl|].
      eapply Qle_trans; [apply Hmax; exact Hy|exact Hcmp].
    + assert (Hlt : key x < key h).
      { apply Qnot_le_lt. intros Hle. apply comparator_le in Hle. congruence. }
      intros y [->|Hy]; [apply Qle_refl|].
      apply insertSorted_In in Hy as [->|Hy].
      * apply Qlt_le_weak. exact Hlt.
      * apply Hmax. right. exact Hy.
Qed.

Lemma stableSort_headIsMax {A} (key : A -> Q) l :
  headIsMax key (stableSort (fun a b => Qle_bool (key b - key a) 0) l).
Proof.
  unfold stableSort. induction l as [|x l IH]; cbn [List.fold_right]; [exact I|].
  apply insertSorted_headIsMax. exact IH.
Qed.

Lemma stableSort_unchanged {A} (before : A -> A -> bool) l :
  (forall a b, In a l -> In b l -> before a b = true) -> stableSort before l = l.
Proof.
  unfold stableSort. induction l as [|x l IH]; cbn [List.fold_right]; [reflexivity|].
  intros Hall. rewrite IH by (intros a b Ha Hb; apply Hall; right; assumption).
  destruct l as [|y l]; [reflexivity|]. cbn [insertSorted].
  rewrite (Hall x y) by (cbn; auto). reflexivity.
Qed.

Lemma selected_category_is_maximal session coverage cat :
  selectNextCategory session coverage = Ok cat ->
  exists w,
    In (cat, w) (Data.roleQuestionWeights (roleLevel session))
    /\ forall c' w', In (c', w') (Data.roleQuestionWeights (roleLevel session)) ->
                     priorityOf coverage c' w' <= priorityOf coverage cat w.
Proof.
  unfold selectNextCategory.
  set (scored := List.map _ (Data.roleQuestionWeights (roleLevel session))).
  pose proof (stableSort_headIsMax snd scored) as Hmax.
  pose proof (fun y => stableSort_In (fun a b => Qle_bool (snd b - snd a) 0) scored y)
    as Hin.
  destruct (stableSort _ scored) as [|first rest] eqn:Hsorted; [discriminate|].
  intros [= <-]. cbn [headIsMax] in Hmax.
  specialize (Hin first (or_introl eq_refl)).
  subst scored. apply List.in_map_iff in Hin as ([c w] & <- & Hcw).
  exists w. split; [exact Hcw|]. intros c' w' Hc'.
  change (priorityOf coverage c' w' <= priorityOf coverage c w).
  apply (Hmax (c', priorityOf coverage c' w')).
  rewrite <- Hsorted. apply In_stableSort.
  apply List.in_map_iff. exists (c', w'). split; [reflexivity|exact Hc'].
Qed.

(** X7.  The category chosen next is a category of the role's weight table
    whose priority, weight times (1 - coverage), is not exceeded by that of
    any other category of the table. *)
Theorem selectNextCategory_maximises_priority session coverage cat :
  selectNextCategory session coverage = Ok cat ->
  exists w,
    In (cat, w) (Data.roleQuestionWeights (roleLevel session))
    /\ forall c' w', In (c', w') (Data.roleQuestionWeights (roleLevel session)) ->
                     priorityOf coverage c' w' <= priorityOf coverage cat w.
Proof. apply selected_category_is_maximal. Qed.

Lemma role_table_keys_distinct level :
  NoDup (List.map fst (Data.roleQuestionWeights level)).
Proof.
  destruct level; apply (bool_decide_unpack _); vm_compute; reflexivity.
Qed.

Lemma objSet_fresh {K V} `{EqDecision K} (o : list (K * V)) k v :
  ~ In k (List.map fst o) -> objSet o k v = (o ++ [(k, v)])%list.
Proof.
  induction o as [|[k' v'] o IH]; cbn [objSet List.map List.app]; [reflexivity|].
  intros Hk. destruct (decide (k' = k)) as [->|_].
  - exfalso. apply Hk. left. reflexivity.
  - rewrite IH; [reflexivity|]. intros H. apply Hk. right. exact H.
Qed.

Lemma objGet_In {K V} `{EqDecision K} (o : list (K * V)) k v :
  NoDup (List.map fst o) -> In (k, v) o -> objGet o k = Some v.
Proof.
  induction o as [|[k' v'] o IH]; cbn [objGet List.map]; [intros _ []|].
  intros Hnd [[= -> ->]|Hin].
  - destruct (decide (k = k)); [reflexivity|contradiction].
  - apply NoDup_cons in Hnd as [Hk Hnd].
    destruct (decide (k' = k)) as [->|_]; [|apply IH; assumption].
    exfalso. apply Hk. apply list_elem_of_In, List.in_map_iff. exists (k, v). auto.
Qed.

Lemma coverage_fold_categories asked level entries acc :
  NoDup (List.map fst (categoryCoverage acc) ++ List.map fst entries) ->
  categoryCoverage (List.fold_left (coverageStep asked level) entries acc)
  = (categoryCoverage acc
     ++ List.map
          (fun e =>
             (fst e,
              Qmin (if (0 <? getExpectedQuestionsForCategory (fst e) level)%Z
                    then inject_Z (Z.of_nat (countIn asked (fst e)))
                         / inject_Z (getExpectedQuestionsForCategory (fst e) level)
                    else 0) 1.0))
          entries)%list.
Proof.
  revert acc. induction entries as [|[c w] entries IH]; intros acc Hnd;
    cbn [List.fold_left List.map].
  - rewrite app_nil_r. reflexivity.
  - assert (Hfresh : ~ In c (List.map fst (categoryCoverage acc))).
    { intros Hin. cbn [List.map fst] in Hnd.
      apply NoDup_app in Hnd as (_ & Hdisj & _).
      apply (Hdisj c); [apply list_elem_of_In; exact Hin|left]. }
    assert (Hstep : categoryCoverage (coverageStep asked level acc (c, w))
                    = (categoryCoverage acc
                       ++ [(c, Qmin (if (0 <? getExpectedQuestionsForCategory c level)%Z
                                     then inject_Z (Z.of_nat (countIn asked c))
                                          / inject_Z (getExpectedQuestionsForCategory c level)
                                     else 0) 1.0)])%list).
    { unfold coverageStep. cbn [categoryCoverage].
      rewrite objSet_fresh by exact Hfresh. reflexivity. }
    rewrite IH; rewrite Hstep.
    + rewrite <- app_assoc. reflexivity.
    + rewrite List.map_app, <- app_assoc. exact Hnd.
Qed.

(** the snapshot holds, for each category of the role table and in the
    order of the table, the clamped coverage of the category *)
Lemma categories_of_session session :
  categories (validateQuestionCoverage session)
  = List.map (fun e => (fst e, clampedCoverage session (fst e)))
             (Data.roleQuestionWeights (roleLevel session)).
Proof.
  unfold validateQuestionCoverage. cbn [categories].
  rewrite coverage_fold_categories; [reflexivity|].
  cbn [categoryCoverage List.map List.app]. apply role_table_keys_distinct.
Qed.

Lemma coverage_of_listed session c w :
  In (c, w) (Data.roleQuestionWeights (roleLevel session)) ->
  objGet (categories (validateQuestionCoverage session)) c
  = Some (clampedCoverage session c).
Proof.
  intros Hin. rewrite categories_of_session. apply objGet_In.
  - rewrite List.map_map. cbn [fst]. apply role_table_keys_distinct.
  - apply List.in_map_iff. exists (c, w). split; [reflexivity|exact Hin].
Qed.

Lemma expected_of_listed session c w :
  In (c, w) (Data.roleQuestionWeights (roleLevel session)) ->
  getExpectedQuestionsForCategory c (roleLevel session) = Qceiling (15 * w).
Proof.
  intros Hin. unfold getExpectedQuestionsForCategory.
  rewrite (objGet_In _ c w (role_table_keys_distinct _) Hin). reflexivity.
Qed.

Lemma weight_of_listed level c w :
  In (c, w) (Data.roleQuestionWeights level) -> 0 <= w.
Proof.
  intros Hin. pose proof (role_weights_nonneg level) as Hall.
  rewrite List.Forall_forall in Hall. apply (Hall (c, w) Hin).
Qed.

Lemma clampedCoverage_le_1 session c : clampedCoverage session c <= 1.
Proof.
  unfold clampedCoverage. eapply Qle_trans; [apply Q.le_min_r|discriminate].
Qed.

Lemma ratio_lt (n : Z) (p : positive) (a b : Z) :
  (0 < b)%Z ->
  inject_Z n / inject_Z (Z.pos p) < inject_Z a / inject_Z b
  <-> (n * b < a * Z.pos p)%Z.
Proof.
  intros Hb. destruct b as [|b|b]; try lia.
  unfold Qlt, Qdiv, Qmult, Qinv, inject_Z. cbn. lia.
Qed.

(** a category is under-asked exactly when the role expects questions in
    it and its clamped coverage is below 1 *)
Lemma underAsked_coverage session c :
  underAsked session c
  <-> (0 < getExpectedQuestionsForCategory c (roleLevel session))%Z
      /\ clampedCoverage session c < 1.
Proof.
  unfold underAsked, clampedCoverage.
  set (n := Z.of_nat (countIn (getAskedQuestions session) c)).
  assert (Hn : (0 <= n)%Z) by (subst n; lia). clearbody n.
  destruct (getExpectedQuestionsForCategory c (roleLevel session)) as [|p|p];
    cbn [Z.ltb Z.compare].
  - split; [lia|]. intros [H _]. lia.
  - rewrite Q.min_lt_iff.
    change 1 with (inject_Z 1 / inject_Z 1) at 1.
    rewrite (ratio_lt n p 1 1) by lia. split.
    + intros H. split; [lia|]. left. lia.
    + intros [_ [H|H]]; [lia|revert H; vm_compute; discriminate].
  - split; [lia|]. intros [H _]. lia.
Qed.

(** a category is reported missing exactly when less than half of the
    questions expected in it were asked, or none is expected *)
Lemma missing_coverage session c :
  clampedCoverage session c < 0.5
  <-> (getExpectedQuestionsForCategory c (roleLevel session) <= 0
       \/ 2 * Z.of_nat (countIn (getAskedQuestions session) c)
          < getExpectedQuestionsForCategory c (roleLevel session))%Z.
Proof.
  unfold clampedCoverage.
  set (n := Z.of_nat (countIn (getAskedQuestions session) c)).
  assert (Hn : (0 <= n)%Z) by (subst n; lia). clearbody n.
  destruct (getExpectedQuestionsForCategory c (roleLevel session)) as [|p|p];
    cbn [Z.ltb Z.compare].
  - split; [intros _; left; lia|]. intros _. vm_compute. reflexivity.
  - rewrite Q.min_lt_iff.
    change 0.5 with (inject_Z 5 / inject_Z 10) at 1.
    rewrite (ratio_lt n p 5 10) by lia. split.
    + intros [H|H]; [right; lia|revert H; vm_compute; discriminate].
    + intros [H|H]; [lia|left; lia].
  - split; [intros _; left; lia|]. intros _. vm_compute. reflexivity.
Qed.

Lemma Qltb_lt a b : Qltb a b = true <-> a < b.
Proof.
  unfold Qltb. rewrite negb_true_iff. split.
  - intros H. apply Qnot_le_lt. intros Hle. apply Qle_bool_iff in Hle. congruence.
  - intros H. destruct (Qle_bool b a) eqn:E; [|reflexivity].
    apply Qle_bool_iff in E. exfalso. apply (Qlt_irrefl a).
    eapply Qlt_le_trans; eassumption.
Qed.

Lemma priority_of_listed session c w :
  In (c, w) (Data.roleQuestionWeights (roleLevel session)) ->
  priorityOf (validateQuestionCoverage session) c w
  = w * (1 - clampedCoverage session c).
Proof.
  intros Hin. unfold priorityOf. rewrite (coverage_of_listed session c w Hin).
  reflexivity.
Qed.

Lemma expected_positive session c w :
  In (c, w) (Data.roleQuestionWeights (roleLevel session)) -> 0 < w ->
  (0 < getExpectedQuestionsForCategory c (roleLevel session))%Z.
Proof.
  intros Hin Hw. rewrite (expected_of_listed session c w Hin).
  rewrite Zlt_Qlt. eapply Qlt_le_trans; [|apply Qle_ceiling].
  change (inject_Z 0) with 0. lra.
Qed.

(** X8.  As long as some category with a positive role weight has been asked
    fewer questions than the role expects of it, the category chosen next
    is such a category: it has a positive weight and is itself short of its
    expected number of questions. *)
Theorem next_category_is_weighted_and_under_asked session cat :
  selectNextCategory session (validateQuestionCoverage session) = Ok cat ->
  (exists c w, In (c, w) (Data.roleQuestionWeights (roleLevel session))
               /\ 0 < w /\ underAsked session c) ->
  exists w, In (cat, w) (Data.roleQuestionWeights (roleLevel session))
            /\ 0 < w /\ underAsked session cat.
Proof.
  intros Hsel (c0 & w0 & Hin0 & Hw0 & Hunder0).
  destruct (selected_category_is_maximal _ _ _ Hsel) as (w & Hin & Hmax).
  specialize (Hmax c0 w0 Hin0).
  rewrite (priority_of_listed session c0 w0 Hin0) in Hmax.
  rewrite (priority_of_listed session cat w Hin) in Hmax.
  apply underAsked_coverage in Hunder0 as [_ Hc0].
  pose proof (weight_of_listed _ _ _ Hin) as Hw.
  pose proof (clampedCoverage_le_1 session cat) as Hcat.
  assert (Hpos : 0 < w0 * (1 - clampedCoverage session c0)).
  { apply Qmult_lt_0_compat; [exact Hw0|lra]. }
  assert (Hprod : 0 < w * (1 - clampedCoverage session cat)) by lra.
  assert (Hw' : 0 < w).
  { destruct (Qlt_le_dec 0 w) as [|Hle]; [assumption|].
    assert (Hz : w == 0) by lra. rewrite Hz, Qmult_0_l in Hprod.
    exfalso. apply (Qlt_irrefl 0). exact Hprod. }
  assert (Hc : clampedCoverage session cat < 1).
  { destruct (Qlt_le_dec (clampedCoverage session cat) 1) as [|Hle]; [assumption|].
    assert (Hz : 1 - clampedCoverage session cat == 0) by lra.
    rewrite Hz, Qmult_0_r in Hprod.
    exfalso. apply (Qlt_irrefl 0). exact Hprod. }
  exists w. split; [exact Hin|]. split; [exact Hw'|].
  apply underAsked_coverage. split; [|exact Hc].
  eapply expected_positive; eassumption.
Qed.

(** X9.  Once no category with a positive role weight is short of its
    expected number of questions, every priority is 0 and the stable sort
    leaves the table in its order: the category chosen next is
    basic formulas, for every role level. *)
Theorem covered_session_returns_to_basic_formulas session :
  (forall c w, In (c, w) (Data.roleQuestionWeights (roleLevel session)) ->
               0 < w -> ~ underAsked session c) ->
  selectNextCategory session (validateQuestionCoverage session) = Ok BASIC_FORMULAS.
Proof.
  intros Hcovered.
  assert (Hzero : forall c w,
             In (c, w) (Data.roleQuestionWeights (roleLevel session)) ->
             w * (1 - default 0 (objGet (categories (validateQuestionCoverage session)) c))
             == 0).
  { intros c w Hin. rewrite (coverage_of_listed session c w Hin). cbn [default].
    unfold Datatypes.id. cbn [from_option].
    pose proof (weight_of_listed _ _ _ Hin) as Hw.
    destruct (Qlt_le_dec 0 w) as [Hpos|Hle].
    - assert (Hfull : 1 <= clampedCoverage session c).
      { apply Qnot_lt_le. intros Hlt. apply (Hcovered c w Hin Hpos).
        apply underAsked_coverage. split; [|exact Hlt].
        eapply expected_positive; eassumption. }
      pose proof (clampedCoverage_le_1 session c) as Hle1.
      assert (Hz : 1 - clampedCoverage session c == 0) by lra.
      rewrite Hz. apply Qmult_0_r.
    - assert (Hz : w == 0) by lra. rewrite Hz. apply Qmult_0_l. }
  unfold selectNextCategory.
  rewrite stableSort_unchanged.
  - destruct (roleLevel session); reflexivity.
  - intros a b Ha Hb.
    apply List.in_map_iff in Ha as ([ca wa] & <- & Ha).
    apply List.in_map_iff in Hb as ([cb wb] & <- & Hb).
    cbn [snd]. apply comparator_le.
    rewrite (Hzero ca wa Ha), (Hzero cb wb Hb). apply Qle_refl.
Qed.

(** X10.  A category is reported in [missingAreas] exactly when it is a
    category of the role table of which fewer than half of the expected
    questions were asked, or of which the role expects none: a category with
    role weight 0 is always reported missing. *)
Theorem missingAreas_characterised session c :
  In c (missingAreas (validateQuestionCoverage session))
  <-> exists w,
        In (c, w) (Data.roleQuestionWeights (roleLevel session))
        /\ (getExpectedQuestionsForCategory c (roleLevel session) <= 0
            \/ 2 * Z.of_nat (countIn (getAskedQuestions session) c)
               < getExpectedQuestionsForCategory c (roleLevel session))%Z.
Proof.
  change (missingAreas (validateQuestionCoverage session))
    with (List.map fst
            (List.filter (fun entry => Qltb (snd entry) 0.5)
                         (categories (validateQuestionCoverage session)))).
  rewrite categories_of_session. split.
  - intros Hin. apply List.in_map_iff in Hin as ([c' v] & Heq & Hin).
    cbn in Heq. subst c'. apply List.filter_In in Hin as [Hin Hlt].
    apply List.in_map_iff in Hin as ([c' w] & [= -> <-] & Hin).
    exists w. split; [exact Hin|]. apply missing_coverage, Qltb_lt. exact Hlt.
  - intros (w & Hin & Hfew). apply List.in_map_iff.
    exists (c, clampedCoverage session c). split; [reflexivity|].
    apply List.filter_In. split.
    + apply List.in_map_iff. exists (c, w). split; [reflexivity|exact Hin].
    + apply Qltb_lt, missing_coverage. exact Hfew.
Qed.

End CategorySelection.

Lemma selectNextCategory_maximises_priority_witness :
  exists w,
    In (BASIC_FORMULAS, w) (Data.roleQuestionWeights (roleLevel Fixtures.oneAsked))
    /\ forall c' w',
         In (c', w') (Data.roleQuestionWeights (roleLevel Fixtures.oneAsked)) ->
         (priorityOf (Questions.validateQuestionCoverage Fixtures.oneAsked) c' w'
          <= priorityOf (Questions.validateQuestionCoverage Fixtures.oneAsked)
               BASIC_FORMULAS w)%Q.
Proof.
  apply (selectNextCategory_maximises_priority Fixtures.oneAsked
           (Questions.validateQuestionCoverage Fixtures.oneAsked) BASIC_FORMULAS).
  vm_compute. reflexivity.
Defined.

Lemma next_category_is_weighted_and_under_asked_witness :
  exists w,
    In (BASIC_FORMULAS, w) (Data.roleQuestionWeights (roleLevel Fixtures.oneAsked))
    /\ (0 < w)%Q /\ underAsked Fixtures.oneAsked BASIC_FORMULAS.
Proof.
  apply (next_category_is_weighted_and_under_asked Fixtures.oneAsked BASIC_FORMULAS).
  - vm_compute. reflexivity.
  - exists PIVOT_TABLES, 0.1%Q. split.
    + right. right. right. left. reflexivity.
    + split; vm_compute; reflexivity.
Defined.

Lemma covered_session_returns_to_basic_formulas_witness :
  Questions.selectNextCategory MoreFixtures.coveredSession
    (Questions.validateQuestionCoverage MoreFixtures.coveredSession)
  = Ok BASIC_FORMULAS.
Proof.
  apply (covered_session_returns_to_basic_formulas MoreFixtures.coveredSession).
  intros c w Hin Hw.
  change (roleLevel MoreFixtures.coveredSession) with basic in Hin.
  cbn [Data.roleQuestionWeights In] in Hin.
  destruct Hin as [H|[H|[H|[H|[H|[H|[H|[]]]]]]]]; injection H as <- <-;
    vm_compute; intros; discriminate.
Defined.

(** *** The supply of questions and the follow-up questions *)

Section QuestionSupply.

Import Questions.
Local Open Scope Q_scope.

Variable Math_random : nat -> Q.
Variable uuidv4 : nat -> string.

(** [Math.random()] returns a number in [0,1) *)
Hypothesis Math_random_range : forall n, 0 <= Math_random n /\ Math_random n < 1.

Lemma mapExcel_fresh bs c q :
  In q (fst (mapGen (mapExcelQuestionToQuestion uuidv4) bs c)) ->
  followUpTriggers q = []
  /\ exists n, (uuidsIssued c <= n)%nat /\ id q = uuidv4 n.
Proof.
  revert c. induction bs as [|b bs IH]; intros c; cbn [mapGen].
  - intros [].
  - unfold mapExcelQuestionToQuestion at 1. unfold uuid. cbv beta iota zeta.
    match goal with
    | |- context [mapGen ?f bs ?c1] =>
        specialize (IH c1); destruct (mapGen f bs c1) as [qs c2]
    end.
    cbn [fst]. intros [<-|Hin].
    + cbn. split; [reflexivity|]. exists (uuidsIssued c). split; [lia|reflexivity].
    + destruct (IH Hin) as (Hno & n & Hn & Hid). split; [exact Hno|].
      exists n. cbn in Hn. split; [lia|exact Hid].
Qed.

Lemma mapExcel_counter bs c :
  (uuidsIssued c
   <= uuidsIssued (snd (mapGen (mapExcelQuestionToQuestion uuidv4) bs c)))%nat.
Proof.
  revert c. induction bs as [|b bs IH]; intros c; cbn [mapGen]; [cbn; lia|].
  unfold mapExcelQuestionToQuestion at 1. unfold uuid. cbv beta iota zeta.
  match goal with
  | |- context [mapGen ?f bs ?c1] =>
      specialize (IH c1); destruct (mapGen f bs c1) as [qs c2]
  end.
  cbn in *. lia.
Qed.

Lemma getQuestionScores_counter session questions c :
  uuidsIssued (snd (getQuestionScores Math_random session questions c))
  = uuidsIssued c.
Proof.
  unfold getQuestionScores. revert c.
  induction questions as [|q qs IH]; intros c; cbn [mapGen]; [reflexivity|].
  unfold random at 1. cbv beta iota zeta.
  match goal with
  | |- context [mapGen ?f qs ?c1] =>
      specialize (IH c1); destruct (mapGen f qs c1) as [rs c2]
  end.
  cbn in *. exact IH.
Qed.

Lemma adaptDifficulty_counter session cat c :
  uuidsIssued (snd (adaptDifficulty Math_random session cat c)) = uuidsIssued c.
Proof.
  unfold adaptDifficulty.
  match goal with |- context [(?n =? 0)%nat] => destruct (n =? 0)%nat end;
    [reflexivity|].
  match goal with
  | |- context [getQuestionScores ?r ?s ?qs c] =>
      pose proof (getQuestionScores_counter s qs c) as Hc;
      destruct (getQuestionScores r s qs c) as [scores c']
  end.
  exact Hc.
Qed.

Lemma getAvailableQuestions_counter table session cat diff c :
  (uuidsIssued c
   <= uuidsIssued (snd (getAvailableQuestions uuidv4 table session cat diff c)))%nat.
Proof.
  unfold getAvailableQuestions.
  match goal with |- context [(0 <? ?n)%nat] => destruct (0 <? n)%nat end;
    [cbn; lia|].
  match goal with
  | |- context [mapGen ?f ?bs c] =>
      pose proof (mapExcel_counter bs c) as Hc; destruct (mapGen f bs c) as [qs c']
  end.
  exact Hc.
Qed.

Lemma getAvailableQuestions_no_followups table session cat diff c q :
  In q (fst (getAvailableQuestions uuidv4 table session cat diff c)) ->
  followUpTriggers q = [].
Proof.
  unfold getAvailableQuestions.
  match goal with |- context [(0 <? ?n)%nat] => destruct (0 <? n)%nat end.
  - cbn [fst]. intros Hin. apply List.in_map_iff in Hin as (d & <- & _).
    reflexivity.
  - match goal with
    | |- context [mapGen ?f ?bs c] =>
        pose proof (mapExcel_fresh bs c q) as Hmap;
        destruct (mapGen f bs c) as [qs c']
    end.
    cbn [fst] in *. intros Hin. apply List.filter_In in Hin as (Hin & _).
    apply Hmap. exact Hin.
Qed.

Lemma getFallbackQuestions_no_followups session c q :
  In q (fst (getFallbackQuestions uuidv4 session c)) -> followUpTriggers q = [].
Proof.
  unfold getFallbackQuestions.
  pose proof (mapExcel_fresh Data.excelQuestions c q) as Hmap.
  destruct (mapGen (mapExcelQuestionToQuestion uuidv4) Data.excelQuestions c)
    as [qs c'].
  cbn [fst] in *. intros Hin. apply List.filter_In in Hin as (Hin & _).
  apply Hmap. exact Hin.
Qed.

(** with identifiers that are new to the session, the fallback search
    returns the whole static bank *)
Lemma getFallbackQuestions_nonempty session c :
  (forall n, (uuidsIssued c <= n)%nat ->
             ~ In (uuidv4 n) (List.map id (getAskedQuestions session))) ->
  fst (getFallbackQuestions uuidv4 session c) <> [].
Proof.
  intros Hfresh. unfold getFallbackQuestions.
  pose proof (mapExcel_fresh Data.excelQuestions c) as Hmap.
  pose proof (mapGen_length (mapExcelQuestionToQuestion uuidv4)
                Data.excelQuestions c) as Hlen.
  destruct (mapGen (mapExcelQuestionToQuestion uuidv4) Data.excelQuestions c)
    as [qs c'].
  cbn [fst] in *. destruct qs as [|q qs]; [discriminate Hlen|].
  cbn [List.filter].
  assert (Hq : notAsked (List.map id (getAskedQuestions session)) q = true).
  { apply notAsked_spec. destruct (Hmap q) as (_ & n & Hn & Hid); [left; reflexivity|].
    rewrite Hid. apply Hfresh. exact Hn. }
  rewrite Hq. discriminate.
Qed.

Lemma at_index_In {A} (l : list A) i x : at_index l i = Some x -> In x l.
Proof.
  unfold at_index. destruct (i <? 0)%Z; [discriminate|].
  apply List.nth_error_In.
Qed.

Lemma selectQuestion_Some questions c q c' :
  selectQuestion Math_random questions c = (Ok (Some q), c') -> In q questions.
Proof.
  unfold selectQuestion. destruct (List.length questions =? 0)%nat; [discriminate|].
  unfold random. intros [= H _]. eapply at_index_In. exact H.
Qed.

Lemma engine_supplies_a_question table session c :
  (forall n, (uuidsIssued c <= n)%nat ->
             ~ In (uuidv4 n) (List.map id (getAskedQuestions session))) ->
  exists q c', getNextQuestion Math_random uuidv4 table session c = (Ok (Some q), c').
Proof.
  intros Hfresh.
  destruct (selectNextCategory_ok session (validateQuestionCoverage session))
    as [cat Hcat].
  unfold getNextQuestion. rewrite Hcat.
  pose proof (adaptDifficulty_counter session cat c) as Hc1.
  destruct (adaptDifficulty Math_random session cat c) as [diff c1].
  pose proof (getAvailableQuestions_counter table session cat diff c1) as Hc2.
  destruct (getAvailableQuestions uuidv4 table session cat diff c1)
    as [available c2].
  cbn [snd] in Hc1, Hc2.
  destruct (List.length available =? 0)%nat eqn:Ha.
  - pose proof (getFallbackQuestions_nonempty session c2) as Hne.
    destruct (getFallbackQuestions uuidv4 session c2) as [fallback c3].
    cbn [fst] in Hne.
    assert (Hfb : fallback <> []).
    { apply Hne. intros n Hn. apply Hfresh. lia. }
    destruct (List.length fallback =? 0)%nat eqn:Hf.
    + apply length_zero_iff_nil in Hf. contradiction.
    + destruct (selectQuestion_in Math_random Math_random_range fallback c3 Hfb)
        as (q & c4 & Hsel & _).
      exists q, c4. exact Hsel.
  - assert (Hne : available <> []).
    { intros ->. discriminate Ha. }
    destruct (selectQuestion_in Math_random Math_random_range available c2 Hne)
      as (q & c4 & Hsel & _).
    rewrite Hsel. exists q, c4. reflexivity.
Qed.

Lemma engine_question_has_no_followups table session c q c' :
  getNextQuestion Math_random uuidv4 table session c = (Ok (Some q), c') ->
  followUpTriggers q = [].
Proof.
  unfold getNextQuestion.
  destruct (selectNextCategory session (validateQuestionCoverage session))
    as [cat|m]; [|discriminate].
  destruct (adaptDifficulty Math_random session cat c) as [diff c1].
  pose proof (getAvailableQuestions_no_followups table session cat diff c1) as Ha.
  destruct (getAvailableQuestions uuidv4 table session cat diff c1)
    as [available c2].
  cbn [fst] in Ha.
  destruct (List.length available =? 0)%nat.
  - pose proof (getFallbackQuestions_no_followups session c2) as Hf.
    destruct (getFallbackQuestions uuidv4 session c2) as [fallback c3].
    cbn [fst] in Hf.
    destruct (List.length fallback =? 0)%nat; [discriminate|].
    intros Hsel. apply Hf. eapply selectQuestion_Some. exact Hsel.
  - destruct (selectQuestion Math_random available c2) as [[[q'|]|m] c3] eqn:Hsel;
      try discriminate.
    intros [= -> _]. apply Ha. eapply selectQuestion_Some. exact Hsel.
Qed.

Lemma engine_never_undefined table session c :
  fst (getNextQuestion Math_random uuidv4 table session c) <> Ok None.
Proof.
  unfold getNextQuestion.
  destruct (selectNextCategory session (validateQuestionCoverage session))
    as [cat|m]; [|discriminate].
  destruct (adaptDifficulty Math_random session cat c) as [diff c1].
  destruct (getAvailableQuestions uuidv4 table session cat diff c1)
    as [available c2].
  destruct (List.length available =? 0)%nat.
  - destruct (getFallbackQuestions uuidv4 session c2) as [fallback c3].
    destruct (List.length fallback =? 0)%nat eqn:Hf; [discriminate|].
    assert (Hfb : fallback <> []).
    { intros ->. discriminate Hf. }
    destruct (selectQuestion_in Math_random Math_random_range fallback c3 Hfb)
      as (q & c4 & Hsel & _).
    rewrite Hsel. discriminate.
  - destruct (selectQuestion Math_random available c2) as [[[q'|]|m] c3];
      discriminate.
Qed.

(** X11.  The orchestrator always has a next question for a stored session:
    as long as [Math.random()] stays in [0,1) and the identifiers still to
    be generated are not identifiers of questions already asked, it returns
    a step that continues the interview, whatever was asked before and
    whatever the question table holds.  The question engine cannot run out
    of questions, since the static bank is handed out again under new
    identifiers. *)
Theorem orchestrator_always_has_a_next_question db i session c :
  InterviewSessionRepository.findById db i = Ok (Some session) ->
  (forall n, (uuidsIssued c <= n)%nat ->
             ~ In (uuidv4 n) (List.map id (getAskedQuestions session))) ->
  exists q c',
    OrchestratorSteps.getNextQuestion Math_random uuidv4 db i c
    = (Ok (Some {| stepQuestion := Some q;
                   stepEvaluation := None;
                   nextAction := continue;
                   stepMessage := "Next question ready" |}), c')
    /\ fst (getNextQuestion Math_random uuidv4 (excelQuestionTable db) session c)
       = Ok (Some q).
Proof.
  intros Hfind Hfresh. unfold OrchestratorSteps.getNextQuestion. rewrite Hfind.
  destruct (engine_supplies_a_question (excelQuestionTable db) session c Hfresh)
    as (q & c' & Hq).
  rewrite Hq. exists q, c'. split; reflexivity.
Qed.

(** X12.  The orchestrator never answers "interview complete": for every
    database, session identifier and state of the generators, the result of
    [getNextQuestion] is a step or an error, never [null]. *)
Theorem orchestrator_never_reports_completion db i c :
  fst (OrchestratorSteps.getNextQuestion Math_random uuidv4 db i c) <> Ok None.
Proof.
  unfold OrchestratorSteps.getNextQuestion.
  destruct (InterviewSessionRepository.findById db i) as [[session|]|m];
    try discriminate.
  pose proof (engine_never_undefined (excelQuestionTable db) session c) as Hne.
  destruct (getNextQuestion Math_random uuidv4 (excelQuestionTable db) session c)
    as [[[q|]|m] c']; cbn [fst] in *; congruence.
Qed.

(** X13.  A question selected by the engine has no follow-up trigger, so
    asking the engine for a follow-up to it fails with
    "No follow-up question needed", whatever the answer and its score. *)
Theorem engine_questions_are_never_followed_up table session c q c' :
  getNextQuestion Math_random uuidv4 table session c = (Ok (Some q), c') ->
  forall uuids response score c'',
    FollowUp.generateFollowUp uuids q response score c''
    = (Err "No follow-up question needed", c'').
Proof.
  intros Hq uuids response score c''.
  unfold FollowUp.generateFollowUp.
  rewrite (engine_question_has_no_followups _ _ _ _ _ Hq). reflexivity.
Qed.

(** X14.  [generateFollowUp] produces a question exactly when one of the
    triggers of the previous question fires.  The follow-up then carries the
    next generated identifier and the category, difficulty and rubric of
    the previous question, has no expected answer pattern, takes its text
    from the template of a trigger that fires, and is never followed up
    itself. *)
Theorem generateFollowUp_characterised previousQ response score c :
  let result := fst (FollowUp.generateFollowUp uuidv4 previousQ response score c) in
  (isOk result = true
   <-> exists t, In t (followUpTriggers previousQ)
                 /\ FollowUp.evaluateTrigger (trigger t) score response = true)
  /\ match result with
     | Err m => m = "No follow-up question needed"
     | Ok q =>
         id q = uuidv4 (uuidsIssued c)
         /\ category q = category previousQ
         /\ difficulty q = difficulty previousQ
         /\ evaluationCriteria q = evaluationCriteria previousQ
         /\ expectedAnswerPatterns q = []
         /\ (exists t, In t (followUpTriggers previousQ)
                       /\ FollowUp.evaluateTrigger (trigger t) score response = true
                       /\ text q = FollowUp.processQuestionTemplate
                                     (questionTemplate t) response)
         /\ forall uuids response' score' c',
              FollowUp.generateFollowUp uuids q response' score' c'
              = (Err "No follow-up question needed", c')
     end.
Proof.
  unfold FollowUp.generateFollowUp.
  destruct (List.find (fun t => FollowUp.evaluateTrigger (trigger t) score response)
                      (followUpTriggers previousQ)) as [t|] eqn:Hfind.
  - apply List.find_some in Hfind as [Hin Hfires].
    unfold uuid. cbn. split.
    + split; [|reflexivity]. intros _. exists t. split; assumption.
    + do 5 (split; [reflexivity|]). split.
      * exists t. repeat split; assumption.
      * reflexivity.
  - cbn. split; [|reflexivity]. split; [discriminate|].
    intros (t & Hin & Hfires).
    pose proof (List.find_none _ _ Hfind t Hin) as Hno. cbn in Hno. congruence.
Qed.

End QuestionSupply.

Lemma orchestrator_always_has_a_next_question_witness :
  (forall n, (0 <= Fixtures.highDraws n /\ Fixtures.highDraws n < 1)%Q)
  /\ exists q c',
       OrchestratorSteps.getNextQuestion Fixtures.highDraws Fixtures.uuids
         Fixtures.activeDb "session-1" Fixtures.start
       = (Ok (Some {| stepQuestion := Some q;
                      stepEvaluation := None;
                      nextAction := continue;
                      stepMessage := "Next question ready" |}), c')
       /\ fst (Questions.getNextQuestion Fixtures.highDraws Fixtures.uuids
                 (excelQuestionTable Fixtures.activeDb) Fixtures.activeSession
                 Fixtures.start)
          = Ok (Some q).
Proof.
  assert (Hrange : forall n, (0 <= Fixtures.highDraws n
                              /\ Fixtures.highDraws n < 1)%Q).
  { intros n. split; [discriminate|reflexivity]. }
  split; [exact Hrange|].
  apply (orchestrator_always_has_a_next_question Fixtures.highDraws Fixtures.uuids
           Hrange Fixtures.activeDb "session-1" Fixtures.activeSession
           Fixtures.start).
  - reflexivity.
  - intros n _ [H|[]]. unfold Fixtures.uuids in H. cbn in H. discriminate H.
Defined.

Lemma orchestrator_never_reports_completion_witness :
  (forall n, (0 <= Fixtures.highDraws n /\ Fixtures.highDraws n < 1)%Q)
  /\ fst (OrchestratorSteps.getNextQuestion Fixtures.highDraws Fixtures.uuids
            Fixtures.activeDb "session-1" Fixtures.start) <> Ok None.
Proof.
  assert (Hrange : forall n, (0 <= Fixtures.highDraws n
                              /\ Fixtures.highDraws n < 1)%Q).
  { intros n. split; [discriminate|reflexivity]. }
  split; [exact Hrange|].
  exact (orchestrator_never_reports_completion Fixtures.highDraws Fixtures.uuids
           Hrange Fixtures.activeDb "session-1" Fixtures.start).
Defined.

Lemma engine_questions_are_never_followed_up_witness :
  FollowUp.generateFollowUp Fixtures.uuids
    (Fixtures.asked "uuid-7" Data.bankQuestion7) "I am not sure" 20%Q
    {| Questions.randomsDrawn := 2; Questions.uuidsIssued := 8 |}
  = (Err "No follow-up question needed",
     {| Questions.randomsDrawn := 2; Questions.uuidsIssued := 8 |}).
Proof.
  apply (engine_questions_are_never_followed_up Fixtures.highDraws Fixtures.uuids
           [] Fixtures.oneAsked Fixtures.start
           (Fixtures.asked "uuid-7" Data.bankQuestion7)
           {| Questions.randomsDrawn := 2; Questions.uuidsIssued := 8 |}).
  vm_compute. reflexivity.
Defined.

(** *** The text of a follow-up question *)

Section FollowUpText.

Import FollowUp.

Lemma includes_cons s p c :
  JS.includes (String c s) p = false ->
  JS.startsWith (String c s) p = false /\ JS.includes s p = false.
Proof.
  cbn [JS.includes]. intros H. apply orb_false_iff in H. exact H.
Qed.

Lemma startsWith_app p s : JS.startsWith (p +:+ s) p = true.
Proof.
  induction p as [|c p IH].
  - destruct s; reflexivity.
  - change (String c p +:+ s) with (String c (p +:+ s)).
    cbn [JS.startsWith]. rewrite Ascii.eqb_refl. exact IH.
Qed.

Lemma replaceFrom_no_placeholder before rest response :
  JS.includes rest placeholder = false ->
  replaceFrom 0 before rest response = rest.
Proof.
  revert before. induction rest as [|c rest IH]; intros before Hno; [reflexivity|].
  apply includes_cons in Hno as [Hstart Hrest].
  cbn [replaceFrom]. rewrite Hstart. f_equal. apply IH. exact Hrest.
Qed.

Lemma expandReplacement_other matched before after c rest :
  c <> "$"%char ->
  expandReplacement matched before after (String c rest)
  = String c (expandReplacement matched before after rest).
Proof.
  intros Hc.
  destruct c as [[] [] [] [] [] [] [] []]; try reflexivity.
  exfalso. apply Hc. reflexivity.
Qed.

Lemma expandReplacement_verbatim matched before after response :
  JS.includes response "$" = false ->
  expandReplacement matched before after response = response.
Proof.
  induction response as [|c response IH]; intros Hno; [reflexivity|].
  apply includes_cons in Hno as [Hstart Hrest].
  assert (Hc : c <> "$"%char).
  { intros ->. destruct response; cbn in Hstart; discriminate Hstart. }
  rewrite expandReplacement_other by exact Hc. f_equal. apply IH. exact Hrest.
Qed.

Lemma replaceFrom_forgets_before skip before before' rest response :
  JS.includes response "$" = false ->
  replaceFrom skip before rest response = replaceFrom skip before' rest response.
Proof.
  intros Hno. revert skip before before'.
  induction rest as [|c rest IH]; intros skip before before'; [reflexivity|].
  cbn [replaceFrom]. destruct skip as [|k].
  - destruct (JS.startsWith (String c rest) placeholder).
    + rewrite !(expandReplacement_verbatim _ _ _ _ Hno). f_equal. apply IH.
    + f_equal. apply IH.
  - apply IH.
Qed.

Lemma replaceFrom_skips s before before' rest response :
  JS.includes response "$" = false ->
  replaceFrom (String.length s) before (s +:+ rest) response
  = replaceFrom 0 before' rest response.
Proof.
  intros Hno. revert before.
  induction s as [|c s IH]; intros before.
  - apply replaceFrom_forgets_before. exact Hno.
  - change (String c s +:+ rest) with (String c (s +:+ rest)).
    cbn [replaceFrom String.length]. apply IH.
Qed.

(** X15.  A template in which the placeholder [{response}] does not occur
    is the text of the follow-up question as it stands. *)
Theorem template_without_placeholder_is_kept template response :
  JS.includes template placeholder = false ->
  processQuestionTemplate template response = template.
Proof. apply replaceFrom_no_placeholder. Qed.

(** X16.  An answer that holds no dollar sign is put into the template as
    it is: the text up to the first placeholder is kept, the placeholder
    becomes the answer, and the rest of the template is treated the same
    way. *)
Theorem answer_without_dollar_is_inserted_verbatim pre post response :
  JS.includes response "$" = false ->
  JS.includes pre "{" = false ->
  processQuestionTemplate (pre +:+ placeholder +:+ post) response
  = pre +:+ response +:+ processQuestionTemplate post response.
Proof.
  intros Hno Hpre. unfold processQuestionTemplate.
  generalize EmptyString at 1. revert Hpre.
  induction pre as [|c pre IH]; intros Hpre before.
  - change (EmptyString +:+ placeholder +:+ post)
      with (String "{" ("response}" +:+ post)).
    assert (Hs : JS.startsWith (String "{" ("response}" +:+ post)) placeholder
                 = true) by apply (startsWith_app placeholder post).
    cbn [replaceFrom]. rewrite Hs.
    rewrite (expandReplacement_verbatim _ _ _ _ Hno).
    change (EmptyString +:+ response +:+ replaceFrom 0 EmptyString post response)
      with (response +:+ replaceFrom 0 EmptyString post response).
    f_equal.
    exact (replaceFrom_skips "response}" (before +:+ "{") EmptyString post
             response Hno).
  - apply includes_cons in Hpre as [Hstart Hrest].
    change (String c pre +:+ placeholder +:+ post)
      with (String c (pre +:+ placeholder +:+ post)).
    cbn [replaceFrom].
    assert (Hc : JS.startsWith (String c (pre +:+ placeholder +:+ post)) placeholder
                 = false).
    { unfold placeholder. cbn [JS.startsWith] in Hstart |- *.
      destruct (Ascii.eqb "{" c); [|reflexivity].
      destruct pre; discriminate Hstart. }
    rewrite Hc.
    change (String c pre +:+ response +:+ replaceFrom 0 EmptyString post response)
      with (String c (pre +:+ response +:+ replaceFrom 0 EmptyString post response)).
    f_equal. apply IH. exact Hrest.
Qed.

End FollowUpText.

Lemma template_without_placeholder_is_kept_witness :
  FollowUp.processQuestionTemplate "Can you give an example?" "=SUM(A1:A10)"
  = "Can you give an example?".
Proof.
  apply (template_without_placeholder_is_kept "Can you give an example?"
           "=SUM(A1:A10)").
  vm_compute. reflexivity.
Defined.

Lemma answer_without_dollar_is_inserted_verbatim_witness :
  FollowUp.processQuestionTemplate
    ("You said " +:+ FollowUp.placeholder +:+ ". Why?") "=SUM(A1:A10)"
  = "You said " +:+ "=SUM(A1:A10)"
    +:+ FollowUp.processQuestionTemplate ". Why?" "=SUM(A1:A10)".
Proof.
  apply (answer_without_dollar_is_inserted_verbatim "You said " ". Why?"
           "=SUM(A1:A10)"); vm_compute; reflexivity.
Defined.

(** *** The triggers of a follow-up question *)

Section Triggers.

Import FollowUp.
Local Open Scope Q_scope.










End Triggers.


(** *** More of the life of a session *)

Section Lifecycle.

Import InterviewSessionRepository InterviewOrchestrator.
Local Open Scope Q_scope.

Lemma withSessions_same db : withSessions db (interviewSessions db) = db.
Proof. destruct db. reflexivity. Qed.

Lemma withSessions_twice db m m' :
  withSessions (withSessions db m) m' = withSessions db m'.
Proof. reflexivity. Qed.

(** X18.  Pausing an active session and resuming it gives back the
    database as it was before the pause: nothing but the status is touched
    on the way. *)
Theorem pause_then_resume_restores_the_database db i s :
  findById db i = Ok (Some s) ->
  status s = active ->
  exists db1 s1,
    pauseInterview db i = Ok (db1, s1)
    /\ status s1 = paused
    /\ resumeInterview db1 i = Ok (db, s).
Proof.
  intros Hfind Hactive. apply findById_Some in Hfind as [Hi Hs].
  unfold pauseInterview, pauseSession, resumeInterview, resumeSession.
  rewrite (update_found db i _ s Hi Hs).
  eexists. eexists. split; [reflexivity|]. split; [reflexivity|].
  erewrite update_found; [|exact Hi|cbn; apply lookup_insert_eq].
  rewrite withSessions_twice. cbn [interviewSessions withSessions].
  rewrite insert_insert_eq.
  assert (Hback : applyUpdate
                    (applyUpdate s
                       {| updStatus := Some paused; updCurrentQuestionIndex := None;
                          updConversationHistory := None; updSkillAssessment := None;
                          updEndTime := None; updMetadata := None |})
                    {| updStatus := Some active; updCurrentQuestionIndex := None;
                       updConversationHistory := None; updSkillAssessment := None;
                       updEndTime := None; updMetadata := None |} = s).
  { destruct s. cbn in Hactive. subst. reflexivity. }
  rewrite Hback, (insert_id _ _ _ Hs).
  pose proof (withSessions_same db) as Hdb. unfold withSessions in Hdb |- *.
  rewrite Hdb. reflexivity.
Qed.

(** X19.  Once an interview has been started for a candidate, a second
    start for the same candidate is rejected, whatever the role level, and
    the error names the session that was started first. *)
Theorem second_start_is_rejected db cand level newId now db' s' level' newId' now' :
  startInterview db cand level newId now = Ok (db', s') ->
  startInterview db' cand level' newId' now'
  = Err ("Candidate already has an active interview session: " +:+ newId).
Proof.
  intros Hstart. unfold startInterview in Hstart.
  apply create_inversion in Hstart as (Hc & Hcand & Hnone & Hnew & -> & ->).
  cbn [createCandidateId createRoleLevel createMetadata] in *.
  unfold startInterview, create, createSteps, validateRequired.
  cbn [createCandidateId createRoleLevel createMetadata].
  destruct (decide (cand = "")); [contradiction|]. cbn [bind].
  cbn [candidates withSessions]. destruct Hcand as [cnd ->].
  set (s1 := {| sessionId := newId; candidateId := cand; roleLevel := level;
                status := active; currentQuestionIndex := 0;
                conversationHistory := []; skillAssessment := zeroScores;
                startTime := now; endTime := None;
                sessionMetadata := default [] None |}).
  set (db1 := {| candidates := candidates db;
                 interviewSessions := <[newId := s1]> (interviewSessions db);
                 evaluationResults := evaluationResults db;
                 excelQuestionTable := excelQuestionTable db |}).
  assert (Hfound : exists x, findActiveByCandidateId db1 cand = Ok (Some x)
                             /\ sessionId x = newId).
  { unfold findActiveByCandidateId, validateId.
    destruct (decide (cand = "")); [contradiction|]. cbn [bind].
    match goal with |- context [List.find ?f ?l] =>
      destruct (List.find f l) as [x|] eqn:Hfind end.
    - exists x. split; [reflexivity|].
      apply List.find_some in Hfind as [Hin Hp].
      apply andb_prop in Hp as [Hp1 Hp2].
      apply bool_decide_eq_true in Hp1. apply bool_decide_eq_true in Hp2.
      destruct (listed_session db1 x Hin) as [j Hj]. cbn in Hj.
      apply lookup_insert_Some in Hj as [[_ <-]|[_ Hj]]; [reflexivity|].
      exfalso. apply Hnone. exists j, x. auto.
    - exfalso.
      assert (Hin : In s1 (List.map snd (map_to_list (interviewSessions db1)))).
      { apply (session_listed db1 newId s1). cbn. apply lookup_insert_eq. }
      pose proof (List.find_none _ _ Hfind s1 Hin) as Hp. cbn in Hp.
      rewrite !bool_decide_eq_true_2 in Hp by reflexivity. discriminate Hp. }
  change (withSessions db (<[newId := s1]> (interviewSessions db))) with db1.
  destruct Hfound as (x & -> & Hx). cbn [bind]. rewrite Hx. reflexivity.
Qed.

Lemma submitResponse_step db i answer now s :
  findById db i = Ok (Some s) ->
  exists db' s',
    submitResponse db i answer now = Ok db'
    /\ findById db' i = Ok (Some s')
    /\ conversationHistory s'
       = (conversationHistory s ++ [responseTurn s answer now])%list
    /\ currentQuestionIndex s' = (currentQuestionIndex s + 1)%Z
    /\ status s' = status s /\ skillAssessment s' = skillAssessment s.
Proof.
  intros Hfind. apply findById_Some in Hfind as [Hi Hs].
  rewrite (submitResponse_found db i answer now s Hi Hs).
  eexists. eexists. split; [reflexivity|]. split.
  - apply findById_Some. split; [exact Hi|]. cbn. apply lookup_insert_eq.
  - cbn. repeat split; reflexivity.
Qed.

(** X20.  Answers submitted one after the other are all recorded, in the
    order of their submission and after what the history already held: the
    k-th of them as a response turn that carries the question index it met.
    The question index grows by the number of answers; status and scores
    stay as they were. *)
Theorem answers_accumulate_in_order answers db i s :
  findById db i = Ok (Some s) ->
  exists db' s',
    submitResponses db i answers = Ok db'
    /\ findById db' i = Ok (Some s')
    /\ conversationHistory s'
       = (conversationHistory s
          ++ responseTurns (currentQuestionIndex s) answers)%list
    /\ currentQuestionIndex s'
       = (currentQuestionIndex s + Z.of_nat (List.length answers))%Z
    /\ status s' = status s /\ skillAssessment s' = skillAssessment s.
Proof.
  revert db s. induction answers as [|[answer now] answers IH]; intros db s Hfind.
  - exists db, s. cbn [submitResponses responseTurns List.length].
    rewrite List.app_nil_r, Z.add_0_r. repeat split; auto.
  - destruct (submitResponse_step db i answer now s Hfind)
      as (db1 & s1 & Hsub & Hfind1 & Hhist1 & Hidx1 & Hst1 & Hsk1).
    destruct (IH db1 s1 Hfind1)
      as (db' & s' & Hall & Hfind' & Hhist' & Hidx' & Hst' & Hsk').
    exists db', s'. cbn [submitResponses]. rewrite Hsub. cbn [bind].
    split; [exact Hall|]. split; [exact Hfind'|].
    split; [|split; [|split]].
    + rewrite Hhist', Hhist1, Hidx1, <- List.app_assoc. reflexivity.
    + rewrite Hidx', Hidx1. cbn [List.length]. lia.
    + congruence.
    + congruence.
Qed.

End Lifecycle.

Lemma pause_then_resume_restores_the_database_witness :
  exists db1 s1,
    InterviewOrchestrator.pauseInterview Fixtures.activeDb "session-1" = Ok (db1, s1)
    /\ status s1 = paused
    /\ InterviewOrchestrator.resumeInterview db1 "session-1"
       = Ok (Fixtures.activeDb, Fixtures.activeSession).
Proof.
  apply (pause_then_resume_restores_the_database Fixtures.activeDb "session-1"
           Fixtures.activeSession); reflexivity.
Defined.

Lemma second_start_is_rejected_witness :
  exists db' s',
    InterviewOrchestrator.startInterview Fixtures.pausedDb "cand-1" basic
      "session-2" 2000 = Ok (db', s')
    /\ InterviewOrchestrator.startInterview db' "cand-1" advanced "session-3" 3000
       = Err "Candidate already has an active interview session: session-2".
Proof.
  eexists. eexists. split; [vm_compute; reflexivity|].
  eapply (second_start_is_rejected Fixtures.pausedDb "cand-1" basic "session-2"
            2000 _ _ advanced "session-3" 3000).
  vm_compute. reflexivity.
Defined.

Lemma answers_accumulate_in_order_witness :
  exists db' s',
    submitResponses Fixtures.activeDb "session-1"
      [("=SUM(A1:A10)", 2000%Z); ("Use VLOOKUP", 3000%Z)] = Ok db'
    /\ InterviewSessionRepository.findById db' "session-1" = Ok (Some s')
    /\ conversationHistory s'
       = (conversationHistory Fixtures.activeSession
          ++ responseTurns (currentQuestionIndex Fixtures.activeSession)
               [("=SUM(A1:A10)", 2000%Z); ("Use VLOOKUP", 3000%Z)])%list
    /\ currentQuestionIndex s'
       = (currentQuestionIndex Fixtures.activeSession
          + Z.of_nat (List.length [("=SUM(A1:A10)", 2000%Z); ("Use VLOOKUP", 3000%Z)]))%Z
    /\ status s' = status Fixtures.activeSession
    /\ skillAssessment s' = skillAssessment Fixtures.activeSession.
Proof.
  apply (answers_accumulate_in_order
           [("=SUM(A1:A10)", 2000%Z); ("Use VLOOKUP", 3000%Z)]
           Fixtures.activeDb "session-1" Fixtures.activeSession).
  reflexivity.
Defined.

(** *** Housekeeping of the session table *)

Section Housekeeping.

Import InterviewSessionRepository SessionMaintenance.
Local Open Scope Q_scope.

Lemma map_after_fmap {A B C} (g : B -> C) (f : A -> B) (l : list A) :
  List.map g (f <$> l) = List.map (fun x => g (f x)) l.
Proof. induction l as [|a l IH]; cbn; [reflexivity|]. f_equal. exact IH. Qed.

Lemma sessionRows_fmap db (f : InterviewSession -> InterviewSession) :
  Permutation (sessionRows (withSessions db (f <$> interviewSessions db)))
              (List.map f (sessionRows db)).
Proof.
  unfold sessionRows. cbn [interviewSessions withSessions].
  rewrite (map_to_list_fmap f (interviewSessions db)).
  rewrite map_after_fmap, List.map_map. reflexivity.
Qed.

Lemma filter_length_permutation {A} (p : A -> bool) (l l' : list A) :
  Permutation l l' ->
  List.length (List.filter p l) = List.length (List.filter p l').
Proof.
  induction 1 as [|x l l' _ IH|x y l|l l' l'' _ IH1 _ IH2]; cbn [List.filter].
  - reflexivity.
  - destruct (p x); cbn [List.length]; congruence.
  - destruct (p x), (p y); reflexivity.
  - congruence.
Qed.

Lemma swept_active_count cutoffTime now (rows : list InterviewSession) :
  (List.length
     (List.filter (fun s => bool_decide (status s = active))
        (List.map
           (fun s => if isExpired cutoffTime s
                     then applyUpdate s
                            {| updStatus := Some completed;
                               updCurrentQuestionIndex := None;
                               updConversationHistory := None;
                               updSkillAssessment := None;
                               updEndTime := Some now; updMetadata := None |}
                     else s) rows))
   + List.length (List.filter (isExpired cutoffTime) rows))%nat
  = List.length (List.filter (fun s => bool_decide (status s = active)) rows).
Proof.
  induction rows as [|s rows IH]; [reflexivity|].
  cbn [List.map List.filter].
  destruct (isExpired cutoffTime s) eqn:Hexp.
  - unfold isExpired in Hexp. apply andb_prop in Hexp as [Hact _].
    apply bool_decide_eq_true in Hact.
    rewrite (bool_decide_eq_true_2 _ Hact).
    rewrite bool_decide_eq_false_2 by (cbn; discriminate).
    cbn [List.length]. lia.
  - destruct (decide (status s = active)) as [Hact|Hact].
    + rewrite (bool_decide_eq_true_2 _ Hact). cbn [List.length]. lia.
    + rewrite (bool_decide_eq_false_2 _ Hact). exact IH.
Qed.

(** X21.  The sweep of expired sessions completes exactly the active
    sessions started before the cut-off time: the number it returns is the
    number by which the count of active sessions drops, no active session
    older than the cut-off is left, a swept session gets the time of the
    sweep as end time and keeps its history, index and scores, and every
    other session is left as it is. *)
Theorem cleanup_completes_the_expired_sessions db maxAgeHours now :
  let cutoffTime :=
    truncate (inject_Z now - default 24 maxAgeHours * 60 * 60 * 1000) in
  let db' := fst (cleanupExpiredSessions db maxAgeHours now) in
  let count := snd (cleanupExpiredSessions db maxAgeHours now) in
  (getActiveSessionsCount db' = getActiveSessionsCount db - count)%Z
  /\ (forall i s', interviewSessions db' !! i = Some s' -> status s' = active ->
                   (cutoffTime <= startTime s')%Z)
  /\ (forall i, interviewSessions db' !! i = None
                <-> interviewSessions db !! i = None)
  /\ (forall i s, interviewSessions db !! i = Some s ->
        exists s', interviewSessions db' !! i = Some s'
                   /\ if isExpired cutoffTime s
                      then status s' = completed /\ endTime s' = Some now
                           /\ conversationHistory s' = conversationHistory s
                           /\ currentQuestionIndex s' = currentQuestionIndex s
                           /\ skillAssessment s' = skillAssessment s
                      else s' = s).
Proof.
  intros cutoffTime db' count. subst db' count. unfold cleanupExpiredSessions.
  fold cutoffTime. cbn [fst snd]. split; [|split; [|split]].
  - unfold getActiveSessionsCount.
    rewrite (filter_length_permutation _ _ _ (sessionRows_fmap db _)).
    pose proof (swept_active_count cutoffTime now (sessionRows db)) as Hcount.
    lia.
  - intros i s' Hs' Hactive. cbn [interviewSessions withSessions] in Hs'.
    rewrite lookup_fmap in Hs'.
    destruct (interviewSessions db !! i) as [s|]; [|discriminate Hs'].
    cbn in Hs'. injection Hs' as Hs'. unfold isExpired in Hs'.
    destruct (bool_decide (status s = active)) eqn:Hact; cbn [andb] in Hs'.
    + destruct (startTime s <? cutoffTime)%Z eqn:Hlt.
      * subst s'. cbn in Hactive. discriminate Hactive.
      * subst s'. apply Z.ltb_ge in Hlt. exact Hlt.
    + subst s'. apply bool_decide_eq_false in Hact. contradiction.
  - intros i. cbn [interviewSessions withSessions]. rewrite lookup_fmap.
    destruct (interviewSessions db !! i); cbn; split; congruence.
  - intros i s Hs. cbn [interviewSessions withSessions]. rewrite lookup_fmap, Hs.
    cbn [fmap option_fmap option_map]. eexists. split; [reflexivity|].
    destruct (isExpired cutoffTime s); [|reflexivity].
    cbn. repeat split; reflexivity.
Qed.

Lemma group_counts_add_up (rows : list InterviewSession) :
  sumCounts (groupBy status [active; paused; completed] rows)
  = Z.of_nat (List.length rows)
  /\ sumCounts (groupBy roleLevel [basic; intermediate; advanced] rows)
     = Z.of_nat (List.length rows).
Proof.
  unfold groupBy. cbn [List.map].
  assert (Hst : (List.length (List.filter (fun s => bool_decide (status s = active)) rows)
                 + List.length (List.filter (fun s => bool_decide (status s = paused)) rows)
                 + List.length (List.filter (fun s => bool_decide (status s = completed)) rows)
                 = List.length rows)%nat).
  { induction rows as [|s rows IH]; [reflexivity|]. cbn [List.filter].
    destruct (status s); repeat case_bool_decide; try congruence;
      cbn [List.length]; lia. }
  assert (Hlv : (List.length (List.filter (fun s => bool_decide (roleLevel s = basic)) rows)
                 + List.length (List.filter (fun s => bool_decide (roleLevel s = intermediate)) rows)
                 + List.length (List.filter (fun s => bool_decide (roleLevel s = advanced)) rows)
                 = List.length rows)%nat).
  { clear Hst. induction rows as [|s rows IH]; [reflexivity|]. cbn [List.filter].
    destruct (roleLevel s); repeat case_bool_decide; try congruence;
      cbn [List.length]; lia. }
  split.
  - revert Hst.
    generalize (List.length (List.filter (fun s => bool_decide (status s = active)) rows)).
    generalize (List.length (List.filter (fun s => bool_decide (status s = paused)) rows)).
    generalize (List.length (List.filter (fun s => bool_decide (status s = completed)) rows)).
    intros c p a Hst. cbn [List.filter snd].
    destruct (0 <? Z.of_nat a)%Z eqn:Ha, (0 <? Z.of_nat p)%Z eqn:Hp,
             (0 <? Z.of_nat c)%Z eqn:Hc;
      cbn [sumCounts List.fold_right snd]; lia.
  - revert Hlv.
    generalize (List.length (List.filter (fun s => bool_decide (roleLevel s = basic)) rows)).
    generalize (List.length (List.filter (fun s => bool_decide (roleLevel s = intermediate)) rows)).
    generalize (List.length (List.filter (fun s => bool_decide (roleLevel s = advanced)) rows)).
    intros c p a Hlv. cbn [List.filter snd].
    destruct (0 <? Z.of_nat a)%Z eqn:Ha, (0 <? Z.of_nat p)%Z eqn:Hp,
             (0 <? Z.of_nat c)%Z eqn:Hc;
      cbn [sumCounts List.fold_right snd]; lia.
Qed.

Lemma share_is_a_percentage (part whole : Z) :
  (0 <= part <= whole)%Z -> (0 < whole)%Z ->
  0 <= inject_Z part / inject_Z whole * 100
  /\ inject_Z part / inject_Z whole * 100 <= 100.
Proof.
  intros [H0 H1] Hw.
  assert (HwQ : 0 < inject_Z whole).
  { change 0 with (inject_Z 0). rewrite <- Zlt_Qlt. exact Hw. }
  assert (H0Q : 0 <= inject_Z part).
  { change 0 with (inject_Z 0). rewrite <- Zle_Qle. exact H0. }
  assert (H1Q : inject_Z part <= inject_Z whole).
  { rewrite <- Zle_Qle. exact H1. }
  assert (Hr0 : 0 <= inject_Z part / inject_Z whole).
  { apply Qle_shift_div_l; [exact HwQ|]. rewrite Qmult_0_l. exact H0Q. }
  assert (Hr1 : inject_Z part / inject_Z whole <= 1).
  { apply Qle_shift_div_r; [exact HwQ|]. rewrite Qmult_1_l. exact H1Q. }
  split; lra.
Qed.

(** X22.  In the statistics of the session table the counts by status add
    up to the total number of sessions, and so do the counts by role level;
    the completion rate is a percentage. *)
Theorem session_stats_are_consistent db :
  let stats := getSessionStats db in
  sumCounts (byStatus stats) = statsTotal stats
  /\ sumCounts (byRoleLevel stats) = statsTotal stats
  /\ statsTotal stats = Z.of_nat (size (interviewSessions db))
  /\ 0 <= statsCompletionRate stats /\ statsCompletionRate stats <= 100.
Proof.
  intros stats. subst stats. unfold getSessionStats.
  cbn [byStatus byRoleLevel statsTotal statsCompletionRate].
  destruct (group_counts_add_up (sessionRows db)) as [Hst Hlv].
  split; [exact Hst|]. split; [exact Hlv|]. split.
  - unfold sessionRows. rewrite List.length_map, length_map_to_list. reflexivity.
  - destruct (0 <? Z.of_nat (List.length (sessionRows db)))%Z eqn:Htotal.
    + apply Z.ltb_lt in Htotal. apply share_is_a_percentage; [|exact Htotal].
      split; [lia|]. apply Nat2Z.inj_le. apply List.filter_length_le.
    + split; [apply Qle_refl|discriminate].
Qed.

(** X23.  [updateSkillScores] changes the scores named in its argument and
    nothing else: every other score, field and row stays as it was, and an
    update that names no score leaves the database exactly as it was.  It
    fails exactly when the session is not stored. *)
Theorem updateSkillScores_changes_named_scores_only db i scores :
  match findById db i with
  | Ok (Some s) =>
      exists db' s',
        updateSkillScores db i scores = Ok (db', s')
        /\ skillAssessment s' = mergeScores (skillAssessment s) scores
        /\ status s' = status s
        /\ currentQuestionIndex s' = currentQuestionIndex s
        /\ conversationHistory s' = conversationHistory s
        /\ endTime s' = endTime s
        /\ sameButSession db db' i s'
        /\ (scores = {| partOverall := None; partBasicFormulas := None;
                        partDataManipulation := None; partPivotTables := None;
                        partAdvancedFunctions := None;
                        partDataVisualization := None; partMacrosVBA := None;
                        partDataModeling := None |} ->
            db' = db /\ s' = s)
  | _ => isOk (updateSkillScores db i scores) = false
  end.
Proof.
  destruct (findById db i) as [[s|]|m] eqn:Hfind.
  - apply findById_Some in Hfind as [Hi Hs].
    unfold updateSkillScores, validateId.
    destruct (decide (i = "")); [contradiction|]. cbn [bind].
    rewrite (proj2 (findById_Some db i s)) by auto. cbn [bind].
    rewrite (update_found db i _ s Hi Hs).
    eexists. eexists. split; [reflexivity|].
    do 5 (split; [reflexivity|]). split.
    + repeat split; reflexivity.
    + intros ->.
      assert (Hsame : applyUpdate s
                        {| updStatus := None; updCurrentQuestionIndex := None;
                           updConversationHistory := None;
                           updSkillAssessment :=
                             Some (mergeScores (skillAssessment s)
                                     {| partOverall := None; partBasicFormulas := None;
                                        partDataManipulation := None;
                                        partPivotTables := None;
                                        partAdvancedFunctions := None;
                                        partDataVisualization := None;
                                        partMacrosVBA := None;
                                        partDataModeling := None |});
                           updEndTime := None; updMetadata := None |} = s).
      { destruct s as [? ? ? ? ? ? sk ? ? ?]. destruct sk. reflexivity. }
      rewrite Hsame, (insert_id _ _ _ Hs).
      split; [|reflexivity]. destruct db. reflexivity.
  - unfold updateSkillScores. destruct (validateId i); [|reflexivity].
    cbn [bind]. rewrite Hfind. reflexivity.
  - unfold updateSkillScores. destruct (validateId i); [|reflexivity].
    cbn [bind]. rewrite Hfind. reflexivity.
Qed.

End Housekeeping.

(** *** Pagination *)

Section Paging.

Import Pagination.
Local Open Scope Q_scope.

Lemma limit_in_range options :
  1 <= Qmin 100 (Qmax 1 (orElse (optLimit options) 10))
  /\ Qmin 100 (Qmax 1 (orElse (optLimit options) 10)) <= 100.
Proof.
  split.
  - apply Q.min_glb; [discriminate|apply Q.le_max_l].
  - apply Q.le_min_l.
Qed.

Lemma div_le_mult a b c : 0 < b -> a / b <= c -> a <= c * b.
Proof.
  intros Hb H.
  assert (Ha : a == a / b * b) by (field; lra).
  rewrite Ha. apply Qmult_le_compat_r; [exact H|lra].
Qed.

Lemma mult_lt_div a b c : 0 < b -> c < a / b -> c * b < a.
Proof.
  intros Hb H.
  assert (Ha : a == a / b * b) by (field; lra).
  rewrite Ha. apply Qmult_lt_compat_r; assumption.
Qed.

(** X24.  [paginate] puts the page at 1 or more and the limit between 1
    and 100, and reports the least number of pages of that limit that hold
    [count] rows; the rows of the query are handed on as they are, all of
    them, whatever the page and the limit. *)
Theorem paginate_clamps_and_counts_pages {R} (rows : list R) count options :
  let result := paginate rows count options in
  data result = rows
  /\ total result = count
  /\ 1 <= page result
  /\ 1 <= limit result /\ limit result <= 100
  /\ inject_Z count <= inject_Z (totalPages result) * limit result
  /\ (inject_Z (totalPages result) - 1) * limit result < inject_Z count.
Proof.
  intros result. subst result. unfold paginate.
  cbn [data total page limit totalPages].
  destruct (limit_in_range options) as [Hlo Hhi].
  set (l := Qmin 100 (Qmax 1 (orElse (optLimit options) 10))) in *.
  assert (Hpos : 0 < l) by lra.
  split; [reflexivity|]. split; [reflexivity|].
  split; [apply Q.le_max_l|]. split; [exact Hlo|]. split; [exact Hhi|].
  pose proof (Qle_ceiling (inject_Z count / l)) as Hup.
  pose proof (Qceiling_lt (inject_Z count / l)) as Hdown.
  split.
  - apply div_le_mult; assumption.
  - apply mult_lt_div; [exact Hpos|].
    unfold Z.sub in Hdown. rewrite inject_Z_plus in Hdown.
    change (inject_Z (- (1))) with (- (1)) in Hdown. lra.
Qed.

Variable orderBy : option string -> option SortOrder
                   -> list InterviewSession -> list InterviewSession.

(** the database returns the rows it was asked to order, in some order *)
Hypothesis orderBy_permutes :
  forall column order rows, Permutation (orderBy column order rows) rows.

(** X25.  [findMany] returns the stored sessions that meet the filters, and
    it returns all of them on every page: the number of rows handed back is
    the total, whatever page and limit were asked for. *)
Theorem findMany_returns_every_matching_session db filters options :
  let result := findMany orderBy db filters options in
  (forall s, In s (data result)
             <-> (exists i, interviewSessions db !! i = Some s)
                 /\ matchesFilters filters s = true)
  /\ total result = Z.of_nat (List.length (data result)).
Proof.
  intros result. subst result. unfold findMany, paginate. cbn [data total].
  set (matching := List.filter (matchesFilters filters)
                     (SessionMaintenance.sessionRows db)).
  pose proof (orderBy_permutes (sortBy options) (sortOrder options) matching)
    as Hperm.
  split.
  - intros s. split.
    + intros Hin. apply (Permutation_in _ Hperm) in Hin.
      apply List.filter_In in Hin as [Hin Hmatch].
      split; [apply listed_session; exact Hin|exact Hmatch].
    + intros [[i Hs] Hmatch].
      apply (Permutation_in _ (Permutation_sym Hperm)).
      apply List.filter_In. split; [|exact Hmatch].
      apply (session_listed db i s Hs).
  - rewrite (Permutation_length Hperm). reflexivity.
Qed.

End Paging.

Lemma findMany_returns_every_matching_session_witness :
  (forall (column : option string) (order : option SortOrder)
          (rows : list InterviewSession),
      Permutation ((fun _ _ r => r) column order rows) rows)
  /\ let result :=
       Pagination.findMany (fun _ _ r => r) Fixtures.activeDb
         {| filterCandidateId := Some "cand-1"; filterStatus := Some active;
            filterRoleLevel := None; startedAfter := None; startedBefore := None;
            completedAfter := None; completedBefore := None |}
         {| optPage := Some 2%Q; optLimit := Some 5%Q; sortBy := None;
            sortOrder := None |} in
     (forall s, In s (data result)
                <-> (exists i, interviewSessions Fixtures.activeDb !! i = Some s)
                    /\ Pagination.matchesFilters
                         {| filterCandidateId := Some "cand-1";
                            filterStatus := Some active;
                            filterRoleLevel := None; startedAfter := None;
                            startedBefore := None; completedAfter := None;
                            completedBefore := None |} s = true)
     /\ total result = Z.of_nat (List.length (data result)).
Proof.
  assert (Hperm : forall (column : option string) (order : option SortOrder)
                         (rows : list InterviewSession),
             Permutation ((fun _ _ r => r) column order rows) rows).
  { intros column order rows. reflexivity. }
  split; [exact Hperm|].
  exact (findMany_returns_every_matching_session (fun _ _ r => r) Hperm
           Fixtures.activeDb _ _).
Defined.

(** *** The report service and the evaluation table *)

Section Reporting.

Import ReportService.
Local Open Scope Q_scope.

Lemma Qgeb_cases a b :
  (Questions.Qgeb a b = true /\ b <= a) \/ (Questions.Qgeb a b = false /\ a < b).
Proof.
  unfold Questions.Qgeb. destruct (Qle_bool b a) eqn:E.
  - left. split; [reflexivity|]. apply Qle_bool_iff. exact E.
  - right. split; [reflexivity|]. apply Qnot_le_lt. intros H.
    apply Qle_bool_iff in H. congruence.
Qed.

Lemma Qltb_cases a b :
  (Questions.Qltb a b = true /\ a < b) \/ (Questions.Qltb a b = false /\ b <= a).
Proof.
  destruct (Questions.Qltb a b) eqn:E.
  - left. split; [reflexivity|]. apply Qltb_lt. exact E.
  - right. split; [reflexivity|]. apply Qnot_lt_le. intros H.
    apply Qltb_lt in H. congruence.
Qed.

Ltac compare_scores :=
  repeat match goal with
         | |- context [Questions.Qgeb ?a ?b] =>
             let H := fresh "Hge" in
             destruct (Qgeb_cases a b) as [[-> H]|[-> H]]
         | |- context [Questions.Qltb ?a ?b] =>
             let H := fresh "Hlt" in
             destruct (Qltb_cases a b) as [[-> H]|[-> H]]
         end.

(** X26.  The hiring recommendation never gets worse when the overall
    score gets better, it is never better for a higher role level than for
    a lower one, and it is "insufficient data" only below a completion rate
    of 50. *)
Theorem hiring_recommendation_is_monotone score score' level rate :
  score <= score' ->
  (rankOf (generateHiringRecommendation score level rate)
   <= rankOf (generateHiringRecommendation score' level rate))%Z
  /\ (rankOf (generateHiringRecommendation score advanced rate)
      <= rankOf (generateHiringRecommendation score intermediate rate))%Z
  /\ (rankOf (generateHiringRecommendation score intermediate rate)
      <= rankOf (generateHiringRecommendation score basic rate))%Z
  /\ (generateHiringRecommendation score level rate = insufficient_data
      <-> rate < 50).
Proof.
  intros Hle. unfold generateHiringRecommendation.
  destruct (Qltb_cases rate 50) as [[-> Hrate]|[-> Hrate]].
  - cbn [rankOf]. repeat split; try lia; auto.
  - destruct level; cbn [thresholds fst snd]; compare_scores; cbn [rankOf];
      repeat split; try lia; try (exfalso; lra); try discriminate;
      intros; exfalso; lra.
Qed.

(** X27.  The three parts of a comparison with the baseline agree with one
    another and depend on the overall score alone: the percentile is 60 or
    more exactly when the overall score reaches the baseline of the role
    level, the candidate "exceeds" the requirements exactly from the 80th
    percentile on, which is where the benchmark is "Top performer", and
    "does not meet" them exactly up to the 30th. *)
Theorem compareToBaseline_is_consistent scores level :
  let result := compareToBaseline scores level in
  let baseline := overall (baselines level) in
  In (percentile result) [20; 30; 40; 50; 60; 70; 80; 90]
  /\ (60 <= percentile result <-> baseline <= overall scores)
  /\ (recommendation result
      = "Exceeds role requirements - consider for advanced positions"
      <-> 80 <= percentile result)
  /\ (recommendation result = "Does not meet minimum requirements for this role"
      <-> percentile result <= 30)
  /\ (benchmark result = "Top performer" <-> 80 <= percentile result)
  /\ (benchmark result = "Needs significant improvement"
      <-> percentile result <= 20)
  /\ (forall scores', overall scores' = overall scores ->
                      compareToBaseline scores' level = result).
Proof.
  intros result baseline. subst result baseline. unfold compareToBaseline.
  cbv zeta. cbn [percentile benchmark recommendation].
  split; [|split; [|split; [|split; [|split; [|split]]]]].
  7:{ intros scores' ->. reflexivity. }
  all: destruct level; cbn [baselines overall];
    repeat match goal with
           | |- context [Questions.Qgeb (overall ?s - ?b) ?k] =>
               let H := fresh "Hd" in
               destruct (Qgeb_cases (overall s - b) k) as [[-> H]|[-> H]]
           end;
    compare_scores; cbn [In];
    try (split; intros; first [reflexivity | lra | discriminate | (exfalso; lra)]);
    try tauto.
Qed.

Lemma insertSorted_length {A} (before : A -> A -> bool) x l :
  List.length (insertSorted before x l) = S (List.length l).
Proof.
  induction l as [|y l IH]; cbn [insertSorted]; [reflexivity|].
  destruct (before x y); cbn [List.length]; congruence.
Qed.

Lemma stableSort_length {A} (before : A -> A -> bool) l :
  List.length (stableSort before l) = List.length l.
Proof.
  induction l as [|x l IH]; [reflexivity|].
  unfold stableSort in *. cbn [List.fold_right].
  rewrite insertSorted_length. cbn [List.length]. congruence.
Qed.

Lemma findBySessionId_rows table i :
  i <> "" ->
  exists evaluations,
    EvaluationRepository.findBySessionId table i = Ok evaluations
    /\ List.length evaluations
       = List.length (List.filter (fun r => bool_decide (evalSessionId r = i)) table)
    /\ forall e, In e evaluations <-> In e table /\ evalSessionId e = i.
Proof.
  intros Hi. unfold EvaluationRepository.findBySessionId,
    InterviewSessionRepository.validateId.
  destruct (decide (i = "")); [contradiction|]. cbn [bind].
  eexists. split; [reflexivity|]. split; [apply stableSort_length|].
  intros e. split.
  - intros Hin. apply stableSort_In, List.filter_In in Hin as [Hin He].
    apply bool_decide_eq_true in He. auto.
  - intros [Hin He]. apply In_stableSort, List.filter_In.
    split; [exact Hin|]. apply bool_decide_eq_true. exact He.
Qed.

Lemma extractStrengths_nonempty evaluation : extractStrengths evaluation <> [].
Proof.
  unfold extractStrengths.
  match goal with
  | |- context [(0 <? List.length ?l)%nat] =>
      destruct l as [|x l']; cbn [List.length Nat.ltb Nat.leb]; discriminate
  end.
Qed.

(** what a report says once the evaluations of the session are known *)
Lemma generateReport_found table session evaluations :
  EvaluationRepository.findBySessionId table (sessionId session) = Ok evaluations ->
  evaluations <> [] ->
  exists report,
    generateReport table session = Ok report
    /\ completionRate report = 100
    /\ overallScore report = overall (skillAssessment session)
    /\ skillBreakdown report = skillAssessment session
    /\ reportCandidateId report = candidateId session
    /\ hiringRecommendation report
       = generateHiringRecommendation (overall (skillAssessment session))
           (roleLevel session) 100
    /\ interviewDuration report
       = match endTime session with
         | Some e => Qfloor ((inject_Z e - inject_Z (startTime session)) / 1000)
         | None => 0%Z
         end
    /\ List.map feedbackQuestionId (detailedFeedback report)
       = List.map evalQuestionId evaluations
    /\ List.map feedbackScore (detailedFeedback report)
       = List.map evalScore evaluations
    /\ Forall (fun f => strengths f <> []) (detailedFeedback report).
Proof.
  intros Hfind Hne. unfold generateReport. rewrite Hfind. cbn [bind].
  destruct evaluations as [|e evaluations]; [congruence|].
  cbn [List.length Nat.eqb Nat.ltb Nat.leb].
  destruct (analyzePerformance (skillAssessment session) (e :: evaluations))
    as [strong weak].
  eexists. split; [reflexivity|].
  cbn [completionRate overallScore skillBreakdown reportCandidateId
       hiringRecommendation interviewDuration detailedFeedback].
  do 6 (split; [reflexivity|]).
  split; [rewrite List.map_map; reflexivity|].
  split; [rewrite List.map_map; reflexivity|].
  apply Forall_forall. intros f Hin. apply list_elem_of_In in Hin.
  apply List.in_map_iff in Hin as (e' & <- & _). cbn [strengths].
  apply extractStrengths_nonempty.
Qed.

(** X28.  A report is produced exactly for a session with a non-empty
    identifier that has an evaluation in the table.  It has one feedback
    entry for every evaluation of the session, each with a strength to
    name; its overall score and skill breakdown are the assessment stored
    in the session, the recommendation is the one that goes with that
    overall score at a completion rate of 100, and so it is never
    "insufficient data". *)
Theorem generateReport_characterised table session :
  match generateReport table session with
  | Ok report =>
      sessionId session <> "" /\ hasEvaluation table session
      /\ completionRate report = 100
      /\ overallScore report = overall (skillAssessment session)
      /\ skillBreakdown report = skillAssessment session
      /\ hiringRecommendation report
         = generateHiringRecommendation (overall (skillAssessment session))
             (roleLevel session) 100
      /\ hiringRecommendation report <> insufficient_data
      /\ List.length (detailedFeedback report)
         = List.length
             (List.filter
                (fun r => bool_decide (evalSessionId r = sessionId session)) table)
      /\ Forall (fun f => strengths f <> []) (detailedFeedback report)
  | Err m =>
      (sessionId session = "" /\ m = "Invalid ID provided")
      \/ (sessionId session <> "" /\ ~ hasEvaluation table session
          /\ m = "No evaluations found for session")
  end.
Proof.
  destruct (decide (sessionId session = "")) as [Hid|Hid].
  - unfold generateReport, EvaluationRepository.findBySessionId,
      InterviewSessionRepository.validateId.
    rewrite Hid. cbn. left. split; reflexivity.
  - destruct (findBySessionId_rows table (sessionId session) Hid)
      as (evaluations & Hfind & Hlen & Hrows).
    destruct (decide (evaluations = [])) as [->|Hne].
    + unfold generateReport. rewrite Hfind. cbn. right.
      split; [exact Hid|]. split; [|reflexivity].
      intros (r & Hin & Hr). apply (Hrows r). split; assumption.
    + destruct (generateReport_found table session evaluations Hfind Hne)
        as (report & -> & Hrate & Hover & Hskill & _ & Hrec & _ & Hq & _ & Hst).
      split; [exact Hid|]. split.
      { destruct evaluations as [|e rest]; [congruence|].
        exists e. apply Hrows. left. reflexivity. }
      split; [exact Hrate|]. split; [exact Hover|]. split; [exact Hskill|].
      split; [exact Hrec|]. split.
      { rewrite Hrec. unfold generateHiringRecommendation.
        replace (Questions.Qltb 100 50) with false by reflexivity.
        destruct (Questions.Qgeb _ _); [discriminate|].
        destruct (Questions.Qgeb _ _); discriminate. }
      split; [|exact Hst].
      rewrite <- Hlen, <- (List.length_map feedbackQuestionId), Hq,
        List.length_map. reflexivity.
Qed.

(** X29.  The report of a session that was completed through the
    orchestrator goes by the role level alone: whatever the evaluations
    say, its overall score is 75, and the recommendation is "hire" for the
    basic and the intermediate level and "no hire" for the advanced one. *)
Theorem report_after_completion_goes_by_the_level db i now s db' s' table :
  InterviewSessionRepository.findById db i = Ok (Some s) ->
  sessionId s = i ->
  InterviewOrchestrator.completeInterview db i now = Ok (db', s') ->
  hasEvaluation table s ->
  exists report,
    generateReport table s' = Ok report
    /\ overallScore report = 75
    /\ hiringRecommendation report
       = match roleLevel s with
         | advanced => no_hire
         | _ => hire
         end
    /\ interviewDuration report
       = Qfloor ((inject_Z now - inject_Z (startTime s)) / 1000).
Proof.
  intros Hfind Hkey Hdone (r & Hin & Hr).
  pose proof Hfind as Hfind'. apply findById_Some in Hfind' as [Hi Hs].
  unfold InterviewOrchestrator.completeInterview in Hdone.
  rewrite Hfind in Hdone. cbn [bind] in Hdone.
  unfold InterviewSessionRepository.completeSession in Hdone.
  rewrite (update_found db i _ s Hi Hs) in Hdone.
  injection Hdone as _ <-.
  assert (Hid : sessionId s <> "") by congruence.
  destruct (findBySessionId_rows table (sessionId s) Hid)
    as (evaluations & Hrows & _ & Hmem).
  assert (Hne : evaluations <> []).
  { intros ->. apply (Hmem r). split; assumption. }
  match goal with
  | |- context [generateReport table ?s1] =>
      destruct (generateReport_found table s1 evaluations Hrows Hne)
        as (report & Hreport & _ & Hover & _ & _ & Hrec & Hdur & _)
  end.
  exists report. split; [exact Hreport|]. split; [exact Hover|].
  split; [|exact Hdur].
  rewrite Hrec. cbn [InterviewSessionRepository.applyUpdate roleLevel
    skillAssessment default]. destruct (roleLevel s); reflexivity.
Qed.

(** X30.  [create] stores an evaluation exactly when every required field
    is there, the score is in (0,100], the confidence in (0,1], the
    session and the question exist and the identifier is new.  A score or
    a confidence of 0 is turned down as a missing field, although 0 lies
    in the range that is checked afterwards.  What is stored is one new
    row at the end of the table, holding the data as given. *)
Theorem evaluation_create_accepts_valid_rows_only db table data newId now :
  (isOk (EvaluationRepository.create db table data newId now) = true
   <-> newSessionId data <> "" /\ newQuestionId data <> ""
       /\ newCandidateResponse data <> ""
       /\ 0 < newScore data /\ newScore data <= 100
       /\ 0 < newConfidence data /\ newConfidence data <= 1
       /\ is_Some (interviewSessions db !! newSessionId data)
       /\ (exists q, In q (excelQuestionTable db) /\ dbId q = newQuestionId data)
       /\ (forall r, In r table -> evalId r <> newId))
  /\ (forall table' row,
        EvaluationRepository.create db table data newId now = Ok (table', row) ->
        table' = (table ++ [row])%list
        /\ evalId row = newId /\ evalSessionId row = newSessionId data
        /\ evalQuestionId row = newQuestionId data
        /\ candidateResponse row = newCandidateResponse data
        /\ evalScore row = newScore data
        /\ evalConfidence row = newConfidence data
        /\ evalCreatedAt row = now).
Proof.
  unfold EvaluationRepository.create, EvaluationRepository.validateRequired,
    EvaluationRepository.missingFields.
  destruct (decide (newSessionId data = "")) as [Hs|Hs];
    [split; [split; [discriminate|intros (? & _); contradiction]|discriminate]|].
  destruct (decide (newQuestionId data = "")) as [Hq|Hq];
    [split; [split; [discriminate|intros (_ & ? & _); contradiction]|discriminate]|].
  destruct (decide (newCandidateResponse data = "")) as [Hr|Hr];
    [split; [split; [discriminate|intros (_ & _ & ? & _); contradiction]
            |discriminate]|].
  destruct (Qeq_bool (newScore data) 0) eqn:Hs0.
  { apply Qeq_bool_iff in Hs0. split; [|destruct (Qeq_bool _ _); discriminate].
    split; [destruct (Qeq_bool _ _); discriminate|].
    intros (_ & _ & _ & Hpos & _). rewrite Hs0 in Hpos.
    exfalso. apply (Qlt_irrefl 0). exact Hpos. }
  destruct (Qeq_bool (newConfidence data) 0) eqn:Hc0.
  { apply Qeq_bool_iff in Hc0. split; [|discriminate].
    split; [discriminate|].
    intros (_ & _ & _ & _ & _ & Hpos & _). rewrite Hc0 in Hpos.
    exfalso. apply (Qlt_irrefl 0). exact Hpos. }
  apply Qeq_bool_neq in Hs0. apply Qeq_bool_neq in Hc0.
  cbn [List.app List.length Nat.ltb Nat.leb bind].
  destruct (Qltb_cases (newScore data) 0) as [[-> Hs1]|[-> Hs1]]; cbn [orb].
  { split; [split; [discriminate|intros (_ & _ & _ & ? & _); exfalso; lra]
           |discriminate]. }
  destruct (Qltb_cases 100 (newScore data)) as [[-> Hs2]|[-> Hs2]].
  { split; [split; [discriminate|intros (_ & _ & _ & _ & ? & _); exfalso; lra]
           |discriminate]. }
  destruct (Qltb_cases (newConfidence data) 0) as [[-> Hc1]|[-> Hc1]]; cbn [orb].
  { split; [split; [discriminate|intros (_ & _ & _ & _ & _ & ? & _); exfalso; lra]
           |discriminate]. }
  destruct (Qltb_cases 1 (newConfidence data)) as [[-> Hc2]|[-> Hc2]].
  { split; [split; [discriminate
                   |intros (_ & _ & _ & _ & _ & _ & ? & _); exfalso; lra]
           |discriminate]. }
  assert (Hspos : 0 < newScore data).
  { destruct (Qlt_le_dec 0 (newScore data)) as [|Hle]; [assumption|].
    exfalso. apply Hs0. lra. }
  assert (Hcpos : 0 < newConfidence data).
  { destruct (Qlt_le_dec 0 (newConfidence data)) as [|Hle]; [assumption|].
    exfalso. apply Hc0. lra. }
  destruct (interviewSessions db !! newSessionId data) as [session|] eqn:Hsession.
  2:{ split; [|discriminate]. split; [discriminate|].
      intros (_ & _ & _ & _ & _ & _ & _ & [? H] & _). discriminate H. }
  destruct (List.find (fun q => bool_decide (dbId q = newQuestionId data))
                      (excelQuestionTable db)) as [question|] eqn:Hquestion.
  2:{ split; [|discriminate]. split; [discriminate|].
      intros (_ & _ & _ & _ & _ & _ & _ & _ & (q & Hin & Hid) & _).
      pose proof (List.find_none _ _ Hquestion q Hin) as Hno. cbn in Hno.
      apply bool_decide_eq_false in Hno. contradiction. }
  apply List.find_some in Hquestion as [Hqin Hqid].
  apply bool_decide_eq_true in Hqid.
  destruct (List.existsb (fun r => bool_decide (evalId r = newId)) table)
    eqn:Hexists.
  { split; [|discriminate]. split; [discriminate|].
    intros (_ & _ & _ & _ & _ & _ & _ & _ & _ & Hnew).
    apply List.existsb_exists in Hexists as (r & Hin & Hdup).
    apply bool_decide_eq_true in Hdup. exfalso. exact (Hnew r Hin Hdup). }
  split.
  - split; [intros _|reflexivity].
    do 7 (split; [assumption|]). split; [eexists; reflexivity|].
    split; [exists question; auto|].
    intros r Hin Hdup.
    assert (Hex : List.existsb (fun r => bool_decide (evalId r = newId)) table
                  = true).
    { apply List.existsb_exists. exists r. split; [exact Hin|].
      apply bool_decide_eq_true. exact Hdup. }
    congruence.
  - intros table' row [= <- <-]. repeat split; reflexivity.
Qed.

End Reporting.

Lemma hiring_recommendation_is_monotone_witness :
  (rankOf (ReportService.generateHiringRecommendation 72 intermediate 100)
   <= rankOf (ReportService.generateHiringRecommendation 91 intermediate 100))%Z
  /\ (rankOf (ReportService.generateHiringRecommendation 72 advanced 100)
      <= rankOf (ReportService.generateHiringRecommendation 72 intermediate 100))%Z
  /\ (rankOf (ReportService.generateHiringRecommendation 72 intermediate 100)
      <= rankOf (ReportService.generateHiringRecommendation 72 basic 100))%Z
  /\ (ReportService.generateHiringRecommendation 72 intermediate 100
      = insufficient_data <-> (100 < 50)%Q).
Proof.
  apply (hiring_recommendation_is_monotone 72 91 intermediate 100).
  vm_compute. discriminate.
Defined.

Lemma report_after_completion_goes_by_the_level_witness :
  exists db' s',
    InterviewOrchestrator.completeInterview Fixtures.activeDb "session-1" 5000
    = Ok (db', s')
    /\ exists report,
         ReportService.generateReport MoreFixtures.evaluationTable s' = Ok report
         /\ overallScore report = 75%Q
         /\ hiringRecommendation report
            = match roleLevel Fixtures.activeSession with
              | advanced => no_hire
              | _ => hire
              end
         /\ interviewDuration report
            = Qfloor ((inject_Z 5000 - inject_Z (startTime Fixtures.activeSession))
                      / 1000).
Proof.
  eexists. eexists. split; [vm_compute; reflexivity|].
  eapply (report_after_completion_goes_by_the_level Fixtures.activeDb "session-1"
            5000 Fixtures.activeSession _ _ MoreFixtures.evaluationTable).
  - reflexivity.
  - reflexivity.
  - vm_compute. reflexivity.
  - eexists. split; [left; reflexivity|reflexivity].
Defined.
